(** * Akhand Office: task completion, status cascade and date presets

    A shallow embedding of the data layer of [consolidated-app.py]:
    the relational tables the models write to, the statements of
    [TaskModel], [CompanyModel], [BranchModel] and [EmployeeModel] that
    the properties below are about, the [RolePermissions] table and the
    date-range presets of the report views.

    Tables are lists of rows in insertion order.  A nullable column is an
    [option]; an integer column is a [Z].  A function that takes the
    connection [conn] is a computation in the monad [Conn], which threads
    the database through the statements in the order the source runs
    them. *)

From Stdlib Require Import ZArith List Bool String Lia Permutation.
Import ListNotations.
Open Scope Z_scope.

(** ** Python values *)

Module Py.

(** Truth value of an [int]-or-[None] used as a condition
    ([if task[0]:], [if branch_id and not employee_id:]). *)
Definition truthy (v : option Z) : bool :=
  match v with
  | Some z => negb (z =? 0)
  | None => false
  end.

(** [a == b] where [a] is an [int] or [None] and [b] is an [int]. *)
Definition eq_int (a : option Z) (b : Z) : bool :=
  match a with
  | Some z => z =? b
  | None => false
  end.

End Py.

(** ** The [datetime.date] values the views compute with

    [date] follows CPython's [datetime] module: a proleptic Gregorian
    calendar date between years 1 and 9999, its ordinal ([toordinal],
    [fromordinal]), [weekday] (Monday is 0), the constructor with its range
    check, [replace] and the subtraction of a [timedelta] of whole days.
    An operation that raises ([ValueError], [OverflowError]) is [None]. *)

Module Datetime.

Record date := mkdate { year : Z; month : Z; day : Z }.

Definition MINYEAR := 1.
Definition MAXYEAR := 9999.
Definition _MAXORDINAL := 3652059.

Definition _is_leap (y : Z) : bool :=
  (y mod 4 =? 0) && (negb (y mod 100 =? 0) || (y mod 400 =? 0)).

Definition _DAYS_IN_MONTH (m : Z) : Z :=
  match m with
  | 1 => 31 | 2 => 28 | 3 => 31 | 4 => 30 | 5 => 31 | 6 => 30
  | 7 => 31 | 8 => 31 | 9 => 30 | 10 => 31 | 11 => 30 | 12 => 31
  | _ => -1
  end.

Definition _DAYS_BEFORE_MONTH (m : Z) : Z :=
  match m with
  | 1 => 0 | 2 => 31 | 3 => 59 | 4 => 90 | 5 => 120 | 6 => 151
  | 7 => 181 | 8 => 212 | 9 => 243 | 10 => 273 | 11 => 304 | 12 => 334
  | _ => -1
  end.

Definition _days_before_year (y : Z) : Z :=
  let y := y - 1 in
  y * 365 + y / 4 - y / 100 + y / 400.

Definition _days_in_month (y m : Z) : Z :=
  if (m =? 2) && _is_leap y then 29 else _DAYS_IN_MONTH m.

Definition _days_before_month (y m : Z) : Z :=
  _DAYS_BEFORE_MONTH m + (if (2 <? m) && _is_leap y then 1 else 0).

Definition _ymd2ord (y m d : Z) : Z :=
  _days_before_year y + _days_before_month y m + d.

Definition _DI400Y := 146097.
Definition _DI100Y := 36524.
Definition _DI4Y := 1461.

Definition _ord2ymd (n : Z) : date :=
  let n := n - 1 in
  let n400 := n / _DI400Y in
  let n := n mod _DI400Y in
  let y := n400 * 400 + 1 in
  let n100 := n / _DI100Y in
  let n := n mod _DI100Y in
  let n4 := n / _DI4Y in
  let n := n mod _DI4Y in
  let n1 := n / 365 in
  let n := n mod 365 in
  let y := y + (n100 * 100 + n4 * 4 + n1) in
  if (n1 =? 4) || (n100 =? 4) then mkdate (y - 1) 12 31
  else
    let leapyear := (n1 =? 3) && (negb (n4 =? 24) || (n100 =? 3)) in
    let m := Z.shiftr (n + 50) 5 in
    let preceding :=
      _DAYS_BEFORE_MONTH m + (if (2 <? m) && leapyear then 1 else 0) in
    if n <? preceding then
      let m := m - 1 in
      let preceding :=
        preceding
        - (_DAYS_IN_MONTH m + (if (m =? 2) && leapyear then 1 else 0)) in
      mkdate y m (n - preceding + 1)
    else mkdate y m (n - preceding + 1).

(** The range check of the constructor ([_check_date_fields]). *)
Definition valid_ymd (y m d : Z) : bool :=
  (MINYEAR <=? y) && (y <=? MAXYEAR)
  && (1 <=? m) && (m <=? 12)
  && (1 <=? d) && (d <=? _days_in_month y m).

Definition valid (d : date) : bool := valid_ymd (year d) (month d) (day d).

(** [datetime.date(y, m, d)] *)
Definition new (y m d : Z) : option date :=
  if valid_ymd y m d then Some (mkdate y m d) else None.

Definition toordinal (d : date) : Z := _ymd2ord (year d) (month d) (day d).

Definition fromordinal (n : Z) : date := _ord2ymd n.

(** [d.weekday()]: Monday is 0, Sunday is 6. *)
Definition weekday (d : date) : Z := (toordinal d + 6) mod 7.

(** [d.replace(day=...)] and [d.replace(month=..., day=...)] *)
Definition replace_day (d : date) (dd : Z) : option date :=
  new (year d) (month d) dd.

Definition replace_month_day (d : date) (mm dd : Z) : option date :=
  new (year d) mm dd.

(** [d - timedelta(days=n)] *)
Definition sub_days (d : date) (n : Z) : option date :=
  let o := toordinal d - n in
  if (0 <? o) && (o <=? _MAXORDINAL) then Some (fromordinal o) else None.

(** Sequencing of operations that may raise. *)
Definition bind {A B : Type} (c : option A) (k : A -> option B) : option B :=
  match c with
  | Some a => k a
  | None => None
  end.

End Datetime.

Notation "x <-? c ;; k" := (Datetime.bind c (fun x => k))
  (at level 61, c at next level, right associativity).

(** ** The relational store

    One module per table of [init_db], named after the table, so that a
    column reads [tasks.id t] as in the SQL.  The [created_at] columns
    (filled by [DEFAULT CURRENT_TIMESTAMP]), the credential and picture
    columns of [companies] and the [is_main_branch], [location] and
    [branch_head] columns of [branches] are read and written by none of
    the statements below and are left out.  The boolean columns have a
    [DEFAULT] and the application writes [TRUE] or [FALSE] to them, never
    [NULL]: they are [bool]. *)

Definition timestamp := Z.

Module companies.
Record row := mk
  { id : Z; company_name : string; is_active : bool }.
End companies.

Module branches.
Record row := mk
  { id : Z; company_id : option Z; parent_branch_id : option Z;
    branch_name : string; is_active : bool }.
End branches.

Module employee_roles.
Record row := mk
  { id : Z; role_name : string; role_level : Z; company_id : option Z }.
End employee_roles.

Module employees.
Record row := mk
  { id : Z; branch_id : option Z; role_id : option Z;
    username : string; password : string; full_name : string;
    profile_pic_url : string; is_active : bool }.
End employees.

Module tasks.
Record row := mk
  { id : Z; company_id : option Z; branch_id : option Z;
    employee_id : option Z; task_description : string;
    due_date : option Datetime.date; is_completed : bool;
    completed_by_id : option Z; completed_at : option timestamp }.
End tasks.

Module task_assignments.
Record row := mk
  { id : Z; task_id : option Z; employee_id : option Z;
    is_completed : bool; completed_at : option timestamp }.
End task_assignments.

(** The database: the six tables and the next value of the [SERIAL]
    sequence of each table the modelled code inserts into.  A table is the
    list of its rows in the order of insertion.  The constraints of
    [init_db] (primary keys, [REFERENCES], [UNIQUE], [VARCHAR] limits) are
    not part of a table: a write below is the effect of a statement that
    the database accepts, and the checks in the section on the constraints
    of [init_db] say for which arguments it is accepted. *)
Record DB := mkDB
  { companies : list companies.row;
    branches : list branches.row;
    employee_roles : list employee_roles.row;
    employees : list employees.row;
    tasks : list tasks.row;
    task_assignments : list task_assignments.row;
    employees_id_seq : Z;
    tasks_id_seq : Z;
    task_assignments_id_seq : Z }.

(** ** SQL statements over a table *)

Module Sql.

(** [column = :param]; a [NULL] column equals nothing. *)
Definition eqc (column : option Z) (param : Z) : bool :=
  match column with
  | Some z => z =? param
  | None => false
  end.

(** [UPDATE t SET ... WHERE ...] *)
Definition update {R : Type} (where_ : R -> bool) (set : R -> R)
    (t : list R) : list R :=
  map (fun r => if where_ r then set r else r) t.

(** [SELECT ... FROM t WHERE ...] *)
Definition select {R : Type} (where_ : R -> bool) (t : list R) : list R :=
  filter where_ t.

(** [INSERT INTO t VALUES ...] *)
Definition insert {R : Type} (r : R) (t : list R) : list R := t ++ [r].

(** [result.fetchone()] *)
Definition fetchone {R : Type} (rows : list R) : option R :=
  match rows with
  | r :: _ => Some r
  | [] => None
  end.

(** [SELECT COUNT( * ) ...] *)
Definition count {R : Type} (rows : list R) : Z :=
  Z.of_nat (List.length rows).

(** [DELETE FROM t WHERE ...] *)
Definition delete {R : Type} (where_ : R -> bool) (t : list R) : list R :=
  filter (fun r => negb (where_ r)) t.

(** [... ORDER BY ...]: the rows in ascending order of the sort key, [leb]
    being the comparison of two rows by that key.  Rows with equal keys
    come in table order, one of the orders the database may return; the
    properties below hold for every order. *)
Fixpoint insert_by {R : Type} (leb : R -> R -> bool) (r : R) (rows : list R)
    : list R :=
  match rows with
  | [] => [r]
  | r' :: rest => if leb r r' then r :: rows else r' :: insert_by leb r rest
  end.

Definition order_by {R : Type} (leb : R -> R -> bool) (rows : list R)
    : list R :=
  fold_right (insert_by leb) [] rows.

End Sql.

(** ** Computations on a connection *)

Definition Conn (A : Type) : Type := DB -> A * DB.

Definition ret {A : Type} (a : A) : Conn A := fun db => (a, db).

Definition bind {A B : Type} (c : Conn A) (k : A -> Conn B) : Conn B :=
  fun db => let (a, db') := c db in k a db'.

(** A statement that reads. *)
Definition query {A : Type} (q : DB -> A) : Conn A := fun db => (q db, db).

(** A statement that writes. *)
Definition execute (w : DB -> DB) : Conn unit := fun db => (tt, w db).

Notation "x <- c ;; k" := (bind c (fun x => k))
  (at level 61, c at next level, right associativity).
Notation "c ;;; k" := (bind c (fun _ => k))
  (at level 61, right associativity).

(** [for x in xs: body x] *)
Fixpoint for_each {A : Type} (xs : list A) (body : A -> Conn unit)
    : Conn unit :=
  match xs with
  | [] => ret tt
  | x :: xs' => body x ;;; for_each xs' body
  end.

(** Writing one table of the database. *)
Definition with_companies (f : list companies.row -> list companies.row)
    (db : DB) : DB :=
  mkDB (f (companies db)) (branches db) (employee_roles db) (employees db)
    (tasks db) (task_assignments db)
    (employees_id_seq db) (tasks_id_seq db) (task_assignments_id_seq db).

Definition with_branches (f : list branches.row -> list branches.row)
    (db : DB) : DB :=
  mkDB (companies db) (f (branches db)) (employee_roles db) (employees db)
    (tasks db) (task_assignments db)
    (employees_id_seq db) (tasks_id_seq db) (task_assignments_id_seq db).

Definition with_employees (f : list employees.row -> list employees.row)
    (db : DB) : DB :=
  mkDB (companies db) (branches db) (employee_roles db) (f (employees db))
    (tasks db) (task_assignments db)
    (employees_id_seq db) (tasks_id_seq db) (task_assignments_id_seq db).

Definition with_tasks (f : list tasks.row -> list tasks.row) (db : DB) : DB :=
  mkDB (companies db) (branches db) (employee_roles db) (employees db)
    (f (tasks db)) (task_assignments db)
    (employees_id_seq db) (tasks_id_seq db) (task_assignments_id_seq db).

Definition with_task_assignments
    (f : list task_assignments.row -> list task_assignments.row)
    (db : DB) : DB :=
  mkDB (companies db) (branches db) (employee_roles db) (employees db)
    (tasks db) (f (task_assignments db))
    (employees_id_seq db) (tasks_id_seq db) (task_assignments_id_seq db).

(** [nextval] of the three sequences: the value an [INSERT] gives the
    [SERIAL] column [id]. *)
Definition nextval_employees : Conn Z :=
  fun db =>
    (employees_id_seq db,
     mkDB (companies db) (branches db) (employee_roles db) (employees db)
       (tasks db) (task_assignments db)
       (employees_id_seq db + 1) (tasks_id_seq db)
       (task_assignments_id_seq db)).

Definition nextval_tasks : Conn Z :=
  fun db =>
    (tasks_id_seq db,
     mkDB (companies db) (branches db) (employee_roles db) (employees db)
       (tasks db) (task_assignments db)
       (employees_id_seq db) (tasks_id_seq db + 1)
       (task_assignments_id_seq db)).

Definition nextval_task_assignments : Conn Z :=
  fun db =>
    (task_assignments_id_seq db,
     mkDB (companies db) (branches db) (employee_roles db) (employees db)
       (tasks db) (task_assignments db)
       (employees_id_seq db) (tasks_id_seq db)
       (task_assignments_id_seq db + 1)).

(** ** CompanyModel *)

Module CompanyModel.

(** [update_company_status(conn, company_id, is_active)]: three
    [UPDATE]s, on the company, on its branches and on the employees of
    its branches, all with the same [:is_active]. *)
Definition update_company_status (company_id : Z) (is_active : bool)
    : Conn unit :=
  execute (with_companies (Sql.update
    (fun c => companies.id c =? company_id)
    (fun c => companies.mk (companies.id c) (companies.company_name c)
                is_active))) ;;;
  execute (with_branches (Sql.update
    (fun b => Sql.eqc (branches.company_id b) company_id)
    (fun b => branches.mk (branches.id b) (branches.company_id b)
                (branches.parent_branch_id b) (branches.branch_name b)
                is_active))) ;;;
  execute (fun db => with_employees (Sql.update
    (fun e => existsb (fun i => Sql.eqc (employees.branch_id e) i)
                (map branches.id
                   (Sql.select
                      (fun b => Sql.eqc (branches.company_id b) company_id)
                      (branches db))))
    (fun e => employees.mk (employees.id e) (employees.branch_id e)
                (employees.role_id e) (employees.username e)
                (employees.password e) (employees.full_name e)
                (employees.profile_pic_url e) is_active)) db).

End CompanyModel.

(** ** BranchModel *)

Module BranchModel.

(** [update_branch_status(conn, branch_id, is_active)]: the branch, then
    the employees of the branch, with the same [:is_active]. *)
Definition update_branch_status (branch_id : Z) (is_active : bool)
    : Conn unit :=
  execute (with_branches (Sql.update
    (fun b => branches.id b =? branch_id)
    (fun b => branches.mk (branches.id b) (branches.company_id b)
                (branches.parent_branch_id b) (branches.branch_name b)
                is_active))) ;;;
  execute (with_employees (Sql.update
    (fun e => Sql.eqc (employees.branch_id e) branch_id)
    (fun e => employees.mk (employees.id e) (employees.branch_id e)
                (employees.role_id e) (employees.username e)
                (employees.password e) (employees.full_name e)
                (employees.profile_pic_url e) is_active))).

End BranchModel.

(** ** EmployeeModel *)

Module EmployeeModel.

Definition default_pic : string :=
  "https://www.gravatar.com/avatar/00000000000000000000000000000000?d=mp&f=y".

(** [add_employee(conn, branch_id, role_id, username, password,
    full_name, profile_pic_url)]: one [INSERT INTO employees], active.
    The [INSERT] is accepted for a branch and a role that exist, a user
    name not in use and values within the [VARCHAR] limits
    ([employee_accepted] below). *)
Definition add_employee (branch_id role_id : Z)
    (username password full_name profile_pic_url : string) : Conn unit :=
  id <- nextval_employees ;;
  execute (with_employees (Sql.insert
    (employees.mk id (Some branch_id) (Some role_id) username password
       full_name
       (match profile_pic_url with
        | EmptyString => default_pic
        | _ => profile_pic_url
        end)
       true))).

(** [update_employee_status(conn, employee_id, is_active)] *)
Definition update_employee_status (employee_id : Z) (is_active : bool)
    : Conn unit :=
  execute (with_employees (Sql.update
    (fun e => employees.id e =? employee_id)
    (fun e => employees.mk (employees.id e) (employees.branch_id e)
                (employees.role_id e) (employees.username e)
                (employees.password e) (employees.full_name e)
                (employees.profile_pic_url e) is_active))).

(** [update_employee_role(conn, employee_id, role_id)] *)
Definition update_employee_role (employee_id role_id : Z) : Conn unit :=
  execute (with_employees (Sql.update
    (fun e => employees.id e =? employee_id)
    (fun e => employees.mk (employees.id e) (employees.branch_id e)
                (Some role_id) (employees.username e)
                (employees.password e) (employees.full_name e)
                (employees.profile_pic_url e) (employees.is_active e)))).

(** [update_employee_branch(conn, employee_id, branch_id)]; the [UPDATE]
    is accepted for a branch that exists. *)
Definition update_employee_branch (employee_id branch_id : Z) : Conn unit :=
  execute (with_employees (Sql.update
    (fun e => employees.id e =? employee_id)
    (fun e => employees.mk (employees.id e) (Some branch_id)
                (employees.role_id e) (employees.username e)
                (employees.password e) (employees.full_name e)
                (employees.profile_pic_url e) (employees.is_active e)))).

(** [SET password = ...] on a row of [employees]; the column is
    [VARCHAR(255)] and a longer value is refused. *)
Definition set_password (new_password : string) (e : employees.row)
    : employees.row :=
  employees.mk (employees.id e) (employees.branch_id e)
    (employees.role_id e) (employees.username e) new_password
    (employees.full_name e) (employees.profile_pic_url e)
    (employees.is_active e).

(** [reset_password(conn, employee_id, new_password)] *)
Definition reset_password (employee_id : Z) (new_password : string)
    : Conn unit :=
  execute (with_employees (Sql.update
    (fun e => employees.id e =? employee_id) (set_password new_password))).

(** [update_password(conn, employee_id, new_password)] *)
Definition update_password (employee_id : Z) (new_password : string)
    : Conn unit :=
  execute (with_employees (Sql.update
    (fun e => employees.id e =? employee_id) (set_password new_password))).

(** [update_profile(conn, employee_id, full_name, profile_pic_url)] *)
Definition update_profile (employee_id : Z)
    (full_name profile_pic_url : string) : Conn unit :=
  execute (with_employees (Sql.update
    (fun e => employees.id e =? employee_id)
    (fun e => employees.mk (employees.id e) (employees.branch_id e)
                (employees.role_id e) (employees.username e)
                (employees.password e) full_name profile_pic_url
                (employees.is_active e)))).

(** [verify_password(conn, employee_id, current_password)] *)
Definition verify_password (employee_id : Z) (current_password : string)
    : Conn bool :=
  query (fun db =>
    0 <? Sql.count
           (Sql.select
              (fun e => (employees.id e =? employee_id)
                        && String.eqb (employees.password e)
                             current_password)
              (employees db))).

End EmployeeModel.

(** ** TaskModel *)

Module TaskModel.

(** [SET is_completed = TRUE, completed_at = :now,
    completed_by_id = :employee_id] on a row of [tasks]. *)
Definition set_completed (now : timestamp) (employee_id : Z)
    (t : tasks.row) : tasks.row :=
  tasks.mk (tasks.id t) (tasks.company_id t) (tasks.branch_id t)
    (tasks.employee_id t) (tasks.task_description t) (tasks.due_date t)
    true (Some employee_id) (Some now).

(** [SET is_completed = FALSE, completed_at = NULL,
    completed_by_id = NULL] on a row of [tasks]. *)
Definition set_reopened (t : tasks.row) : tasks.row :=
  tasks.mk (tasks.id t) (tasks.company_id t) (tasks.branch_id t)
    (tasks.employee_id t) (tasks.task_description t) (tasks.due_date t)
    false None None.

(** [SET is_completed = TRUE, completed_at = :now] on a row of
    [task_assignments]. *)
Definition set_assignment_completed (now : timestamp)
    (a : task_assignments.row) : task_assignments.row :=
  task_assignments.mk (task_assignments.id a) (task_assignments.task_id a)
    (task_assignments.employee_id a) true (Some now).

(** [SET is_completed = FALSE, completed_at = NULL] on a row of
    [task_assignments]. *)
Definition set_assignment_reopened (a : task_assignments.row)
    : task_assignments.row :=
  task_assignments.mk (task_assignments.id a) (task_assignments.task_id a)
    (task_assignments.employee_id a) false None.

(** [WHERE task_id = :task_id AND employee_id = :employee_id] *)
Definition assignment_of (task_id employee_id : Z)
    (a : task_assignments.row) : bool :=
  Sql.eqc (task_assignments.task_id a) task_id
  && Sql.eqc (task_assignments.employee_id a) employee_id.

(** [WHERE task_id = :task_id AND is_completed = FALSE] *)
Definition incomplete_of (task_id : Z) (a : task_assignments.row) : bool :=
  Sql.eqc (task_assignments.task_id a) task_id
  && negb (task_assignments.is_completed a).

(** [SELECT id FROM employees WHERE branch_id = :branch_id AND
    is_active = TRUE]; there is no [ORDER BY]: the order of the result,
    here that of insertion, is not determined by the statement. *)
Definition active_employees_of_branch (branch_id : Z) (db : DB) : list Z :=
  map employees.id
    (Sql.select
       (fun e => Sql.eqc (employees.branch_id e) branch_id
                 && employees.is_active e)
       (employees db)).

(** [SELECT r.role_level FROM employees e JOIN employee_roles r
    ON e.role_id = r.id WHERE e.id = :employee_id] *)
Definition role_levels_of (employee_id : Z) (db : DB) : list Z :=
  flat_map
    (fun e =>
       map employee_roles.role_level
         (Sql.select
            (fun r => Sql.eqc (employees.role_id e) (employee_roles.id r))
            (employee_roles db)))
    (Sql.select (fun e => employees.id e =? employee_id) (employees db)).

(** [SELECT branch_id, employee_id, is_completed FROM tasks
    WHERE id = :task_id] *)
Definition task_by_id (task_id : Z) (db : DB) : list tasks.row :=
  Sql.select (fun t => tasks.id t =? task_id) (tasks db).

(** [UPDATE tasks SET is_completed = TRUE, completed_at = :now,
    completed_by_id = :employee_id WHERE id = :task_id]; accepted for an
    employee that exists ([completed_by_id REFERENCES employees(id)]). *)
Definition complete_task (now : timestamp) (task_id employee_id : Z)
    : Conn unit :=
  execute (with_tasks (Sql.update (fun t => tasks.id t =? task_id)
                         (set_completed now employee_id))).

(** [create_task(conn, company_id, task_description, due_date,
    branch_id=None, employee_id=None)]; the [INSERT INTO tasks] is accepted
    for a company, a branch and an employee that exist, and the loop runs
    over the employees in the order the [SELECT] returned them. *)
Definition create_task (company_id : Z) (task_description : string)
    (due_date : option Datetime.date) (branch_id employee_id : option Z)
    : Conn Z :=
  task_id <- nextval_tasks ;;
  execute (with_tasks (Sql.insert
    (tasks.mk task_id (Some company_id) branch_id employee_id
       task_description due_date false None None))) ;;;
  (if Py.truthy branch_id && negb (Py.truthy employee_id) then
     match branch_id with
     | Some b =>
         emps <- query (active_employees_of_branch b) ;;
         for_each emps (fun emp =>
           id <- nextval_task_assignments ;;
           execute (with_task_assignments (Sql.insert
             (task_assignments.mk id (Some task_id) (Some emp)
                false None))))
     | None => ret tt
     end
   else ret tt) ;;;
  ret task_id.

(** [mark_task_completed(conn, task_id, employee_id)]; [now] is the
    value of [datetime.datetime.now()] read on entry. *)
Definition mark_task_completed (now : timestamp) (task_id employee_id : Z)
    : Conn bool :=
  task <- query (fun db => Sql.fetchone (task_by_id task_id db)) ;;
  match task with
  | None => ret false
  | Some task =>
      if tasks.is_completed task then ret true
      else if Py.truthy (tasks.branch_id task) then
        execute (with_task_assignments
          (Sql.update (assignment_of task_id employee_id)
             (set_assignment_completed now))) ;;;
        employee_role <-
          query (fun db => Sql.fetchone (role_levels_of employee_id db)) ;;
        let is_manager :=
          match employee_role with
          | Some role_level => role_level <=? 2
          | None => false
          end in
        if is_manager then
          complete_task now task_id employee_id ;;;
          ret true
        else
          all_complete <-
            query (fun db =>
              Sql.count (Sql.select (incomplete_of task_id)
                           (task_assignments db)) =? 0) ;;
          if all_complete then
            complete_task now task_id employee_id ;;;
            ret true
          else ret false
      else if Py.eq_int (tasks.employee_id task) employee_id then
        complete_task now task_id employee_id ;;;
        ret true
      else ret false
  end.

(** [reopen_task(conn, task_id)] *)
Definition reopen_task (task_id : Z) : Conn unit :=
  execute (with_tasks (Sql.update (fun t => tasks.id t =? task_id)
                         set_reopened)) ;;;
  execute (with_task_assignments
    (Sql.update (fun a => Sql.eqc (task_assignments.task_id a) task_id)
       set_assignment_reopened)).

(** [delete_task(conn, task_id)] *)
Definition delete_task (task_id : Z) : Conn unit :=
  execute (with_task_assignments
    (Sql.delete (fun a => Sql.eqc (task_assignments.task_id a) task_id))) ;;;
  execute (with_tasks (Sql.delete (fun t => tasks.id t =? task_id))).

(** [add_task(conn, employee_id, task_description, due_date)]: the
    [INSERT] names neither [company_id] nor [branch_id]; it is accepted
    for an employee that exists. *)
Definition add_task (employee_id : Z) (task_description : string)
    (due_date : option Datetime.date) : Conn unit :=
  id <- nextval_tasks ;;
  execute (with_tasks (Sql.insert
    (tasks.mk id None None (Some employee_id) task_description due_date
       false None None))).

(** [update_task_status(conn, task_id, is_completed)]; the views' "Mark as
    Completed" and "Reopen Task" buttons run the same [UPDATE]. *)
Definition update_task_status (task_id : Z) (is_completed : bool)
    : Conn unit :=
  execute (with_tasks (Sql.update (fun t => tasks.id t =? task_id)
    (fun t => tasks.mk (tasks.id t) (tasks.company_id t) (tasks.branch_id t)
                (tasks.employee_id t) (tasks.task_description t)
                (tasks.due_date t) is_completed (tasks.completed_by_id t)
                (tasks.completed_at t)))).

(** A row of the [employee_statuses] query of
    [get_branch_task_progress]. *)
Record status := mk_status
  { status_employee_id : option Z; status_full_name : string;
    status_is_completed : bool; status_role_name : string;
    status_role_level : Z; status_completed_at : option timestamp }.

(** The dictionary [get_branch_task_progress] returns.  [SUM] over no row
    is [NULL]: [completed] is [None] then. *)
Record progress := mk_progress
  { total : Z; completed : option Z; employee_statuses : list status }.

(** [FROM task_assignments ta JOIN employees e ON ta.employee_id = e.id
    JOIN employee_roles r ON e.role_id = r.id WHERE ta.task_id = :task_id] *)
Definition statuses_of (task_id : Z) (db : DB) : list status :=
  flat_map
    (fun ta =>
       flat_map
         (fun e =>
            map (fun r =>
                   mk_status (task_assignments.employee_id ta)
                     (employees.full_name e)
                     (task_assignments.is_completed ta)
                     (employee_roles.role_name r)
                     (employee_roles.role_level r)
                     (task_assignments.completed_at ta))
              (Sql.select
                 (fun r => Sql.eqc (employees.role_id e)
                             (employee_roles.id r))
                 (employee_roles db)))
         (Sql.select
            (fun e => Sql.eqc (task_assignments.employee_id ta)
                        (employees.id e))
            (employees db)))
    (Sql.select (fun ta => Sql.eqc (task_assignments.task_id ta) task_id)
       (task_assignments db)).

(** [SUM(CASE WHEN is_completed THEN 1 ELSE 0 END)] *)
Definition sum_completed (rows : list task_assignments.row) : option Z :=
  match rows with
  | [] => None
  | _ :: _ =>
      Some (fold_right
              (fun a n => (if task_assignments.is_completed a then 1 else 0)
                          + n)
              0 rows)
  end.

Section Collation.

(** The order of the database's collation on [full_name]. *)
Variable name_leb : string -> string -> bool.

(** [ORDER BY r.role_level, e.full_name] *)
Definition status_leb (s1 s2 : status) : bool :=
  (status_role_level s1 <? status_role_level s2)
  || ((status_role_level s1 =? status_role_level s2)
      && name_leb (status_full_name s1) (status_full_name s2)).

(** [get_branch_task_progress(conn, task_id)] *)
Definition get_branch_task_progress (task_id : Z)
    : Conn (option progress) :=
  task_info <-
    query (fun db => Sql.fetchone (map tasks.branch_id
                                     (task_by_id task_id db))) ;;
  match task_info with
  | None => ret None
  | Some branch_id =>
      if negb (Py.truthy branch_id) then ret None
      else
        counts <-
          query (fun db =>
            let rows :=
              Sql.select
                (fun a => Sql.eqc (task_assignments.task_id a) task_id)
                (task_assignments db) in
            (Sql.count rows, sum_completed rows)) ;;
        employee_statuses <-
          query (fun db => Sql.order_by status_leb (statuses_of task_id db)) ;;
        ret (Some (mk_progress (fst counts) (snd counts) employee_statuses))
  end.

End Collation.

End TaskModel.

(** ** RoleModel *)

Definition with_employee_roles
    (f : list employee_roles.row -> list employee_roles.row) (db : DB) : DB :=
  mkDB (companies db) (branches db) (f (employee_roles db)) (employees db)
    (tasks db) (task_assignments db)
    (employees_id_seq db) (tasks_id_seq db) (task_assignments_id_seq db).

(** The database together with the sequence of [employee_roles.id], for
    the functions of [RoleModel] that insert roles. *)
Record RoleDB := mkRoleDB { role_db : DB; employee_roles_id_seq : Z }.

Module RoleModel.

(** [get_role_by_id(conn, role_id)] *)
Definition get_role_by_id (role_id : Z) : Conn (option employee_roles.row) :=
  query (fun db =>
    Sql.fetchone (Sql.select (fun r => employee_roles.id r =? role_id)
                    (employee_roles db))).

(** [update_role(conn, role_id, role_name, role_level)] *)
Definition update_role (role_id : Z) (role_name : string) (role_level : Z)
    : Conn unit :=
  execute (with_employee_roles (Sql.update
    (fun r => employee_roles.id r =? role_id)
    (fun r => employee_roles.mk (employee_roles.id r) role_name role_level
                (employee_roles.company_id r)))).

(** [delete_role(conn, role_id, replacement_role_id)]: the holders of the
    role are moved to the replacement, then the role row is deleted. *)
Definition delete_role (role_id replacement_role_id : Z) : Conn unit :=
  execute (with_employees (Sql.update
    (fun e => Sql.eqc (employees.role_id e) role_id)
    (fun e => employees.mk (employees.id e) (employees.branch_id e)
                (Some replacement_role_id) (employees.username e)
                (employees.password e) (employees.full_name e)
                (employees.profile_pic_url e) (employees.is_active e)))) ;;;
  execute (with_employee_roles
    (Sql.delete (fun r => employee_roles.id r =? role_id))).

(** [get_manager_roles(conn, company_id)] *)
Definition get_manager_roles (company_id : Z) : Conn (list Z) :=
  query (fun db =>
    map employee_roles.id
      (Sql.select
         (fun r => Sql.eqc (employee_roles.company_id r) company_id
                   && (employee_roles.role_level r <=? 2))
         (employee_roles db))).

(** [create_role(conn, company_id, role_name, role_level)]; the [INSERT]
    is accepted for a company that exists and a name the company does not
    use yet. *)
Definition create_role (company_id : Z) (role_name : string)
    (role_level : Z) (s : RoleDB) : unit * RoleDB :=
  (tt,
   mkRoleDB
     (with_employee_roles
        (Sql.insert
           (employee_roles.mk (employee_roles_id_seq s) role_name role_level
              (Some company_id)))
        (role_db s))
     (employee_roles_id_seq s + 1)).

Definition default_roles : list (string * Z) :=
  [("Manager"%string, 1); ("Asst. Manager"%string, 2);
   ("General Employee"%string, 3)].

(** [initialize_default_roles(conn, company_id)] *)
Definition initialize_default_roles (company_id : Z) (s : RoleDB)
    : unit * RoleDB :=
  if Sql.count
       (Sql.select (fun r => Sql.eqc (employee_roles.company_id r) company_id)
          (employee_roles (role_db s))) =? 0
  then
    (tt,
     fold_left
       (fun s' role => snd (create_role company_id (fst role) (snd role) s'))
       default_roles s)
  else (tt, s).

End RoleModel.

(** ** RolePermissions *)

Module RolePermissions.

Definition MANAGER := 1.
Definition ASST_MANAGER := 2.
Definition GENERAL_EMPLOYEE := 3.

Definition can_create_employees (user_role_level : Z) : bool :=
  user_role_level <=? ASST_MANAGER.

Definition can_assign_tasks_to (user_role_level target_role_level : Z)
    : bool :=
  if user_role_level =? MANAGER then ASST_MANAGER <=? target_role_level
  else if user_role_level =? ASST_MANAGER
       then target_role_level =? GENERAL_EMPLOYEE
  else false.

Definition can_view_reports_of (user_role_level target_role_level : Z)
    : bool :=
  if user_role_level =? MANAGER then true
  else if user_role_level =? ASST_MANAGER
       then ASST_MANAGER <=? target_role_level
  else user_role_level =? target_role_level.

Definition can_deactivate_role (user_role_level target_role_level : Z)
    : bool :=
  if user_role_level =? MANAGER then user_role_level <? target_role_level
  else if user_role_level =? ASST_MANAGER
       then target_role_level =? GENERAL_EMPLOYEE
  else false.

(** [get_role_level(role_name)]: [role_map.get(role_name,
    GENERAL_EMPLOYEE)]. *)
Definition get_role_level (role_name : string) : Z :=
  if String.eqb role_name "Manager" then MANAGER
  else if String.eqb role_name "Asst. Manager" then ASST_MANAGER
  else if String.eqb role_name "General Employee" then GENERAL_EMPLOYEE
  else GENERAL_EMPLOYEE.

(** [get_role_name(role_level)]: [role_map.get(role_level,
    "General Employee")]. *)
Definition get_role_name (role_level : Z) : string :=
  if role_level =? MANAGER then "Manager"
  else if role_level =? ASST_MANAGER then "Asst. Manager"
  else if role_level =? GENERAL_EMPLOYEE then "General Employee"
  else "General Employee".

End RolePermissions.

(** ** Date-range presets

    [today] is the value of [datetime.date.today()].  [None] is a raised
    exception. *)

(** [get_date_range_from_filter(date_filter)] *)
Definition get_date_range_from_filter (today : Datetime.date)
    (date_filter : string) : option (Datetime.date * Datetime.date) :=
  if String.eqb date_filter "Today" then
    Some (today, today)
  else if String.eqb date_filter "This Week" then
    start_date <-? Datetime.sub_days today (Datetime.weekday today) ;;
    Some (start_date, today)
  else if String.eqb date_filter "This Month" then
    start_date <-? Datetime.replace_day today 1 ;;
    Some (start_date, today)
  else if String.eqb date_filter "This Year" then
    start_date <-? Datetime.replace_month_day today 1 1 ;;
    Some (start_date, today)
  else
    start_date <-? Datetime.new 2000 1 1 ;;
    Some (start_date, today).

(** The date-range calculation of [view_branch_employee_reports], from the
    selected [date_filter]; [custom_start] and [custom_end] are the values
    of the two [st.date_input] widgets of the "Custom Range" branch.  With
    a [date_filter] outside the options no branch binds [start_date]. *)
Definition view_branch_employee_reports_date_range (today : Datetime.date)
    (date_filter : string) (custom_start custom_end : Datetime.date)
    : option (Datetime.date * Datetime.date) :=
  if String.eqb date_filter "Today" then
    Some (today, today)
  else if String.eqb date_filter "This Week" then
    start_date <-? Datetime.sub_days today (Datetime.weekday today) ;;
    Some (start_date, today)
  else if String.eqb date_filter "This Month" then
    start_date <-? Datetime.replace_day today 1 ;;
    Some (start_date, today)
  else if String.eqb date_filter "Last Month" then
    let last_month :=
      if 1 <? Datetime.month today then Datetime.month today - 1 else 12 in
    let last_month_year :=
      if 1 <? Datetime.month today then Datetime.year today
      else Datetime.year today - 1 in
    start_date <-? Datetime.new last_month_year last_month 1 ;;
    if last_month =? 12 then
      end_date <-? Datetime.new last_month_year last_month 31 ;;
      Some (start_date, end_date)
    else
      first_of_next <-? Datetime.new last_month_year (last_month + 1) 1 ;;
      end_date <-? Datetime.sub_days first_of_next 1 ;;
      Some (start_date, end_date)
  else if String.eqb date_filter "Last 3 Months" then
    d <-? Datetime.replace_day today 1 ;;
    d <-? Datetime.sub_days d 1 ;;
    start_date <-? Datetime.replace_day d 1 ;;
    d <-? Datetime.sub_days start_date 1 ;;
    start_date <-? Datetime.replace_day d 1 ;;
    Some (start_date, today)
  else if String.eqb date_filter "Custom Range" then
    Some (custom_start, custom_end)
  else None.

(** The date-range calculation of [view_my_reports]; its last branch
    ("All Reports") takes every other [date_filter]. *)
Definition view_my_reports_date_range (today : Datetime.date)
    (date_filter : string) (custom_start custom_end : Datetime.date)
    : option (Datetime.date * Datetime.date) :=
  if String.eqb date_filter "This Month" then
    start_date <-? Datetime.replace_day today 1 ;;
    Some (start_date, today)
  else if String.eqb date_filter "Last Month" then
    let last_month :=
      if 1 <? Datetime.month today then Datetime.month today - 1 else 12 in
    let last_month_year :=
      if 1 <? Datetime.month today then Datetime.year today
      else Datetime.year today - 1 in
    start_date <-? Datetime.new last_month_year last_month 1 ;;
    if last_month =? 12 then
      end_date <-? Datetime.new last_month_year last_month 31 ;;
      Some (start_date, end_date)
    else
      first_of_next <-? Datetime.new last_month_year (last_month + 1) 1 ;;
      end_date <-? Datetime.sub_days first_of_next 1 ;;
      Some (start_date, end_date)
  else if String.eqb date_filter "Custom Range" then
    Some (custom_start, custom_end)
  else
    start_date <-? Datetime.new 2000 1 1 ;;
    Some (start_date, today).

(** ** Observations on a database *)

(** The row of [tasks] a lookup by primary key returns. *)
Definition task_row (db : DB) (task_id : Z) : option tasks.row :=
  Sql.fetchone (TaskModel.task_by_id task_id db).

(** The rows of [task_assignments] of one task. *)
Definition assignments_of (db : DB) (task_id : Z)
    : list task_assignments.row :=
  Sql.select (fun a => Sql.eqc (task_assignments.task_id a) task_id)
    (task_assignments db).

(** The employees whose assignment for the task is still incomplete. *)
Definition pending (db : DB) (task_id : Z) : list (option Z) :=
  map task_assignments.employee_id
    (Sql.select (TaskModel.incomplete_of task_id) (task_assignments db)).

(** The role level the join of [mark_task_completed] finds for an
    employee. *)
Definition employee_role_level (db : DB) (employee_id : Z) : option Z :=
  Sql.fetchone (TaskModel.role_levels_of employee_id db).

(** [is_manager] as [mark_task_completed] computes it: a role row exists
    and its level is at most 2. *)
Definition is_manager (db : DB) (employee_id : Z) : bool :=
  match employee_role_level db employee_id with
  | Some role_level => role_level <=? 2
  | None => false
  end.

(** The constraints of the schema the properties of [create_task] rest
    on: a [SERIAL] sequence is ahead of the keys in its table, and
    [task_assignments.task_id] references [tasks(id)]. *)
Definition serials_ahead (db : DB) : bool :=
  forallb (fun t => tasks.id t <? tasks_id_seq db) (tasks db)
  && forallb (fun e => employees.id e <? employees_id_seq db) (employees db).

Definition assignments_reference_tasks (db : DB) : bool :=
  forallb
    (fun a =>
       match task_assignments.task_id a with
       | Some i => existsb (fun t => tasks.id t =? i) (tasks db)
       | None => true
       end)
    (task_assignments db).

Definition consistent (db : DB) : bool :=
  serials_ahead db && assignments_reference_tasks db.

(** A sequence of [mark_task_completed] calls on one task, each with its
    own clock reading and actor; the results in call order. *)
Fixpoint mark_each (calls : list (timestamp * Z)) (task_id : Z)
    : Conn (list bool) :=
  match calls with
  | [] => ret []
  | (now, employee_id) :: rest =>
      r <- TaskModel.mark_task_completed now task_id employee_id ;;
      rs <- mark_each rest task_id ;;
      ret (r :: rs)
  end.

(** A sequence of [mark_task_completed] calls on any tasks: each call with
    its clock reading, task and actor. *)
Fixpoint mark_all (calls : list (timestamp * Z * Z)) : Conn (list bool) :=
  match calls with
  | [] => ret []
  | (now, task_id, employee_id) :: rest =>
      r <- TaskModel.mark_task_completed now task_id employee_id ;;
      rs <- mark_all rest ;;
      ret (r :: rs)
  end.

(** The database after the [UPDATE task_assignments] of the branch path. *)
Definition after_assignment_update (now : timestamp)
    (task_id employee_id : Z) (db : DB) : DB :=
  with_task_assignments
    (Sql.update (TaskModel.assignment_of task_id employee_id)
       (TaskModel.set_assignment_completed now))
    db.

(** The actors of a list of calls. *)
Definition actors (calls : list (timestamp * Z)) : list Z := map snd calls.

(** The rows the loop of [create_task] inserts for the employees [emps],
    the first of them with key [next_id]. *)
Fixpoint fanned_out (next_id task_id : Z) (emps : list Z)
    : list task_assignments.row :=
  match emps with
  | [] => []
  | emp :: rest =>
      task_assignments.mk next_id (Some task_id) (Some emp) false None
      :: fanned_out (next_id + 1) task_id rest
  end.

(** ** Calendar checks

    The month and the day [_ord2ymd] derives from the zero-based day [n]
    of a year, and the check that they are a month and a day of that month
    with [n] days of the year before them. *)
Definition month_day_of (leapyear : bool) (n : Z) : Z * Z :=
  let m := Z.shiftr (n + 50) 5 in
  let preceding :=
    Datetime._DAYS_BEFORE_MONTH m
    + (if (2 <? m) && leapyear then 1 else 0) in
  if n <? preceding then
    let m := m - 1 in
    let preceding :=
      preceding
      - (Datetime._DAYS_IN_MONTH m
         + (if (m =? 2) && leapyear then 1 else 0)) in
    (m, n - preceding + 1)
  else (m, n - preceding + 1).

Definition month_day_ok (leapyear : bool) (n : Z) : bool :=
  let (m, d) := month_day_of leapyear n in
  (1 <=? m) && (m <=? 12) && (1 <=? d)
  && (d <=? Datetime._DAYS_IN_MONTH m
            + (if (m =? 2) && leapyear then 1 else 0))
  && (Datetime._DAYS_BEFORE_MONTH m
      + (if (2 <? m) && leapyear then 1 else 0) + d =? n + 1).

(** The month before [(y, m)]. *)
Definition previous_month (y m : Z) : Z * Z :=
  if 1 <? m then (y, m - 1) else (y - 1, 12).

(** ** The constraints of [init_db]

    A table above is a list of rows and a write is a function on it, which
    always succeeds.  In the database a write that breaks a constraint of
    [init_db] raises instead, and nothing is written.  The checks below are
    those constraints, read on the arguments of a write: the row a
    [REFERENCES] column points to exists, a [UNIQUE] name is not taken, a
    [VARCHAR(n)] value has at most [n] characters, and a [SERIAL] sequence
    is ahead of the keys in use.  The properties of a write that inserts a
    row, or stores a key or a password, are stated for arguments that pass
    them.

    A [SELECT] without [ORDER BY] returns its rows in no fixed order: the
    lists keep the order of insertion, and what is stated of such a result
    is stated up to [Permutation]. *)

(** [REFERENCES companies(id)] *)
Definition has_company (db : DB) (company_id : Z) : bool :=
  existsb (fun c => companies.id c =? company_id) (companies db).

(** [REFERENCES branches(id)] *)
Definition has_branch (db : DB) (branch_id : Z) : bool :=
  existsb (fun b => branches.id b =? branch_id) (branches db).

(** [REFERENCES employee_roles(id)] *)
Definition has_role (db : DB) (role_id : Z) : bool :=
  existsb (fun r => employee_roles.id r =? role_id) (employee_roles db).

(** [REFERENCES employees(id)] *)
Definition has_employee (db : DB) (employee_id : Z) : bool :=
  existsb (fun e => employees.id e =? employee_id) (employees db).

(** A column that [REFERENCES] a table and may be [NULL]. *)
Definition nullable (has : Z -> bool) (key : option Z) : bool :=
  match key with
  | None => true
  | Some k => has k
  end.

(** [VARCHAR(n)] *)
Definition varchar (n : nat) (s : string) : bool :=
  Nat.leb (String.length s) n.

(** [username VARCHAR(50) UNIQUE NOT NULL] of [employees]. *)
Definition username_free (db : DB) (username : string) : bool :=
  negb (existsb (fun e => String.eqb (employees.username e) username)
          (employees db)).

(** The columns of [employees] that [add_employee] fills from its
    arguments: the two references, the unique user name and the three
    [VARCHAR] limits. *)
Definition employee_accepted (db : DB) (branch_id role_id : Z)
    (username password full_name : string) : bool :=
  has_branch db branch_id && has_role db role_id
  && username_free db username
  && varchar 50 username && varchar 255 password && varchar 100 full_name.

(** [id SERIAL PRIMARY KEY] of [task_assignments]: the sequence is ahead
    of the keys in use. *)
Definition assignment_serial_ahead (db : DB) : bool :=
  forallb (fun a => task_assignments.id a <? task_assignments_id_seq db)
    (task_assignments db).

(** [id SERIAL PRIMARY KEY] of [employee_roles]. *)
Definition role_serial_ahead (s : RoleDB) : bool :=
  forallb (fun r => employee_roles.id r <? employee_roles_id_seq s)
    (employee_roles (role_db s)).

(** ** A sample database

    Company 1 has a main branch 1 with a manager (10), two general
    employees (11, 12) and a deactivated one (13), and an empty branch 2;
    company 2 has branch 3 with its own manager (20).  Task 1 is a branch
    task of branch 1, task 2 a direct task of employee 11, task 3 a
    completed direct task of employee 12. *)

Module Sample.

Definition pic : string := "pic".

Definition db : DB :=
  mkDB
    [ companies.mk 1 "Acme" true; companies.mk 2 "Globex" true ]
    [ branches.mk 1 (Some 1) None "Head office" true;
      branches.mk 2 (Some 1) (Some 1) "Depot" true;
      branches.mk 3 (Some 2) None "Globex main" true ]
    [ employee_roles.mk 1 "Manager" 1 (Some 1);
      employee_roles.mk 2 "Asst. Manager" 2 (Some 1);
      employee_roles.mk 3 "General Employee" 3 (Some 1);
      employee_roles.mk 4 "Manager" 1 (Some 2) ]
    [ employees.mk 10 (Some 1) (Some 1) "mia" "pw" "Mia" pic true;
      employees.mk 11 (Some 1) (Some 3) "gus" "pw" "Gus" pic true;
      employees.mk 12 (Some 1) (Some 3) "ida" "pw" "Ida" pic true;
      employees.mk 13 (Some 1) (Some 3) "old" "pw" "Old" pic false;
      employees.mk 20 (Some 3) (Some 4) "zed" "pw" "Zed" pic true ]
    [ tasks.mk 1 (Some 1) (Some 1) None "Stocktake" None false None None;
      tasks.mk 2 (Some 1) None (Some 11) "Call supplier" None
        false None None;
      tasks.mk 3 (Some 1) None (Some 12) "File invoices" None
        true (Some 12) (Some 50) ]
    [ task_assignments.mk 1 (Some 1) (Some 10) false None;
      task_assignments.mk 2 (Some 1) (Some 11) false None;
      task_assignments.mk 3 (Some 1) (Some 12) false None ]
    21 4 4.


End Sample.

(** * Properties *)

(** ** Statements over a table *)

Section SqlFacts.

Context {R : Type}.
Variables (p : R -> bool) (f : R -> R).

Lemma select_update_same (l : list R) :
  (forall r, p (f r) = p r) ->
  Sql.select p (Sql.update p f l) = map f (Sql.select p l).
Proof.
  intros Hkey. unfold Sql.select, Sql.update.
  induction l as [|r l IH]; simpl; [reflexivity|].
  destruct (p r) eqn:Hr.
  - rewrite Hkey, Hr. simpl. now rewrite IH.
  - rewrite Hr. exact IH.
Qed.

Lemma update_untouched (l : list R) (r : R) :
  In r l -> p r = false -> In r (Sql.update p f l).
Proof.
  intros Hin Hr. unfold Sql.update. apply in_map_iff.
  exists r. now rewrite Hr.
Qed.

Lemma update_inv (l : list R) (r' : R) :
  In r' (Sql.update p f l) ->
  exists r, In r l /\ r' = (if p r then f r else r).
Proof.
  unfold Sql.update. intros Hin. apply in_map_iff in Hin.
  destruct Hin as (r & <- & Hin). now exists r.
Qed.

Lemma update_nothing (l : list R) :
  (forall r, In r l -> p r = false) -> Sql.update p f l = l.
Proof.
  intros Hno. unfold Sql.update.
  induction l as [|r l IH]; simpl; [reflexivity|].
  rewrite (Hno r) by (simpl; auto).
  now rewrite IH by (intros; apply Hno; simpl; auto).
Qed.

Lemma fetchone_map (l : list R) :
  Sql.fetchone (map f l) = option_map f (Sql.fetchone l).
Proof. now destruct l. Qed.

End SqlFacts.

Lemma eqc_true (c : option Z) (v : Z) : Sql.eqc c v = true <-> c = Some v.
Proof.
  destruct c as [z|]; simpl.
  - rewrite Z.eqb_eq. split; congruence.
  - split; discriminate.
Qed.

(** ** The paths of [mark_task_completed] *)

Lemma task_row_completed (db : DB) (now : timestamp) (task_id employee_id : Z)
    (t : tasks.row) :
  task_row db task_id = Some t ->
  task_row (snd (TaskModel.complete_task now task_id employee_id db)) task_id
  = Some (TaskModel.set_completed now employee_id t).
Proof.
  unfold task_row, TaskModel.task_by_id. simpl. intros Ht.
  rewrite select_update_same by reflexivity.
  now rewrite fetchone_map, Ht.
Qed.

(** The manager path: the actor's assignment rows are marked, then the
    task row. *)
Lemma mark_by_manager (db : DB) (now : timestamp) (task_id employee_id : Z)
    (t : tasks.row) (role_level : Z) :
  task_row db task_id = Some t ->
  tasks.is_completed t = false ->
  Py.truthy (tasks.branch_id t) = true ->
  employee_role_level db employee_id = Some role_level ->
  role_level <= 2 ->
  TaskModel.mark_task_completed now task_id employee_id db
  = (true,
     with_tasks
       (Sql.update (fun t => tasks.id t =? task_id)
          (TaskModel.set_completed now employee_id))
       (with_task_assignments
          (Sql.update (TaskModel.assignment_of task_id employee_id)
             (TaskModel.set_assignment_completed now))
          db)).
Proof.
  intros Ht Hopen Hbranch Hrole Hle.
  unfold TaskModel.mark_task_completed, bind, query.
  unfold task_row in Ht. rewrite Ht, Hopen, Hbranch. simpl.
  unfold employee_role_level, TaskModel.role_levels_of in Hrole.
  unfold TaskModel.role_levels_of. simpl. rewrite Hrole.
  apply Z.leb_le in Hle. rewrite Hle. reflexivity.
Qed.




(** ** The all-complete path *)

Lemma mark_by_employee (db : DB) (now : timestamp) (task_id employee_id : Z)
    (t : tasks.row) :
  task_row db task_id = Some t ->
  tasks.is_completed t = false ->
  Py.truthy (tasks.branch_id t) = true ->
  is_manager db employee_id = false ->
  TaskModel.mark_task_completed now task_id employee_id db
  = (match pending (after_assignment_update now task_id employee_id db)
             task_id with
     | [] =>
         (true,
          snd (TaskModel.complete_task now task_id employee_id
                 (after_assignment_update now task_id employee_id db)))
     | _ :: _ =>
         (false, after_assignment_update now task_id employee_id db)
     end).
Proof.
  intros Ht Hopen Hbranch Hrole.
  unfold TaskModel.mark_task_completed, bind, query.
  unfold task_row in Ht. rewrite Ht, Hopen, Hbranch. simpl.
  unfold is_manager, employee_role_level, TaskModel.role_levels_of in Hrole.
  unfold TaskModel.role_levels_of. simpl. rewrite Hrole.
  unfold pending, after_assignment_update. simpl.
  destruct (Sql.select (TaskModel.incomplete_of task_id) _) as [|a l];
    reflexivity.
Qed.

(** Marking the actor's assignment removes the actor, and nobody else, from
    the pending list. *)
Lemma pending_after_assignment_update (db : DB) (now : timestamp)
    (task_id employee_id : Z) :
  pending (after_assignment_update now task_id employee_id db) task_id
  = filter (fun oe => negb (Sql.eqc oe employee_id)) (pending db task_id).
Proof.
  unfold pending, after_assignment_update, Sql.select, Sql.update. simpl.
  induction (task_assignments db) as [|a l IH]; simpl; [reflexivity|].
  unfold TaskModel.assignment_of, TaskModel.incomplete_of in *.
  destruct (Sql.eqc (task_assignments.task_id a) task_id) eqn:Ht;
    destruct (Sql.eqc (task_assignments.employee_id a) employee_id) eqn:He;
    destruct (task_assignments.is_completed a) eqn:Hc;
    simpl; rewrite ?Ht, ?He, ?Hc; simpl; rewrite ?He; simpl;
    rewrite IH; reflexivity.
Qed.

Lemma filter_twice {A : Type} (f g : A -> bool) (l : list A) :
  filter g (filter f l) = filter (fun x => f x && g x) l.
Proof.
  induction l as [|x l IH]; simpl; [reflexivity|].
  destruct (f x); simpl; [destruct (g x)|]; now rewrite IH.
Qed.

Lemma filter_agree {A : Type} (f g : A -> bool) (l : list A) :
  (forall x, In x l -> f x = g x) -> filter f l = filter g l.
Proof.
  intros Hfg. induction l as [|x l IH]; simpl; [reflexivity|].
  rewrite (Hfg x) by (simpl; auto).
  now rewrite IH by (intros; apply Hfg; simpl; auto).
Qed.

Lemma filter_nothing {A : Type} (f : A -> bool) (l : list A) :
  (forall x, In x l -> f x = false) -> filter f l = [].
Proof.
  intros Hf. induction l as [|x l IH]; simpl; [reflexivity|].
  rewrite (Hf x) by (simpl; auto).
  apply IH. intros; apply Hf; simpl; auto.
Qed.

(** While somebody outside the callers is pending, every call of a general
    employee returns false and writes only to [task_assignments]. *)
Lemma mark_each_keeps_open (task_id last : Z) (t : tasks.row)
    (calls : list (timestamp * Z)) :
  tasks.is_completed t = false ->
  Py.truthy (tasks.branch_id t) = true ->
  ~ In last (actors calls) ->
  forall db : DB,
    task_row db task_id = Some t ->
    (forall e, In e (actors calls) -> employee_role_level db e = Some 3) ->
    In (Some last) (pending db task_id) ->
    let out := mark_each calls task_id db in
    Forall (fun r => r = false) (fst out)
    /\ List.length (fst out) = List.length calls
    /\ tasks (snd out) = tasks db
    /\ employees (snd out) = employees db
    /\ employee_roles (snd out) = employee_roles db
    /\ pending (snd out) task_id
       = filter (fun oe => negb (existsb (Sql.eqc oe) (actors calls)))
           (pending db task_id).
Proof.
  intros Hopen Hbranch.
  induction calls as [|[now e] calls IH]; intros Hlast db Ht Hroles Hpend.
  - cbn. repeat split; auto.
    symmetry. clear. induction (pending db task_id); simpl; congruence.
  - cbv zeta. cbn [mark_each]. unfold bind, ret.
    assert (Hne : last <> e) by (intros ->; apply Hlast; left; reflexivity).
    rewrite (mark_by_employee db now task_id e t); trivial;
      [|unfold is_manager; now rewrite (Hroles e (or_introl eq_refl))].
    assert (Hpend1 :
      In (Some last)
        (pending (after_assignment_update now task_id e db) task_id)).
    { rewrite pending_after_assignment_update. apply filter_In.
      split; [assumption|]. simpl.
      apply negb_true_iff, Z.eqb_neq. exact Hne. }
    destruct (pending (after_assignment_update now task_id e db) task_id)
      as [|oe rest] eqn:Hp; [destruct Hpend1|].
    rewrite <- Hp in Hpend1.
    specialize (IH (fun H => Hlast (or_intror H))
                  (after_assignment_update now task_id e db) Ht
                  (fun x Hx => Hroles x (or_intror Hx)) Hpend1).
    cbv zeta in IH.
    destruct (mark_each calls task_id
                (after_assignment_update now task_id e db)) as [rs db'].
    cbn [fst snd] in IH |- *.
    destruct IH as (Hrs & Hlen & Htasks & Hemp & Hrol & Hpen).
    split; [constructor; [reflexivity|exact Hrs]|].
    split; [simpl; congruence|].
    do 3 (split; [assumption|]).
    rewrite Hpen, pending_after_assignment_update, filter_twice.
    apply filter_agree. intros x _. cbn. symmetry. apply negb_orb.
Qed.

Lemma task_row_ext (db1 db2 : DB) (task_id : Z) :
  tasks db1 = tasks db2 -> task_row db1 task_id = task_row db2 task_id.
Proof.
  intros H. unfold task_row, TaskModel.task_by_id. now rewrite H.
Qed.

Lemma employee_role_level_ext (db1 db2 : DB) (employee_id : Z) :
  employees db1 = employees db2 ->
  employee_roles db1 = employee_roles db2 ->
  employee_role_level db1 employee_id = employee_role_level db2 employee_id.
Proof.
  intros He Hr. unfold employee_role_level, TaskModel.role_levels_of.
  now rewrite He, Hr.
Qed.

(** C2. All-complete convergence: on an open branch task, let general
    employees (role level 3) call [mark_task_completed] one after the
    other, the last of them holding an incomplete assignment that none of
    the earlier calls completes, and every incomplete assignment being
    completed by one of the calls.  After every number [k] of earlier calls
    all [k] results are false and the task row is still the open one; the
    last call returns true and leaves the task complete, attributed to the
    last caller at that call's clock reading, with no assignment pending. *)
Theorem all_complete_convergence
    (db : DB) (task_id : Z) (t : tasks.row)
    (earlier : list (timestamp * Z)) (now : timestamp) (last : Z) :
  task_row db task_id = Some t ->
  Py.truthy (tasks.branch_id t) = true ->
  tasks.is_completed t = false ->
  (forall e, In e (actors earlier ++ [last]) ->
             employee_role_level db e = Some 3) ->
  In (Some last) (pending db task_id) ->
  ~ In last (actors earlier) ->
  incl (pending db task_id) (map Some (actors earlier ++ [last])) ->
  (forall k : nat,
     let out := mark_each (firstn k earlier) task_id db in
     Forall (fun r => r = false) (fst out)
     /\ List.length (fst out) = List.length (firstn k earlier)
     /\ task_row (snd out) task_id = Some t)
  /\ (let before := snd (mark_each earlier task_id db) in
      let out := TaskModel.mark_task_completed now task_id last before in
      fst out = true
      /\ (exists t',
            task_row (snd out) task_id = Some t'
            /\ tasks.is_completed t' = true
            /\ tasks.completed_by_id t' = Some last
            /\ tasks.completed_at t' = Some now)
      /\ pending (snd out) task_id = []).
Proof.
  intros Ht Hbranch Hopen Hroles Hlast Hfresh Hall. split.
  - intros k.
    assert (Hsub : forall e, In e (actors (firstn k earlier)) ->
                             In e (actors earlier)).
    { intros e He. unfold actors in *. apply in_map_iff in He.
      destruct He as (c & <- & Hc). apply in_map.
      revert Hc. clear. revert k. induction earlier as [|c' l IH]; intros [|k];
        simpl; intuition eauto. }
    destruct (mark_each_keeps_open task_id last t (firstn k earlier)
                Hopen Hbranch (fun H => Hfresh (Hsub _ H)) db Ht)
      as (Hrs & Hlen & Htasks & _); trivial.
    { intros e He. apply Hroles, in_or_app. left. now apply Hsub. }
    cbv zeta. repeat split; trivial.
    now rewrite (task_row_ext _ db task_id Htasks).
  - destruct (mark_each_keeps_open task_id last t earlier
                Hopen Hbranch Hfresh db Ht)
      as (_ & _ & Htasks & Hemp & Hrol & Hpen); trivial.
    { intros e He. apply Hroles, in_or_app. now left. }
    cbv zeta. set (before := snd (mark_each earlier task_id db)) in *.
    assert (Ht' : task_row before task_id = Some t)
      by now rewrite (task_row_ext _ db task_id Htasks).
    assert (Hrole : employee_role_level before last = Some 3).
    { rewrite (employee_role_level_ext _ db last Hemp Hrol).
      apply Hroles, in_or_app. right. now left. }
    rewrite (mark_by_employee before now task_id last t); trivial;
      [|unfold is_manager; now rewrite Hrole].
    assert (Hnone :
      pending (after_assignment_update now task_id last before) task_id = []).
    { rewrite pending_after_assignment_update, Hpen, filter_twice.
      apply filter_nothing. intros oe Hoe.
      apply Hall in Hoe. apply in_map_iff in Hoe.
      destruct Hoe as (e & <- & He). simpl.
      apply in_app_or in He. destruct He as [He|[<-|[]]].
      - apply andb_false_intro1, negb_false_iff, existsb_exists.
        exists e. split; [exact He|apply Z.eqb_refl].
      - apply andb_false_intro2, negb_false_iff, Z.eqb_refl. }
    rewrite Hnone. cbn [fst snd]. split; [reflexivity|]. split.
    + exists (TaskModel.set_completed now last t). split; [|now cbn].
      apply (task_row_completed _ now task_id last t).
      rewrite <- Ht'. apply task_row_ext. reflexivity.
    + rewrite <- Hnone. reflexivity.
Qed.

(** C2 at the sample database, with the manager's assignment removed: 11
    calls (twice), then 12 closes the task. *)
Lemma all_complete_convergence_witness :
  let db :=
    with_task_assignments
      (Sql.select (fun a => negb (Sql.eqc (task_assignments.employee_id a) 10)))
      Sample.db in
  (forall k : nat,
     let out := mark_each (firstn k [(100, 11); (101, 11)]) 1 db in
     Forall (fun r => r = false) (fst out)
     /\ List.length (fst out)
        = List.length (firstn k [(100, 11); (101, 11)])
     /\ task_row (snd out) 1
        = Some (tasks.mk 1 (Some 1) (Some 1) None "Stocktake" None
                  false None None))
  /\ (let before := snd (mark_each [(100, 11); (101, 11)] 1 db) in
      let out := TaskModel.mark_task_completed 102 1 12 before in
      fst out = true
      /\ (exists t',
            task_row (snd out) 1 = Some t'
            /\ tasks.is_completed t' = true
            /\ tasks.completed_by_id t' = Some 12
            /\ tasks.completed_at t' = Some 102)
      /\ pending (snd out) 1 = []).
Proof.
  intros db.
  apply (all_complete_convergence db 1
           (tasks.mk 1 (Some 1) (Some 1) None "Stocktake" None
              false None None)
           [(100, 11); (101, 11)] 102 12).
  - reflexivity.
  - reflexivity.
  - reflexivity.
  - intros e [<-|[<-|[<-|[]]]]; reflexivity.
  - right. left. reflexivity.
  - intros [H|[H|[]]]; discriminate H.
  - intros oe [<-|[<-|[]]]; simpl; auto.
Defined.

(** ** Completed tasks, direct tasks, reopening *)

(** C5. Completion idempotence: on a task whose completion flag is set,
    [mark_task_completed] by any actor returns true and hands back the
    database it was given: no row of any table is written. *)
Theorem mark_completed_task_is_noop
    (db : DB) (now : timestamp) (task_id employee_id : Z) (t : tasks.row) :
  task_row db task_id = Some t ->
  tasks.is_completed t = true ->
  TaskModel.mark_task_completed now task_id employee_id db = (true, db).
Proof.
  intros Ht Hdone. unfold TaskModel.mark_task_completed, bind, query.
  unfold task_row in Ht. now rewrite Ht, Hdone.
Qed.

(** C5 at the sample database: task 3 is complete; employee 11 calls. *)
Lemma mark_completed_task_is_noop_witness :
  TaskModel.mark_task_completed 100 3 11 Sample.db = (true, Sample.db).
Proof.
  apply (mark_completed_task_is_noop Sample.db 100 3 11
           (tasks.mk 3 (Some 1) None (Some 12) "File invoices" None
              true (Some 12) (Some 50)));
    reflexivity.
Defined.

(** C7. Direct tasks: on an open task with an employee target and no
    branch target, a call by the designated employee returns true and
    leaves the task row complete, attributed to the actor at the call's
    clock reading; a call by anybody else returns false and hands back the
    database unchanged.  Either way the result is the completion flag of
    the task row after the call. *)
Theorem direct_task_completed_by_designee_only
    (db : DB) (now : timestamp) (task_id employee_id designee : Z)
    (t : tasks.row) :
  task_row db task_id = Some t ->
  tasks.is_completed t = false ->
  tasks.branch_id t = None ->
  tasks.employee_id t = Some designee ->
  let out := TaskModel.mark_task_completed now task_id employee_id db in
  (employee_id = designee ->
     fst out = true
     /\ task_row (snd out) task_id
        = Some (tasks.mk (tasks.id t) (tasks.company_id t) None
                  (Some designee) (tasks.task_description t)
                  (tasks.due_date t) true (Some employee_id) (Some now)))
  /\ (employee_id <> designee -> out = (false, db))
  /\ option_map tasks.is_completed (task_row (snd out) task_id)
     = Some (fst out).
Proof.
  intros Ht Hopen Hbranch Hemp out. subst out.
  unfold TaskModel.mark_task_completed, bind, query.
  pose proof Ht as Ht'. unfold task_row in Ht'.
  rewrite Ht', Hopen, Hbranch, Hemp. cbn [Py.truthy Py.eq_int].
  destruct (Z.eqb_spec designee employee_id) as [->|Hne].
  - pose proof (task_row_completed db now task_id employee_id t Ht) as Hrow.
    cbn in Hrow |- *. rewrite Hrow.
    unfold TaskModel.set_completed. rewrite Hbranch, Hemp.
    repeat split; trivial. congruence.
  - unfold ret. cbn [fst snd]. split; [congruence|]. split; [reflexivity|].
    rewrite Ht. cbn. now rewrite Hopen.
Qed.

(** C7 at the sample database: task 2 is the direct task of employee 11;
    employee 12 calls. *)
Lemma direct_task_completed_by_designee_only_witness :
  let out := TaskModel.mark_task_completed 100 2 12 Sample.db in
  (12 = 11 ->
     fst out = true
     /\ task_row (snd out) 2
        = Some (tasks.mk 2 (Some 1) None (Some 11) "Call supplier" None
                  true (Some 12) (Some 100)))
  /\ (12 <> 11 -> out = (false, Sample.db))
  /\ option_map tasks.is_completed (task_row (snd out) 2) = Some (fst out).
Proof.
  apply (direct_task_completed_by_designee_only Sample.db 100 2 12 11
           (tasks.mk 2 (Some 1) None (Some 11) "Call supplier" None
              false None None));
    reflexivity.
Defined.

(** C8. Reopen resets: after [reopen_task] the row of the task is
    incomplete with no completion time and no completer, and every
    assignment row of the task is incomplete with no completion time; the
    rows of other tasks are left alone.  The function takes the task
    identifier only: nothing about a caller enters it, and it does the same
    on every database. *)
Theorem reopen_task_resets (db : DB) (task_id : Z) :
  let db' := snd (TaskModel.reopen_task task_id db) in
  (forall t, task_row db task_id = Some t ->
     task_row db' task_id
     = Some (tasks.mk (tasks.id t) (tasks.company_id t) (tasks.branch_id t)
               (tasks.employee_id t) (tasks.task_description t)
               (tasks.due_date t) false None None))
  /\ (forall t', In t' (tasks db') -> tasks.id t' = task_id ->
        tasks.is_completed t' = false
        /\ tasks.completed_at t' = None
        /\ tasks.completed_by_id t' = None)
  /\ (forall a', In a' (task_assignments db') ->
        task_assignments.task_id a' = Some task_id ->
        task_assignments.is_completed a' = false
        /\ task_assignments.completed_at a' = None)
  /\ List.length (assignments_of db' task_id)
     = List.length (assignments_of db task_id)
  /\ (forall t, In t (tasks db) -> tasks.id t <> task_id ->
        In t (tasks db'))
  /\ (forall a, In a (task_assignments db) ->
        task_assignments.task_id a <> Some task_id ->
        In a (task_assignments db')).
Proof.
  cbv zeta. unfold TaskModel.reopen_task, bind, execute.
  unfold assignments_of, task_row, TaskModel.task_by_id.
  unfold with_tasks, with_task_assignments. cbn [snd tasks task_assignments].
  repeat apply conj.
  - intros t Ht.
    rewrite select_update_same by reflexivity.
    now rewrite fetchone_map, Ht.
  - intros t' Hin Hid. apply update_inv in Hin. destruct Hin as (t & _ & ->).
    destruct (tasks.id t =? task_id) eqn:Ht; [now cbn|].
    apply Z.eqb_neq in Ht. contradiction.
  - intros a' Hin Hid. apply update_inv in Hin. destruct Hin as (a & _ & ->).
    destruct (Sql.eqc (task_assignments.task_id a) task_id) eqn:Ha;
      [now cbn|].
    apply eqc_true in Hid. congruence.
  - rewrite select_update_same by reflexivity. apply length_map.
  - intros t Hin Hid. apply update_untouched; [exact Hin|].
    now apply Z.eqb_neq.
  - intros a Hin Hid. apply update_untouched; [exact Hin|].
    destruct (Sql.eqc (task_assignments.task_id a) task_id) eqn:Ha;
      [|reflexivity].
    apply eqc_true in Ha. contradiction.
Qed.

(** C10. No membership or permission check on the branch path: on an open
    branch task, a call of [mark_task_completed] by any employee whose role
    level is at most 2 returns true and leaves the task row complete,
    attributed to that employee.  Nothing is assumed about the employee's
    branch, company or assignments: the role level read by the join is the
    only fact about the actor that enters.  When the employee has no
    assignment row for the task, the call writes the task row and nothing
    else. *)
Theorem outsider_manager_completes_branch_task
    (db : DB) (now : timestamp) (task_id employee_id : Z)
    (t : tasks.row) (role_level : Z) :
  task_row db task_id = Some t ->
  Py.truthy (tasks.branch_id t) = true ->
  tasks.is_completed t = false ->
  employee_role_level db employee_id = Some role_level ->
  role_level <= 2 ->
  let out := TaskModel.mark_task_completed now task_id employee_id db in
  fst out = true
  /\ task_row (snd out) task_id
     = Some (tasks.mk (tasks.id t) (tasks.company_id t) (tasks.branch_id t)
               (tasks.employee_id t) (tasks.task_description t)
               (tasks.due_date t) true (Some employee_id) (Some now))
  /\ ((forall a, In a (task_assignments db) ->
                 TaskModel.assignment_of task_id employee_id a = false) ->
      out = (true,
             with_tasks
               (Sql.update (fun t => tasks.id t =? task_id)
                  (TaskModel.set_completed now employee_id))
               db)).
Proof.
  intros Ht Hbranch Hopen Hrole Hle out. subst out.
  rewrite (mark_by_manager db now task_id employee_id t role_level)
    by assumption.
  cbn [fst snd]. split; [reflexivity|]. split.
  - apply (task_row_completed _ now task_id employee_id t). exact Ht.
  - intros Hnone. f_equal. f_equal.
    unfold with_task_assignments. rewrite update_nothing by exact Hnone.
    now destruct db.
Qed.

(** C10 at the sample database: employee 20 manages branch 3 of company
    2 and has no assignment; task 1 belongs to branch 1 of company 1. *)
Lemma outsider_manager_completes_branch_task_witness :
  map employees.branch_id
    (Sql.select (fun e => employees.id e =? 20) (employees Sample.db))
  = [Some 3]
  /\ TaskModel.mark_task_completed 100 1 20 Sample.db
     = (true,
        with_tasks
          (Sql.update (fun t => tasks.id t =? 1)
             (TaskModel.set_completed 100 20))
          Sample.db)
  /\ task_row (snd (TaskModel.mark_task_completed 100 1 20 Sample.db)) 1
     = Some (tasks.mk 1 (Some 1) (Some 1) None "Stocktake" None
               true (Some 20) (Some 100)).
Proof.
  destruct (outsider_manager_completes_branch_task Sample.db 100 1 20
              (tasks.mk 1 (Some 1) (Some 1) None "Stocktake" None
                 false None None) 1)
    as (_ & Hrow & Hout);
    [reflexivity | reflexivity | reflexivity | reflexivity | lia |].
  split; [reflexivity|]. split; [|exact Hrow].
  apply Hout. intros a [<-|[<-|[<-|[]]]]; reflexivity.
Defined.

(** ** Status cascade *)



(** ** Fan-out of [create_task] *)

(** The loop over the roster appends one incomplete row per employee. *)
Lemma fan_out_loop (task_id : Z) (emps : list Z) :
  forall db : DB,
    for_each emps
      (fun emp =>
         id <- nextval_task_assignments ;;
         execute (with_task_assignments (Sql.insert
           (task_assignments.mk id (Some task_id) (Some emp) false None))))
      db
    = (tt,
       mkDB (companies db) (branches db) (employee_roles db) (employees db)
         (tasks db)
         (task_assignments db
          ++ fanned_out (task_assignments_id_seq db) task_id emps)
         (employees_id_seq db) (tasks_id_seq db)
         (task_assignments_id_seq db + Z.of_nat (List.length emps))).
Proof.
  induction emps as [|emp emps IH]; intros db.
  - cbn. rewrite app_nil_r, Z.add_0_r. now destruct db.
  - cbn [for_each]. unfold bind at 1. unfold bind at 1.
    unfold nextval_task_assignments, execute, with_task_assignments,
      Sql.insert.
    rewrite IH. cbn [companies branches employee_roles employees tasks
                       task_assignments employees_id_seq tasks_id_seq
                       task_assignments_id_seq fanned_out].
    rewrite <- app_assoc. cbn [app List.length].
    do 2 f_equal. lia.
Qed.

(** A branch-targeted [create_task]: the result is the next value of the
    sequence, and the database gains the task row and the fanned-out
    assignment rows. *)
Lemma create_branch_task (db : DB) (company_id : Z) (description : string)
    (due_date : option Datetime.date) (branch_id : Z) :
  branch_id <> 0 ->
  TaskModel.create_task company_id description due_date (Some branch_id) None
    db
  = (tasks_id_seq db,
     mkDB (companies db) (branches db) (employee_roles db) (employees db)
       (tasks db
        ++ [tasks.mk (tasks_id_seq db) (Some company_id) (Some branch_id)
              None description due_date false None None])
       (task_assignments db
        ++ fanned_out (task_assignments_id_seq db) (tasks_id_seq db)
             (TaskModel.active_employees_of_branch branch_id db))
       (employees_id_seq db) (tasks_id_seq db + 1)
       (task_assignments_id_seq db
        + Z.of_nat
            (List.length
               (TaskModel.active_employees_of_branch branch_id db)))).
Proof.
  intros Hb. unfold TaskModel.create_task.
  assert (Htruthy : Py.truthy (Some branch_id) = true)
    by (cbn; now apply negb_true_iff, Z.eqb_neq).
  rewrite Htruthy. cbn [Py.truthy negb andb].
  unfold bind at 1. unfold nextval_tasks.
  unfold bind at 1. unfold execute at 1.
  unfold bind at 1. unfold bind at 1. unfold query.
  rewrite fan_out_loop. reflexivity.
Qed.

Lemma fanned_out_keys (next_id task_id : Z) (emps : list Z) :
  map task_assignments.employee_id (fanned_out next_id task_id emps)
  = map Some emps.
Proof.
  revert next_id. induction emps as [|e emps IH]; intros next_id; cbn;
    [reflexivity|now rewrite IH].
Qed.

Lemma fanned_out_rows (next_id task_id : Z) (emps : list Z)
    (a : task_assignments.row) :
  In a (fanned_out next_id task_id emps) ->
  task_assignments.task_id a = Some task_id
  /\ task_assignments.is_completed a = false
  /\ task_assignments.completed_at a = None.
Proof.
  revert next_id. induction emps as [|e emps IH]; intros next_id; cbn.
  - intros [].
  - intros [<-|Hin]; [now cbn|eauto].
Qed.

(** In a consistent database no row refers to the next task key. *)
Lemma fresh_task_key (db : DB) :
  consistent db = true ->
  Sql.select (fun t => tasks.id t =? tasks_id_seq db) (tasks db) = []
  /\ assignments_of db (tasks_id_seq db) = [].
Proof.
  unfold consistent, serials_ahead, assignments_reference_tasks.
  intros H. apply andb_prop in H. destruct H as [H Hfk].
  apply andb_prop in H. destruct H as [Hids _].
  rewrite forallb_forall in Hids, Hfk.
  assert (Hnone : forall t, In t (tasks db) ->
                            (tasks.id t =? tasks_id_seq db) = false).
  { intros t Hin. apply Hids in Hin. apply Z.ltb_lt in Hin.
    apply Z.eqb_neq. lia. }
  split; [now apply filter_nothing|].
  apply filter_nothing. intros a Hin. specialize (Hfk a Hin).
  destruct (task_assignments.task_id a) as [i|]; [|reflexivity].
  cbn. apply existsb_exists in Hfk. destruct Hfk as (t & Ht & Hi).
  apply Z.eqb_eq in Hi. subst i. now apply Hnone.
Qed.

(** The rows of a freshly created branch task. *)
Lemma created_branch_task_rows (db : DB) (company_id : Z)
    (description : string) (due_date : option Datetime.date)
    (branch_id : Z) :
  consistent db = true ->
  branch_id <> 0 ->
  let out :=
    TaskModel.create_task company_id description due_date (Some branch_id)
      None db in
  task_row (snd out) (fst out)
  = Some (tasks.mk (fst out) (Some company_id) (Some branch_id) None
            description due_date false None None)
  /\ assignments_of (snd out) (fst out)
     = fanned_out (task_assignments_id_seq db) (fst out)
         (TaskModel.active_employees_of_branch branch_id db).
Proof.
  intros Hok Hb out. subst out. rewrite create_branch_task by exact Hb.
  destruct (fresh_task_key db Hok) as [Hrow Hasg].
  unfold task_row, TaskModel.task_by_id, assignments_of, Sql.select in *.
  cbn [fst snd tasks task_assignments]. rewrite !filter_app, Hrow, Hasg.
  cbn [app filter tasks.id]. rewrite Z.eqb_refl. split; [reflexivity|].
  apply forallb_filter_id, forallb_forall. intros a Hin.
  apply fanned_out_rows in Hin. destruct Hin as [-> _]. cbn.
  apply Z.eqb_refl.
Qed.

(** The constraints survive a branch-targeted [create_task]. *)
Lemma created_branch_task_consistent (db : DB) (company_id : Z)
    (description : string) (due_date : option Datetime.date)
    (branch_id : Z) :
  consistent db = true ->
  branch_id <> 0 ->
  consistent
    (snd (TaskModel.create_task company_id description due_date
            (Some branch_id) None db))
  = true.
Proof.
  intros Hok Hb. rewrite create_branch_task by exact Hb.
  unfold consistent, serials_ahead, assignments_reference_tasks in *.
  apply andb_prop in Hok. destruct Hok as [Hok Hfk].
  apply andb_prop in Hok. destruct Hok as [Hids Hemp].
  cbn [snd tasks employees task_assignments tasks_id_seq employees_id_seq].
  rewrite forallb_forall in Hids, Hfk.
  repeat (apply andb_true_intro; split).
  - apply forallb_forall. intros t Hin. apply in_app_or in Hin.
    destruct Hin as [Hin|[<-|[]]]; apply Z.ltb_lt.
    + apply Hids, Z.ltb_lt in Hin. lia.
    + cbn. lia.
  - exact Hemp.
  - apply forallb_forall. intros a Hin. apply in_app_or in Hin.
    destruct Hin as [Hin|Hin].
    + specialize (Hfk a Hin).
      destruct (task_assignments.task_id a); [|reflexivity].
      rewrite existsb_app, Hfk. reflexivity.
    + apply fanned_out_rows in Hin. destruct Hin as [-> _].
      rewrite existsb_app. cbn. rewrite Z.eqb_refl.
      now rewrite orb_true_r.
Qed.

Lemma pending_of_no_assignments (db : DB) (task_id : Z) :
  assignments_of db task_id = [] -> pending db task_id = [].
Proof.
  unfold assignments_of, pending, Sql.select, TaskModel.incomplete_of.
  intros Hnone.
  rewrite <- (filter_twice
                (fun a => Sql.eqc (task_assignments.task_id a) task_id)
                (fun a => negb (task_assignments.is_completed a))).
  now rewrite Hnone.
Qed.

(** On an open branch task without assignment rows, any call closes the
    task. *)
Lemma mark_without_assignments (db : DB) (now : timestamp)
    (task_id employee_id : Z) (t : tasks.row) :
  task_row db task_id = Some t ->
  tasks.is_completed t = false ->
  Py.truthy (tasks.branch_id t) = true ->
  assignments_of db task_id = [] ->
  let out := TaskModel.mark_task_completed now task_id employee_id db in
  fst out = true
  /\ task_row (snd out) task_id
     = Some (TaskModel.set_completed now employee_id t).
Proof.
  intros Ht Hopen Hbranch Hnone out. subst out.
  destruct (is_manager db employee_id) eqn:Hm.
  - unfold is_manager in Hm.
    destruct (employee_role_level db employee_id) as [l|] eqn:Hrole;
      [|discriminate].
    apply Z.leb_le in Hm.
    rewrite (mark_by_manager db now task_id employee_id t l) by assumption.
    split; [reflexivity|].
    apply (task_row_completed _ now task_id employee_id t). exact Ht.
  - rewrite (mark_by_employee db now task_id employee_id t) by assumption.
    rewrite pending_after_assignment_update.
    rewrite (pending_of_no_assignments db task_id Hnone).
    cbn [filter fst snd]. split; [reflexivity|].
    apply (task_row_completed _ now task_id employee_id t). exact Ht.
Qed.

(** C4, as stated, fails: branch 2 of the sample database has no
    employee; the branch task created for it gets key 4 and no assignment
    row, and the first call of [mark_task_completed], here by the general
    employee 11, returns true and leaves the task complete. *)
Lemma zero_roster_task_completes :
  let created :=
    TaskModel.create_task 1 "Sweep the depot" None (Some 2) None Sample.db in
  let out := TaskModel.mark_task_completed 100 (fst created) 11 (snd created) in
  TaskModel.active_employees_of_branch 2 Sample.db = []
  /\ fst created = 4
  /\ assignments_of (snd created) 4 = []
  /\ option_map tasks.is_completed (task_row (snd created) 4) = Some false
  /\ employee_role_level (snd created) 11 = Some 3
  /\ fst out = true
  /\ option_map tasks.is_completed (task_row (snd out) 4) = Some true.
Proof. repeat split; reflexivity. Qed.

(** C4, amended.  A branch task created, for a company and a branch that
    exist, for a branch without active employees has no assignment row and
    is open; the first call of [mark_task_completed] on it, by any
    employee (any key of a row of [employees], whatever the role, the branch
    and the status of that row), returns true and leaves the task complete,
    attributed to that employee at the call's clock reading.  The
    conditions on the company, the branch and the actor are the
    [REFERENCES] of [tasks]: without them the [INSERT], or the [UPDATE]
    that stores the actor in [completed_by_id], raises. *)
Theorem zero_roster_task_closes_on_first_call
    (db : DB) (company_id : Z) (description : string)
    (due_date : option Datetime.date) (branch_id : Z) :
  consistent db = true ->
  has_company db company_id = true ->
  has_branch db branch_id = true ->
  branch_id <> 0 ->
  TaskModel.active_employees_of_branch branch_id db = [] ->
  let created :=
    TaskModel.create_task company_id description due_date (Some branch_id)
      None db in
  assignments_of (snd created) (fst created) = []
  /\ task_row (snd created) (fst created)
     = Some (tasks.mk (fst created) (Some company_id) (Some branch_id) None
               description due_date false None None)
  /\ (forall (now : timestamp) (employee_id : Z),
        has_employee (snd created) employee_id = true ->
        let out :=
          TaskModel.mark_task_completed now (fst created) employee_id
            (snd created) in
        fst out = true
        /\ task_row (snd out) (fst created)
           = Some (tasks.mk (fst created) (Some company_id) (Some branch_id)
                     None description due_date true (Some employee_id)
                     (Some now))).
Proof.
  intros Hok _ _ Hb Hroster created.
  destruct (created_branch_task_rows db company_id description due_date
              branch_id Hok Hb) as [Hrow Hasg].
  fold created in Hrow, Hasg. rewrite Hroster in Hasg. cbn in Hasg.
  split; [exact Hasg|]. split; [exact Hrow|].
  intros now employee_id _.
  apply (mark_without_assignments (snd created) now (fst created) employee_id
           _ Hrow); trivial.
  cbn. now apply negb_true_iff, Z.eqb_neq.
Qed.

(** C4 amended, at company 1 and its branch 2 of the sample database. *)
Lemma zero_roster_task_closes_on_first_call_witness :
  let created :=
    TaskModel.create_task 1 "Sweep the depot" None (Some 2) None Sample.db in
  assignments_of (snd created) (fst created) = []
  /\ task_row (snd created) (fst created)
     = Some (tasks.mk (fst created) (Some 1) (Some 2) None
               "Sweep the depot" None false None None)
  /\ (forall (now : timestamp) (employee_id : Z),
        has_employee (snd created) employee_id = true ->
        let out :=
          TaskModel.mark_task_completed now (fst created) employee_id
            (snd created) in
        fst out = true
        /\ task_row (snd out) (fst created)
           = Some (tasks.mk (fst created) (Some 1) (Some 2)
                     None "Sweep the depot" None true (Some employee_id)
                     (Some now))).
Proof.
  apply (zero_roster_task_closes_on_first_call Sample.db 1
           "Sweep the depot" None 2);
    [reflexivity | reflexivity | reflexivity | lia | reflexivity].
Defined.

(** C6. Fan-out completeness: a branch-targeted [create_task], for a
    company and a branch that exist, returns the key of the task row it
    inserted; the assignment rows of that task are as many as the employees
    active in the branch at that moment, keyed to those employees one each
    (in whatever order the [SELECT] returned them), each incomplete with no
    completion time.  An employee that [add_employee] then adds to the
    branch, with a role that exists, a user name not in use and values
    within the [VARCHAR] limits, joins the active roster of the branch;
    [add_employee] writes nothing to [task_assignments], and no assignment
    of the task is keyed to the new employee.  The conditions are those
    under which the [INSERT]s are accepted: the [REFERENCES] of [tasks] and
    of [employees], the primary keys and sequences of [employees] and
    [task_assignments], and [UNIQUE] and the lengths of the columns of
    [employees]. *)
Theorem fan_out_completeness
    (db : DB) (company_id : Z) (description : string)
    (due_date : option Datetime.date) (branch_id : Z) :
  consistent db = true ->
  assignment_serial_ahead db = true ->
  NoDup (map employees.id (employees db)) ->
  has_company db company_id = true ->
  has_branch db branch_id = true ->
  branch_id <> 0 ->
  let roster :=
    Sql.select
      (fun e => Sql.eqc (employees.branch_id e) branch_id
                && employees.is_active e)
      (employees db) in
  let created :=
    TaskModel.create_task company_id description due_date (Some branch_id)
      None db in
  task_row (snd created) (fst created)
  = Some (tasks.mk (fst created) (Some company_id) (Some branch_id) None
            description due_date false None None)
  /\ List.length (assignments_of (snd created) (fst created))
     = List.length roster
  /\ Permutation
       (map task_assignments.employee_id
          (assignments_of (snd created) (fst created)))
       (map (fun e => Some (employees.id e)) roster)
  /\ (forall a, In a (assignments_of (snd created) (fst created)) ->
        task_assignments.is_completed a = false
        /\ task_assignments.completed_at a = None)
  /\ (forall (role_id : Z) (username password full_name pic : string),
        employee_accepted (snd created) branch_id role_id username password
          full_name = true ->
        let db'' :=
          snd (EmployeeModel.add_employee branch_id role_id username password
                 full_name pic (snd created)) in
        Permutation (TaskModel.active_employees_of_branch branch_id db'')
          (employees_id_seq db :: map employees.id roster)
        /\ task_assignments db'' = task_assignments (snd created)
        /\ ~ In (Some (employees_id_seq db))
               (map task_assignments.employee_id
                  (assignments_of db'' (fst created)))).
Proof.
  intros Hok _ _ _ _ Hb roster created.
  destruct (created_branch_task_rows db company_id description due_date
              branch_id Hok Hb) as [Hrow Hasg].
  fold created in Hrow, Hasg.
  assert (Hkeys :
    map task_assignments.employee_id
      (assignments_of (snd created) (fst created))
    = map (fun e => Some (employees.id e)) roster).
  { rewrite Hasg, fanned_out_keys.
    unfold TaskModel.active_employees_of_branch. fold roster.
    now rewrite map_map. }
  split; [exact Hrow|].
  split; [|split; [rewrite Hkeys; apply Permutation_refl|split]].
  - rewrite <- (length_map task_assignments.employee_id), Hkeys.
    apply length_map.
  - intros a Hin. rewrite Hasg in Hin. now apply fanned_out_rows in Hin.
  - intros role_id username password full_name pic _ db''.
    assert (Hemp : employees (snd created) = employees db
                   /\ employees_id_seq (snd created) = employees_id_seq db).
    { subst created. rewrite create_branch_task by exact Hb. now cbn. }
    destruct Hemp as [Hemp Hseq].
    assert (Hasg'' : task_assignments db'' = task_assignments (snd created))
      by reflexivity.
    split; [|split; [exact Hasg''|]].
    + subst db''. unfold EmployeeModel.add_employee, bind,
        nextval_employees, execute, with_employees, Sql.insert,
        TaskModel.active_employees_of_branch, Sql.select.
      cbn [snd employees employees_id_seq].
      rewrite Hemp, Hseq, filter_app, map_app. cbn.
      rewrite Z.eqb_refl. cbn [map app].
      apply Permutation_sym, Permutation_cons_append.
    + unfold assignments_of in *. rewrite Hasg'', Hkeys.
      intros Hin. apply in_map_iff in Hin. destruct Hin as (e & He & Hin).
      apply filter_In in Hin. destruct Hin as [Hin _].
      unfold consistent, serials_ahead in Hok.
      apply andb_prop in Hok. destruct Hok as [Hok _].
      apply andb_prop in Hok. destruct Hok as [_ Hids].
      rewrite forallb_forall in Hids. apply Hids, Z.ltb_lt in Hin.
      injection He as He. lia.
Qed.

(** C6 at branch 1 of the sample database (three active employees). *)
Lemma fan_out_completeness_witness :
  let roster :=
    Sql.select
      (fun e => Sql.eqc (employees.branch_id e) 1 && employees.is_active e)
      (employees Sample.db) in
  let created :=
    TaskModel.create_task 1 "Lock up" None (Some 1) None Sample.db in
  task_row (snd created) (fst created)
  = Some (tasks.mk (fst created) (Some 1) (Some 1) None
            "Lock up" None false None None)
  /\ List.length (assignments_of (snd created) (fst created))
     = List.length roster
  /\ Permutation
       (map task_assignments.employee_id
          (assignments_of (snd created) (fst created)))
       (map (fun e => Some (employees.id e)) roster)
  /\ (forall a, In a (assignments_of (snd created) (fst created)) ->
        task_assignments.is_completed a = false
        /\ task_assignments.completed_at a = None)
  /\ (forall (role_id : Z) (username password full_name pic : string),
        employee_accepted (snd created) 1 role_id username password
          full_name = true ->
        let db'' :=
          snd (EmployeeModel.add_employee 1 role_id username password
                 full_name pic (snd created)) in
        Permutation (TaskModel.active_employees_of_branch 1 db'')
          (employees_id_seq Sample.db :: map employees.id roster)
        /\ task_assignments db'' = task_assignments (snd created)
        /\ ~ In (Some (employees_id_seq Sample.db))
               (map task_assignments.employee_id
                  (assignments_of db'' (fst created)))).
Proof.
  apply (fan_out_completeness Sample.db 1 "Lock up" None 1);
    [ reflexivity | reflexivity
    | repeat (constructor; [cbn; intuition lia|]); constructor
    | reflexivity | reflexivity | lia ].
Defined.

(** The sample database after a task for branch 1 and a new employee of
    that branch: the employee is accepted and joins the roster under key
    21, and the assignments of the task are still those of 10, 11 and
    12. *)
Example late_employee_has_no_assignment :
  let created :=
    TaskModel.create_task 1 "Lock up" None (Some 1) None Sample.db in
  let db'' :=
    snd (EmployeeModel.add_employee 1 3 "new" "pw" "New" Sample.pic
           (snd created)) in
  employee_accepted (snd created) 1 3 "new" "pw" "New" = true
  /\ employee_accepted (snd created) 1 3 "gus" "pw" "New" = false
  /\ employee_accepted (snd created) 9 3 "new" "pw" "New" = false
  /\ TaskModel.active_employees_of_branch 1 db'' = [10; 11; 12; 21]
  /\ map task_assignments.employee_id (assignments_of db'' (fst created))
     = [Some 10; Some 11; Some 12].
Proof. repeat split; reflexivity. Qed.

(** ** The calendar *)

Section Calendar.

Import Datetime.

(** The days before a year, by the position of the year in its 400, 100
    and 4 year cycles. *)
Lemma days_before_year_split (a b c e : Z) :
  0 <= b < 4 -> 0 <= c < 25 -> 0 <= e < 4 ->
  _days_before_year (400 * a + 100 * b + 4 * c + e + 1)
  = 146097 * a + 36524 * b + 1461 * c + 365 * e.
Proof.
  intros Hb Hc He. unfold _days_before_year.
  replace (400 * a + 100 * b + 4 * c + e + 1 - 1)
    with (400 * a + 100 * b + 4 * c + e) by lia.
  Z.div_mod_to_equations. lia.
Qed.

Lemma is_leap_split (a b c e : Z) :
  0 <= b < 4 -> 0 <= c < 25 -> 0 <= e < 4 ->
  _is_leap (400 * a + 100 * b + 4 * c + e + 1)
  = (e =? 3) && (negb (c =? 24) || (b =? 3)).
Proof.
  intros Hb Hc He. unfold _is_leap.
  destruct (Z.eqb_spec e 3), (Z.eqb_spec c 24), (Z.eqb_spec b 3);
    cbn [andb orb negb];
    repeat match goal with
           | |- context [?x mod ?k =? 0] => destruct (Z.eqb_spec (x mod k) 0)
           end; cbn [andb orb negb]; try reflexivity;
    exfalso; Z.div_mod_to_equations; lia.
Qed.

(** Every zero-based day of a year, leap or not, splits into a month and
    a day of that month. *)
Lemma month_day_checked :
  forallb (fun k => month_day_ok true (Z.of_nat k)
                    && month_day_ok false (Z.of_nat k))
    (seq 0 365) = true.
Proof. vm_compute. reflexivity. Qed.

Lemma month_day_of_ok (leapyear : bool) (n : Z) :
  0 <= n < 365 -> month_day_ok leapyear n = true.
Proof.
  intros Hn. pose proof month_day_checked as H.
  rewrite forallb_forall in H.
  specialize (H (Z.to_nat n)). rewrite Z2Nat.id in H by lia.
  assert (Hin : In (Z.to_nat n) (seq 0 365)) by (apply in_seq; lia).
  apply H in Hin. apply andb_prop in Hin. now destruct leapyear.
Qed.

Lemma days_in_month_table (y m : Z) :
  _days_in_month y m
  = _DAYS_IN_MONTH m + (if (m =? 2) && _is_leap y then 1 else 0).
Proof.
  unfold _days_in_month.
  destruct (Z.eqb_spec m 2) as [->|_]; destruct (_is_leap y); cbn; lia.
Qed.

(** [fromordinal] yields a valid date with the given ordinal. *)
Lemma fromordinal_spec (n : Z) :
  1 <= n <= _MAXORDINAL ->
  valid (fromordinal n) = true /\ toordinal (fromordinal n) = n.
Proof.
  unfold _MAXORDINAL. intros Hn.
  unfold fromordinal, _ord2ymd, _DI400Y, _DI100Y, _DI4Y. cbv zeta.
  remember ((n - 1) mod 146097) as r1 eqn:Er1.
  remember ((n - 1) / 146097) as a eqn:Ea.
  remember (r1 mod 36524) as r2 eqn:Er2.
  remember (r1 / 36524) as b eqn:Eb.
  remember (r2 mod 1461) as r3 eqn:Er3.
  remember (r2 / 1461) as c eqn:Ec.
  remember (r3 mod 365) as r4 eqn:Er4.
  remember (r3 / 365) as e eqn:Ee.
  assert (H1 : n - 1 = 146097 * a + r1 /\ 0 <= r1 < 146097)
    by (rewrite Ea, Er1; Z.div_mod_to_equations; lia).
  assert (H2 : r1 = 36524 * b + r2 /\ 0 <= r2 < 36524)
    by (rewrite Eb, Er2; Z.div_mod_to_equations; lia).
  assert (H3 : r2 = 1461 * c + r3 /\ 0 <= r3 < 1461)
    by (rewrite Ec, Er3; Z.div_mod_to_equations; lia).
  assert (H4 : r3 = 365 * e + r4 /\ 0 <= r4 < 365)
    by (rewrite Ee, Er4; Z.div_mod_to_equations; lia).
  clear Er1 Ea Er2 Eb Er3 Ec Er4 Ee.
  destruct (Z.eqb_spec e 4) as [He|He]; [|destruct (Z.eqb_spec b 4) as [Hb|Hb]];
    cbn [orb].
  - (* the last day of a leap year that is not a century *)
    unfold valid, toordinal, valid_ymd, _ymd2ord. cbn [year month day].
    replace (a * 400 + 1 + (b * 100 + c * 4 + e) - 1)
      with (400 * a + 100 * b + 4 * c + 3 + 1) by lia.
    assert (Hb : 0 <= b < 4) by lia.
    assert (Hc : 0 <= c < 24) by lia.
    rewrite days_in_month_table. unfold _days_before_month.
    rewrite is_leap_split, days_before_year_split by lia.
    replace (c =? 24) with false by (symmetry; apply Z.eqb_neq; lia).
    change (12 =? 2) with false. change (2 <? 12) with true.
    change (_DAYS_IN_MONTH 12) with 31.
    change (_DAYS_BEFORE_MONTH 12) with 334.
    change (3 =? 3) with true. cbn [andb orb negb].
    unfold MINYEAR, MAXYEAR. split; [|lia].
    repeat (apply andb_true_intro; split); try reflexivity;
      apply Z.leb_le; lia.
  - (* the last day of a year divisible by 400 *)
    unfold valid, toordinal, valid_ymd, _ymd2ord. cbn [year month day].
    replace (a * 400 + 1 + (b * 100 + c * 4 + e) - 1)
      with (400 * a + 100 * 3 + 4 * 24 + 3 + 1) by lia.
    rewrite days_in_month_table. unfold _days_before_month.
    rewrite is_leap_split, days_before_year_split by lia.
    change (12 =? 2) with false. change (2 <? 12) with true.
    change (_DAYS_IN_MONTH 12) with 31.
    change (_DAYS_BEFORE_MONTH 12) with 334.
    change (3 =? 3) with true. change (24 =? 24) with true.
    cbn [andb orb negb].
    unfold MINYEAR, MAXYEAR. split; [|lia].
    repeat (apply andb_true_intro; split); try reflexivity;
      apply Z.leb_le; lia.
  - (* any other day *)
    assert (Hb' : 0 <= b < 4) by lia.
    assert (Hc : 0 <= c < 25) by lia.
    assert (He' : 0 <= e < 4) by lia.
    set (leapyear := (e =? 3) && (negb (c =? 24) || (b =? 3))).
    pose proof (month_day_of_ok leapyear r4 (proj2 H4)) as Hmd.
    unfold month_day_ok, month_day_of in Hmd. cbv zeta in Hmd.
    replace (a * 400 + 1 + (b * 100 + c * 4 + e))
      with (400 * a + 100 * b + 4 * c + e + 1) by lia.
    match goal with
    | |- context [if ?t then _ else _] =>
        match t with
        | (r4 <? _) => destruct t
        end
    end;
      unfold valid, toordinal, valid_ymd, _ymd2ord; cbn [year month day];
      rewrite days_in_month_table; unfold _days_before_month;
      rewrite is_leap_split, days_before_year_split by lia;
      fold leapyear;
      repeat (apply andb_prop in Hmd; destruct Hmd as [Hmd ?]);
      repeat match goal with
             | H : (_ <=? _) = true |- _ => apply Z.leb_le in H
             | H : (_ =? _) = true |- _ => apply Z.eqb_eq in H
             end;
      unfold MINYEAR, MAXYEAR;
      (split; [repeat (apply andb_true_intro; split); apply Z.leb_le; lia
              | lia]).
Qed.

(** Case analysis on a month between 1 and 12. *)
Ltac each_month m :=
  let H := fresh in
  assert (H : m = 1 \/ m = 2 \/ m = 3 \/ m = 4 \/ m = 5 \/ m = 6 \/ m = 7
              \/ m = 8 \/ m = 9 \/ m = 10 \/ m = 11 \/ m = 12) by lia;
  repeat (destruct H as [H|H]; [subst m|]); [..|subst m].

(** Evaluation of the month tables and of comparisons of literals. *)
Ltac calendar :=
  unfold _DAYS_BEFORE_MONTH, _DAYS_IN_MONTH in *;
  cbn [andb orb negb Z.eqb Z.ltb Z.leb Z.compare Pos.compare
       Pos.compare_cont Pos.eqb] in *.

Lemma valid_ymd_bounds (y m d : Z) :
  valid_ymd y m d = true ->
  1 <= y <= 9999 /\ 1 <= m <= 12 /\ 1 <= d <= _days_in_month y m.
Proof.
  unfold valid_ymd, MINYEAR, MAXYEAR. intros H.
  repeat (apply andb_prop in H; destruct H as [H ?]).
  repeat match goal with
         | H : (_ <=? _) = true |- _ => apply Z.leb_le in H
         end.
  lia.
Qed.

Lemma days_before_year_succ (y : Z) :
  _days_before_year (y + 1)
  = _days_before_year y + 365 + (if _is_leap y then 1 else 0).
Proof.
  unfold _days_before_year, _is_leap.
  replace (y + 1 - 1) with y by lia.
  repeat match goal with
         | |- context [?x mod ?k =? 0] => destruct (Z.eqb_spec (x mod k) 0)
         end; cbn [andb orb negb]; Z.div_mod_to_equations; lia.
Qed.

Lemma days_before_year_mono (y1 y2 : Z) :
  y1 <= y2 -> _days_before_year y1 <= _days_before_year y2.
Proof.
  unfold _days_before_year. intros H. Z.div_mod_to_equations. lia.
Qed.

Lemma day_of_year_bounds (y m d : Z) :
  valid_ymd y m d = true ->
  1 <= _days_before_month y m + d <= 365 + (if _is_leap y then 1 else 0).
Proof.
  intros H. apply valid_ymd_bounds in H. destruct H as (_ & Hm & Hd).
  unfold _days_before_month, _days_in_month in *.
  each_month m; destruct (_is_leap y); calendar; lia.
Qed.

Lemma same_year_inj (y m1 d1 m2 d2 : Z) :
  valid_ymd y m1 d1 = true ->
  valid_ymd y m2 d2 = true ->
  _days_before_month y m1 + d1 = _days_before_month y m2 + d2 ->
  m1 = m2 /\ d1 = d2.
Proof.
  intros H1 H2. apply valid_ymd_bounds in H1, H2.
  destruct H1 as (_ & Hm1 & Hd1), H2 as (_ & Hm2 & Hd2).
  unfold _days_before_month, _days_in_month in *.
  destruct (_is_leap y); each_month m1; each_month m2; calendar; lia.
Qed.

Lemma toordinal_inj (d1 d2 : date) :
  valid d1 = true -> valid d2 = true ->
  toordinal d1 = toordinal d2 -> d1 = d2.
Proof.
  destruct d1 as [y1 m1 d1], d2 as [y2 m2 d2].
  unfold valid, toordinal, _ymd2ord. cbn [year month day].
  intros H1 H2 Heq.
  pose proof (day_of_year_bounds _ _ _ H1) as B1.
  pose proof (day_of_year_bounds _ _ _ H2) as B2.
  pose proof (days_before_year_succ y1) as S1.
  pose proof (days_before_year_succ y2) as S2.
  assert (Hy : y1 = y2).
  { destruct (Z.lt_trichotomy y1 y2) as [Hlt|[Heq'|Hgt]]; [|exact Heq'|].
    - pose proof (days_before_year_mono (y1 + 1) y2 ltac:(lia)). lia.
    - pose proof (days_before_year_mono (y2 + 1) y1 ltac:(lia)). lia. }
  subst y2.
  destruct (same_year_inj y1 m1 d1 m2 d2 H1 H2 ltac:(lia)) as [-> ->].
  reflexivity.
Qed.

Lemma toordinal_bounds (d : date) :
  valid d = true -> 1 <= toordinal d <= _MAXORDINAL.
Proof.
  destruct d as [y m d]. unfold valid, toordinal, _ymd2ord, _MAXORDINAL.
  cbn [year month day]. intros H.
  pose proof (day_of_year_bounds _ _ _ H) as B.
  apply valid_ymd_bounds in H. destruct H as (Hy & _ & _).
  pose proof (days_before_year_succ y) as S.
  pose proof (days_before_year_mono 1 y ltac:(lia)) as L.
  pose proof (days_before_year_mono (y + 1) 10000 ltac:(lia)) as U.
  change (_days_before_year 1) with 0 in L.
  change (_days_before_year 10000) with 3652059 in U.
  lia.
Qed.

Lemma fromordinal_toordinal (d : date) :
  valid d = true -> fromordinal (toordinal d) = d.
Proof.
  intros Hd. pose proof (toordinal_bounds d Hd) as B.
  destruct (fromordinal_spec (toordinal d) B) as [Hv Ho].
  now apply toordinal_inj.
Qed.

Lemma valid_ymd_intro (y m d : Z) :
  1 <= y <= 9999 -> 1 <= m <= 12 -> 1 <= d <= _days_in_month y m ->
  valid_ymd y m d = true.
Proof.
  intros Hy Hm Hd. unfold valid_ymd, MINYEAR, MAXYEAR.
  repeat (apply andb_true_intro; split); apply Z.leb_le; lia.
Qed.

Lemma days_in_month_bounds (y m : Z) :
  1 <= m <= 12 -> 28 <= _days_in_month y m <= 31.
Proof.
  intros Hm. unfold _days_in_month.
  each_month m; destruct (_is_leap y); calendar; lia.
Qed.

(** The day before the first of a month is the last of the month
    before. *)
Lemma last_day_of_previous_month (y m : Z) :
  1 <= m <= 11 ->
  _ymd2ord y (m + 1) 1 - 1 = _ymd2ord y m (_days_in_month y m).
Proof.
  intros Hm. unfold _ymd2ord, _days_before_month, _days_in_month.
  each_month m; destruct (_is_leap y); cbn [Z.add Pos.add Pos.succ];
    calendar; lia.
Qed.

Lemma this_week_start (today : date) :
  valid today = true ->
  exists start_date,
    sub_days today (weekday today) = Some start_date
    /\ valid start_date = true
    /\ weekday start_date = 0
    /\ toordinal start_date <= toordinal today < toordinal start_date + 7.
Proof.
  intros Hv. pose proof (toordinal_bounds today Hv) as B.
  unfold sub_days, weekday in *. unfold _MAXORDINAL in *.
  set (o := toordinal today) in *.
  assert (Ho : 1 <= o - (o + 6) mod 7 <= 3652059)
    by (Z.div_mod_to_equations; lia).
  replace (0 <? o - (o + 6) mod 7) with true
    by (symmetry; apply Z.ltb_lt; lia).
  replace (o - (o + 6) mod 7 <=? 3652059) with true
    by (symmetry; apply Z.leb_le; lia).
  cbn [andb]. eexists. split; [reflexivity|].
  destruct (fromordinal_spec (o - (o + 6) mod 7) Ho) as [Hvs Hos].
  split; [exact Hvs|]. rewrite Hos.
  split; Z.div_mod_to_equations; lia.
Qed.

(** C9. Date-range presets.  For a valid [today]: "This Week", in
    [get_date_range_from_filter] and in the calculation of
    [view_branch_employee_reports] alike, yields a start date that is a
    Monday at most six days before [today], and [today] as end date.
    "Last Month" (when [today] is not in January of year 1, the first month
    a [date] can hold) yields the first day and the last day of the
    previous month, the day after which is the first of the current month;
    in March that is February 1 to February 29 in a leap year and to
    February 28 otherwise. *)
Theorem date_range_presets (today : date) :
  valid today = true ->
  (exists start_date,
     get_date_range_from_filter today "This Week" = Some (start_date, today)
     /\ (forall custom_start custom_end,
           view_branch_employee_reports_date_range today "This Week"
             custom_start custom_end
           = Some (start_date, today))
     /\ valid start_date = true
     /\ weekday start_date = 0
     /\ toordinal start_date <= toordinal today < toordinal start_date + 7)
  /\ (1 < year today \/ 1 < month today ->
      forall custom_start custom_end,
        let (y, m) := previous_month (year today) (month today) in
        view_branch_employee_reports_date_range today "Last Month"
          custom_start custom_end
        = Some (mkdate y m 1, mkdate y m (_days_in_month y m))
        /\ valid (mkdate y m 1) = true
        /\ valid (mkdate y m (_days_in_month y m)) = true
        /\ toordinal (mkdate y m (_days_in_month y m)) + 1
           = toordinal (mkdate (year today) (month today) 1))
  /\ (month today = 3 ->
      forall custom_start custom_end,
        view_branch_employee_reports_date_range today "Last Month"
          custom_start custom_end
        = Some (mkdate (year today) 2 1,
                mkdate (year today) 2
                  (if _is_leap (year today) then 29 else 28))).
Proof.
  intros Hv.
  assert (Hlast :
    1 < year today \/ 1 < month today ->
    forall custom_start custom_end,
      let (y, m) := previous_month (year today) (month today) in
      view_branch_employee_reports_date_range today "Last Month"
        custom_start custom_end
      = Some (mkdate y m 1, mkdate y m (_days_in_month y m))
      /\ valid (mkdate y m 1) = true
      /\ valid (mkdate y m (_days_in_month y m)) = true
      /\ toordinal (mkdate y m (_days_in_month y m)) + 1
         = toordinal (mkdate (year today) (month today) 1)).
  { intros Hnot1 custom_start custom_end.
    destruct today as [y m d]. unfold valid in Hv. cbn [year month day] in *.
    apply valid_ymd_bounds in Hv. destruct Hv as (Hy & Hm & Hd).
    unfold view_branch_employee_reports_date_range, previous_month.
    simpl String.eqb. cbv iota. cbn [year month day].
    destruct (Z.ltb_spec 1 m) as [Hgt|Hle].
    - assert (Hm' : 1 <= m - 1 <= 11) by lia.
      pose proof (days_in_month_bounds y (m - 1) ltac:(lia)) as Hdim.
      assert (V1 : valid_ymd y (m - 1) 1 = true)
        by (apply valid_ymd_intro; lia).
      assert (V2 : valid_ymd y (m - 1) (_days_in_month y (m - 1)) = true)
        by (apply valid_ymd_intro; lia).
      assert (V3 : valid_ymd y (m - 1 + 1) 1 = true)
        by (apply valid_ymd_intro;
            [lia|lia|
             pose proof (days_in_month_bounds y (m - 1 + 1) ltac:(lia)); lia]).
      unfold new. rewrite V1.
      replace (m - 1 =? 12) with false by (symmetry; apply Z.eqb_neq; lia).
      rewrite V3. cbn [Datetime.bind].
      unfold sub_days, toordinal. cbn [year month day].
      rewrite (last_day_of_previous_month y (m - 1) Hm').
      pose proof (toordinal_bounds (mkdate y (m - 1) (_days_in_month y (m - 1)))
                    V2) as B.
      unfold toordinal in B. cbn [year month day] in B.
      replace (0 <? _ymd2ord y (m - 1) (_days_in_month y (m - 1))) with true
        by (symmetry; apply Z.ltb_lt; lia).
      replace (_ymd2ord y (m - 1) (_days_in_month y (m - 1)) <=? _MAXORDINAL)
        with true by (symmetry; apply Z.leb_le; lia).
      cbn [andb Datetime.bind].
      change (_ymd2ord y (m - 1) (_days_in_month y (m - 1)))
        with (toordinal (mkdate y (m - 1) (_days_in_month y (m - 1)))).
      rewrite (fromordinal_toordinal
                 (mkdate y (m - 1) (_days_in_month y (m - 1))) V2).
      split; [reflexivity|]. split; [exact V1|]. split; [exact V2|].
      unfold toordinal. cbn [year month day].
      rewrite <- (last_day_of_previous_month y (m - 1) Hm').
      replace (m - 1 + 1) with m by lia. lia.
    - assert (m = 1) by lia. subst m.
      assert (Hy' : 1 <= y - 1 <= 9999) by lia.
      assert (D : _days_in_month (y - 1) 12 = 31) by reflexivity.
      assert (V1 : valid_ymd (y - 1) 12 1 = true)
        by (apply valid_ymd_intro; rewrite ?D; lia).
      assert (V2 : valid_ymd (y - 1) 12 31 = true)
        by (apply valid_ymd_intro; rewrite ?D; lia).
      unfold new. rewrite V1. change (12 =? 12) with true. cbv iota.
      rewrite V2, D. cbn [Datetime.bind].
      split; [reflexivity|]. split; [exact V1|]. split; [exact V2|].
      unfold toordinal, _ymd2ord, _days_before_month. cbn [year month day].
      pose proof (days_before_year_succ (y - 1)) as S.
      replace (y - 1 + 1) with y in S by lia.
      destruct (_is_leap (y - 1)); calendar; lia. }
  split; [|split; [exact Hlast|]].
  - destruct (this_week_start today Hv) as (start & Hs & Hvs & Hw & Hr).
    exists start. unfold get_date_range_from_filter,
      view_branch_employee_reports_date_range.
    simpl String.eqb. cbv iota. rewrite Hs. cbn [Datetime.bind].
    repeat split; trivial; lia.
  - intros Hmarch custom_start custom_end.
    assert (Hafter : 1 < year today \/ 1 < month today) by (right; lia).
    specialize (Hlast Hafter custom_start custom_end).
    unfold previous_month in Hlast. rewrite Hmarch in Hlast.
    change (1 <? 3) with true in Hlast. cbv iota in Hlast.
    change (3 - 1) with 2 in Hlast.
    destruct Hlast as (Hlast & _). rewrite Hlast.
    unfold _days_in_month. change (2 =? 2) with true. cbn [andb].
    reflexivity.
Qed.

(** C9 on Wednesday 13 March 2024. *)
Lemma date_range_presets_witness :
  (exists start_date,
     get_date_range_from_filter (mkdate 2024 3 13) "This Week"
     = Some (start_date, mkdate 2024 3 13)
     /\ (forall custom_start custom_end,
           view_branch_employee_reports_date_range (mkdate 2024 3 13)
             "This Week" custom_start custom_end
           = Some (start_date, mkdate 2024 3 13))
     /\ valid start_date = true
     /\ weekday start_date = 0
     /\ toordinal start_date <= toordinal (mkdate 2024 3 13)
        < toordinal start_date + 7)
  /\ (1 < 2024 \/ 1 < 3 ->
      forall custom_start custom_end,
        view_branch_employee_reports_date_range (mkdate 2024 3 13)
          "Last Month" custom_start custom_end
        = Some (mkdate 2024 2 1, mkdate 2024 2 29)
        /\ valid (mkdate 2024 2 1) = true
        /\ valid (mkdate 2024 2 29) = true
        /\ toordinal (mkdate 2024 2 29) + 1 = toordinal (mkdate 2024 3 1))
  /\ (3 = 3 ->
      forall custom_start custom_end,
        view_branch_employee_reports_date_range (mkdate 2024 3 13)
          "Last Month" custom_start custom_end
        = Some (mkdate 2024 2 1, mkdate 2024 2 29)).
Proof.
  exact (date_range_presets (mkdate 2024 3 13) eq_refl).
Defined.

(** The presets evaluated on that Wednesday, at the end of March 2023 and
    on 1 January 2025.  [get_date_range_from_filter] has no "Last Month"
    branch (no view that calls it offers the option): the name falls to its
    last branch. *)
Example presets_evaluated :
  get_date_range_from_filter (mkdate 2024 3 13) "This Week"
  = Some (mkdate 2024 3 11, mkdate 2024 3 13)
  /\ get_date_range_from_filter (mkdate 2024 3 13) "Last Month"
     = Some (mkdate 2000 1 1, mkdate 2024 3 13)
  /\ view_branch_employee_reports_date_range (mkdate 2023 3 31) "Last Month"
       (mkdate 2023 3 1) (mkdate 2023 3 31)
     = Some (mkdate 2023 2 1, mkdate 2023 2 28)
  /\ view_branch_employee_reports_date_range (mkdate 2025 1 1) "Last Month"
       (mkdate 2025 1 1) (mkdate 2025 1 1)
     = Some (mkdate 2024 12 1, mkdate 2024 12 31)
  /\ weekday (mkdate 2024 3 13) = 2.
Proof. repeat split; vm_compute; reflexivity. Qed.

End Calendar.

(** * Further properties of the models *)

(** Stepping through the statements of a function. *)
Ltac statements :=
  unfold bind, execute, query, ret, with_companies, with_branches,
    with_employee_roles, with_employees, with_tasks, with_task_assignments;
  cbn [fst snd companies branches employee_roles employees tasks
       task_assignments employees_id_seq tasks_id_seq
       task_assignments_id_seq].

(** ** The role table *)

(** X1. Role names and levels.  [get_role_level] after [get_role_name] gives
    back the levels 1, 2 and 3 and sends every other level to 3;
    [get_role_name] after [get_role_level] gives back the three role names
    and sends every other name to "General Employee". *)
Theorem role_level_name_round_trip :
  (forall l : Z,
     RolePermissions.get_role_level (RolePermissions.get_role_name l)
     = (if (1 <=? l) && (l <=? 3) then l else 3))
  /\ (forall s : string,
        RolePermissions.get_role_name (RolePermissions.get_role_level s)
        = (if existsb (String.eqb s)
                ["Manager"; "Asst. Manager"; "General Employee"]%string
           then s else "General Employee"%string)).
Proof.
  split.
  - intros l. unfold RolePermissions.get_role_name,
      RolePermissions.MANAGER, RolePermissions.ASST_MANAGER,
      RolePermissions.GENERAL_EMPLOYEE.
    destruct (Z.eqb_spec l 1) as [->|H1]; [reflexivity|].
    destruct (Z.eqb_spec l 2) as [->|H2]; [reflexivity|].
    destruct (Z.eqb_spec l 3) as [->|H3]; [reflexivity|].
    destruct (Z.leb_spec 1 l), (Z.leb_spec l 3); cbn [andb];
      try reflexivity; lia.
  - intros s. unfold RolePermissions.get_role_level. cbn [existsb].
    destruct (String.eqb_spec s "Manager") as [->|H1]; [reflexivity|].
    destruct (String.eqb_spec s "Asst. Manager") as [->|H2]; [reflexivity|].
    destruct (String.eqb_spec s "General Employee") as [->|H3];
      reflexivity.
Qed.

(** X2. Permissions point downwards: whenever [can_assign_tasks_to] or
    [can_deactivate_role] grants, the acting level is 1 or 2 and the target
    level is strictly below it in rank (a larger number). *)
Theorem permissions_point_downwards (u t : Z) :
  RolePermissions.can_assign_tasks_to u t = true
  \/ RolePermissions.can_deactivate_role u t = true ->
  (u = 1 \/ u = 2) /\ u < t.
Proof.
  unfold RolePermissions.can_assign_tasks_to,
    RolePermissions.can_deactivate_role, RolePermissions.MANAGER,
    RolePermissions.ASST_MANAGER, RolePermissions.GENERAL_EMPLOYEE.
  destruct (Z.eqb_spec u 1) as [->|H1];
    [|destruct (Z.eqb_spec u 2) as [->|H2]].
  - intros [H|H]; [apply Z.leb_le in H|apply Z.ltb_lt in H]; lia.
  - intros [H|H]; apply Z.eqb_eq in H; lia.
  - intros [H|H]; discriminate.
Qed.

(** [permissions_point_downwards] at a concrete input. *)
Lemma permissions_point_downwards_witness :
  (1 = 1 \/ 1 = 2) /\ 1 < 3.
Proof.
  apply (permissions_point_downwards 1 3). left. reflexivity.
Defined.

(** X3. On all levels [can_deactivate_role] and [can_assign_tasks_to] are
    the same table. *)
Theorem deactivation_follows_assignment (u t : Z) :
  RolePermissions.can_deactivate_role u t
  = RolePermissions.can_assign_tasks_to u t.
Proof.
  unfold RolePermissions.can_assign_tasks_to,
    RolePermissions.can_deactivate_role, RolePermissions.MANAGER,
    RolePermissions.ASST_MANAGER, RolePermissions.GENERAL_EMPLOYEE.
  destruct (Z.eqb_spec u 1) as [->|H1]; [|reflexivity].
  destruct (Z.ltb_spec 1 t), (Z.leb_spec 2 t); try reflexivity; lia.
Qed.

(** X4. Every level may view the reports of its own level, and whoever may
    assign tasks to a level may view the reports of that level. *)
Theorem report_visibility (u t : Z) :
  RolePermissions.can_view_reports_of u u = true
  /\ implb (RolePermissions.can_assign_tasks_to u t)
       (RolePermissions.can_view_reports_of u t) = true.
Proof.
  unfold RolePermissions.can_assign_tasks_to,
    RolePermissions.can_view_reports_of, RolePermissions.MANAGER,
    RolePermissions.ASST_MANAGER, RolePermissions.GENERAL_EMPLOYEE.
  split.
  - destruct (Z.eqb_spec u 1); [reflexivity|].
    destruct (Z.eqb_spec u 2) as [->|]; [reflexivity|apply Z.eqb_refl].
  - destruct (Z.eqb_spec u 1); [now destruct (2 <=? t)|].
    destruct (Z.eqb_spec u 2); [|reflexivity].
    destruct (Z.eqb_spec t 3) as [->|]; reflexivity.
Qed.

(** ** All paths of [mark_task_completed] *)

(** The result and the database after a call, path by path. *)
Lemma mark_task_completed_paths (db : DB) (now : timestamp)
    (task_id employee_id : Z) :
  TaskModel.mark_task_completed now task_id employee_id db
  = match task_row db task_id with
    | None => (false, db)
    | Some t =>
        if tasks.is_completed t then (true, db)
        else if Py.truthy (tasks.branch_id t) then
          let db1 := after_assignment_update now task_id employee_id db in
          if is_manager db employee_id then
            (true, snd (TaskModel.complete_task now task_id employee_id db1))
          else
            match pending db1 task_id with
            | [] =>
                (true,
                 snd (TaskModel.complete_task now task_id employee_id db1))
            | _ :: _ => (false, db1)
            end
        else if Py.eq_int (tasks.employee_id t) employee_id then
          (true, snd (TaskModel.complete_task now task_id employee_id db))
        else (false, db)
    end.
Proof.
  destruct (task_row db task_id) as [t|] eqn:Ht.
  - destruct (tasks.is_completed t) eqn:Hdone.
    + unfold TaskModel.mark_task_completed, bind, query.
      unfold task_row in Ht. now rewrite Ht, Hdone.
    + destruct (Py.truthy (tasks.branch_id t)) eqn:Hbranch.
      * destruct (is_manager db employee_id) eqn:Hm.
        -- unfold is_manager in Hm.
           destruct (employee_role_level db employee_id) as [l|] eqn:Hl;
             [|discriminate].
           apply Z.leb_le in Hm.
           now rewrite (mark_by_manager db now task_id employee_id t l).
        -- now rewrite (mark_by_employee db now task_id employee_id t).
      * unfold TaskModel.mark_task_completed, bind, query.
        unfold task_row in Ht. rewrite Ht, Hdone, Hbranch.
        now destruct (Py.eq_int (tasks.employee_id t) employee_id).
  - unfold TaskModel.mark_task_completed, bind, query.
    unfold task_row in Ht. now rewrite Ht.
Qed.

(** The databases a call can leave: the task table is the old one or the
    old one with the rows of the task completed; the assignment table is
    the old one or the old one with the actor's rows marked. *)
Lemma mark_task_completed_writes (db : DB) (now : timestamp)
    (task_id employee_id : Z) :
  let db' := snd (TaskModel.mark_task_completed now task_id employee_id db) in
  (tasks db' = tasks db
   \/ tasks db'
      = Sql.update (fun t => tasks.id t =? task_id)
          (TaskModel.set_completed now employee_id) (tasks db))
  /\ (task_assignments db' = task_assignments db
      \/ task_assignments db'
         = Sql.update (TaskModel.assignment_of task_id employee_id)
             (TaskModel.set_assignment_completed now) (task_assignments db))
  /\ companies db' = companies db
  /\ branches db' = branches db
  /\ employee_roles db' = employee_roles db
  /\ employees db' = employees db
  /\ employees_id_seq db' = employees_id_seq db
  /\ tasks_id_seq db' = tasks_id_seq db
  /\ task_assignments_id_seq db' = task_assignments_id_seq db.
Proof.
  cbv zeta. rewrite mark_task_completed_paths.
  destruct (task_row db task_id) as [t|]; [|cbn; tauto].
  destruct (tasks.is_completed t); [cbn; tauto|].
  destruct (Py.truthy (tasks.branch_id t)).
  - cbv zeta. destruct (is_manager db employee_id); [cbn; tauto|].
    destruct (pending _ _); cbn; tauto.
  - destruct (Py.eq_int (tasks.employee_id t) employee_id); cbn; tauto.
Qed.

Lemma select_update_other {R : Type} (p q : R -> bool) (f : R -> R)
    (l : list R) :
  (forall r, q (f r) = q r) ->
  (forall r, p r = true -> q r = false) ->
  Sql.select q (Sql.update p f l) = Sql.select q l.
Proof.
  intros Hkey Hdis. unfold Sql.select, Sql.update.
  induction l as [|r l IH]; simpl; [reflexivity|].
  rewrite IH. destruct (p r) eqn:Hr; [|reflexivity].
  now rewrite Hkey, (Hdis r Hr).
Qed.

(** X5. The result of [mark_task_completed], on every path: for a task that
    does not exist it is false and nothing is written; for a task that
    exists it is the completion flag of the task row after the call. *)
Theorem mark_task_completed_returns_flag (db : DB) (now : timestamp)
    (task_id employee_id : Z) :
  let out := TaskModel.mark_task_completed now task_id employee_id db in
  match task_row db task_id with
  | None => out = (false, db)
  | Some _ =>
      option_map tasks.is_completed (task_row (snd out) task_id)
      = Some (fst out)
  end.
Proof.
  cbv zeta. rewrite mark_task_completed_paths.
  destruct (task_row db task_id) as [t|] eqn:Ht; [|reflexivity].
  assert (Hdone : forall db1,
            task_row db1 task_id = Some t ->
            option_map tasks.is_completed
              (task_row
                 (snd (TaskModel.complete_task now task_id employee_id db1))
                 task_id)
            = Some true).
  { intros db1 H1.
    now rewrite (task_row_completed db1 now task_id employee_id t H1). }
  destruct (tasks.is_completed t) eqn:Hflag.
  - cbn [fst snd]. now rewrite Ht; cbn; rewrite Hflag.
  - destruct (Py.truthy (tasks.branch_id t)).
    + cbv zeta.
      assert (H1 : task_row (after_assignment_update now task_id
                               employee_id db) task_id = Some t)
        by exact Ht.
      destruct (is_manager db employee_id); [now apply Hdone|].
      destruct (pending _ _); [now apply Hdone|].
      cbn [fst snd]. now rewrite H1; cbn; rewrite Hflag.
    + destruct (Py.eq_int (tasks.employee_id t) employee_id);
        [now apply Hdone|].
      cbn [fst snd]. now rewrite Ht; cbn; rewrite Hflag.
Qed.

(** A call on one task leaves the rows of every other task alone. *)
Lemma mark_leaves_other_tasks (db : DB) (now : timestamp)
    (task_id employee_id other : Z) :
  other <> task_id ->
  let db' := snd (TaskModel.mark_task_completed now task_id employee_id db) in
  task_row db' other = task_row db other
  /\ assignments_of db' other = assignments_of db other.
Proof.
  intros Hother. cbv zeta.
  destruct (mark_task_completed_writes db now task_id employee_id)
    as (Ht & Ha & _).
  split.
  - unfold task_row, TaskModel.task_by_id.
    destruct Ht as [->| ->]; [reflexivity|].
    rewrite select_update_other; trivial.
    intros r Hr'. apply Z.eqb_eq in Hr'. apply Z.eqb_neq. congruence.
  - unfold assignments_of.
    destruct Ha as [->| ->]; [reflexivity|].
    rewrite select_update_other; trivial.
    intros r Hr'. unfold TaskModel.assignment_of in Hr'.
    apply andb_prop in Hr'. destruct Hr' as [Hr' _].
    apply eqc_true in Hr'. rewrite Hr'. cbn. apply Z.eqb_neq. congruence.
Qed.

(** X6. What [mark_task_completed] leaves alone: the row and the
    assignments of every other task, the assignments other employees hold
    for this task, the number of task and assignment rows, and the
    companies, branches, roles and employees. *)
Theorem mark_task_completed_frame (db : DB) (now : timestamp)
    (task_id employee_id : Z) :
  let db' := snd (TaskModel.mark_task_completed now task_id employee_id db) in
  (forall other, other <> task_id ->
     task_row db' other = task_row db other
     /\ assignments_of db' other = assignments_of db other)
  /\ (forall a, In a (task_assignments db) ->
        TaskModel.assignment_of task_id employee_id a = false ->
        In a (task_assignments db'))
  /\ List.length (tasks db') = List.length (tasks db)
  /\ List.length (task_assignments db') = List.length (task_assignments db)
  /\ companies db' = companies db
  /\ branches db' = branches db
  /\ employee_roles db' = employee_roles db
  /\ employees db' = employees db.
Proof.
  cbv zeta.
  destruct (mark_task_completed_writes db now task_id employee_id)
    as (Ht & Ha & Hc & Hb & Hr & He & _).
  repeat apply conj; trivial.
  - intros other Hother.
    exact (mark_leaves_other_tasks db now task_id employee_id other Hother).
  - intros a Hin Hother. destruct Ha as [->| ->]; [exact Hin|].
    now apply update_untouched.
  - destruct Ht as [->| ->]; [reflexivity|]. apply length_map.
  - destruct Ha as [->| ->]; [reflexivity|]. apply length_map.
Qed.

(** ** Completion is permanent *)

Lemma completed_row_survives (db : DB) (now : timestamp)
    (task_id employee_id u : Z) (t : tasks.row) :
  task_row db u = Some t ->
  tasks.is_completed t = true ->
  task_row (snd (TaskModel.mark_task_completed now task_id employee_id db)) u
  = Some t.
Proof.
  intros Ht Hdone. destruct (Z.eq_dec u task_id) as [->|Hne].
  - rewrite mark_task_completed_paths, Ht, Hdone. exact Ht.
  - destruct (mark_leaves_other_tasks db now task_id employee_id u Hne)
      as [-> _]. exact Ht.
Qed.

(** X7. Completion is permanent under [mark_task_completed]: a task row
    that is complete stays the same row through any sequence of calls, on
    any tasks by any actors. *)
Theorem completion_is_permanent (calls : list (timestamp * Z * Z)) :
  forall (db : DB) (u : Z) (t : tasks.row),
    task_row db u = Some t ->
    tasks.is_completed t = true ->
    task_row (snd (mark_all calls db)) u = Some t.
Proof.
  induction calls as [|[[now task_id] employee_id] calls IH];
    intros db u t Ht Hdone.
  - exact Ht.
  - cbn [mark_all]. unfold bind, ret.
    pose proof (completed_row_survives db now task_id employee_id u t
                  Ht Hdone) as H1.
    destruct (TaskModel.mark_task_completed now task_id employee_id db)
      as [r db1].
    cbn [snd] in H1. specialize (IH db1 u t H1 Hdone).
    destruct (mark_all calls db1) as [rs db2]. exact IH.
Qed.

(** [completion_is_permanent] at a concrete input. *)
Lemma completion_is_permanent_witness :
  task_row
    (snd (mark_all [(100, 1, 11); (101, 3, 10); (102, 1, 10)] Sample.db)) 3
  = Some (tasks.mk 3 (Some 1) None (Some 12) "File invoices" None
            true (Some 12) (Some 50)).
Proof.
  apply (completion_is_permanent [(100, 1, 11); (101, 3, 10); (102, 1, 10)]
           Sample.db 3); reflexivity.
Defined.

(** ** Reopening *)

Lemma update_update_back {R : Type} (p : R -> bool) (f g : R -> R)
    (l : list R) :
  (forall r, p (f r) = p r) ->
  (forall r, In r l -> p r = true -> g (f r) = r) ->
  Sql.update p g (Sql.update p f l) = l.
Proof.
  intros Hkey Hback. unfold Sql.update.
  induction l as [|r l IH]; simpl; [reflexivity|].
  rewrite IH by (intros; apply Hback; simpl; auto).
  destruct (p r) eqn:Hr.
  - rewrite Hkey, Hr. now rewrite Hback by (simpl; auto).
  - now rewrite Hr.
Qed.

Lemma update_weaker_back {R : Type} (p q : R -> bool) (f g : R -> R)
    (l : list R) :
  (forall r, q (f r) = q r) ->
  (forall r, p r = true -> q r = true) ->
  (forall r, In r l -> q r = true -> g (f r) = r /\ g r = r) ->
  Sql.update q g (Sql.update p f l) = l.
Proof.
  intros Hkey Hpq Hback. unfold Sql.update.
  induction l as [|r l IH]; simpl; [reflexivity|].
  rewrite IH by (intros; apply Hback; simpl; auto).
  destruct (p r) eqn:Hp.
  - rewrite Hkey, (Hpq r Hp).
    now rewrite (proj1 (Hback r (or_introl eq_refl) (Hpq r Hp))).
  - destruct (q r) eqn:Hq; [|reflexivity].
    now rewrite (proj2 (Hback r (or_introl eq_refl) Hq)).
Qed.

Lemma update_fixed {R : Type} (p : R -> bool) (g : R -> R) (l : list R) :
  (forall r, In r l -> p r = true -> g r = r) ->
  Sql.update p g l = l.
Proof.
  intros Hfix. unfold Sql.update.
  induction l as [|r l IH]; simpl; [reflexivity|].
  rewrite IH by (intros; apply Hfix; simpl; auto).
  destruct (p r) eqn:Hr; [|reflexivity].
  now rewrite Hfix by (simpl; auto).
Qed.

(** X8. [reopen_task] undoes [mark_task_completed]: on a task whose row
    and assignments are in the reset state (incomplete, no completer, no
    completion time), a call by any actor followed by [reopen_task] gives
    back the database as it was. *)
Theorem reopen_undoes_mark (db : DB) (now : timestamp)
    (task_id employee_id : Z) :
  (forall t, In t (tasks db) -> tasks.id t = task_id ->
     tasks.is_completed t = false
     /\ tasks.completed_by_id t = None
     /\ tasks.completed_at t = None) ->
  (forall a, In a (task_assignments db) ->
     task_assignments.task_id a = Some task_id ->
     task_assignments.is_completed a = false
     /\ task_assignments.completed_at a = None) ->
  snd (TaskModel.reopen_task task_id
         (snd (TaskModel.mark_task_completed now task_id employee_id db)))
  = db.
Proof.
  intros Htasks Hasg.
  destruct (mark_task_completed_writes db now task_id employee_id)
    as (Ht & Ha & Hc & Hb & Hr & He & Hs1 & Hs2 & Hs3).
  set (db' := snd (TaskModel.mark_task_completed now task_id employee_id db))
    in *.
  unfold TaskModel.reopen_task, bind, execute, with_tasks,
    with_task_assignments.
  cbn [snd companies branches employee_roles employees tasks
         task_assignments employees_id_seq tasks_id_seq
         task_assignments_id_seq].
  rewrite Hc, Hb, Hr, He, Hs1, Hs2, Hs3.
  assert (Ht' : Sql.update (fun t => tasks.id t =? task_id)
                  TaskModel.set_reopened (tasks db') = tasks db).
  { destruct Ht as [->| ->].
    - apply update_fixed. intros t Hin Hid. apply Z.eqb_eq in Hid.
      destruct (Htasks t Hin Hid) as (H1 & H2 & H3).
      destruct t; cbn in *. now subst.
    - apply update_update_back; [reflexivity|].
      intros t Hin Hid. apply Z.eqb_eq in Hid.
      destruct (Htasks t Hin Hid) as (H1 & H2 & H3).
      destruct t; cbn in *. now subst. }
  assert (Ha' : Sql.update
                  (fun a => Sql.eqc (task_assignments.task_id a) task_id)
                  TaskModel.set_assignment_reopened (task_assignments db')
                = task_assignments db).
  { destruct Ha as [->| ->].
    - apply update_fixed. intros a Hin Hid. apply eqc_true in Hid.
      destruct (Hasg a Hin Hid) as (H1 & H2).
      destruct a; cbn in *. now subst.
    - apply update_weaker_back; [reflexivity| |].
      + intros a Hp. unfold TaskModel.assignment_of in Hp.
        now apply andb_prop in Hp.
      + intros a Hin Hid. apply eqc_true in Hid.
        destruct (Hasg a Hin Hid) as (H1 & H2).
        destruct a; cbn in *. now subst. }
  rewrite Ht', Ha'. now destruct db.
Qed.

(** [reopen_undoes_mark] at a concrete input. *)
Lemma reopen_undoes_mark_witness :
  snd (TaskModel.reopen_task 1
         (snd (TaskModel.mark_task_completed 100 1 10 Sample.db)))
  = Sample.db.
Proof.
  apply (reopen_undoes_mark Sample.db 100 1 10).
  - intros t [<-|[<-|[<-|[]]]]; cbn; intros H;
      try discriminate H; repeat split.
  - intros a [<-|[<-|[<-|[]]]]; cbn; intros _; split; reflexivity.
Defined.

(** X9. After [reopen_task] every assignee of the task is pending again,
    those who had completed included, and reopening a second time changes
    nothing. *)
Theorem reopen_makes_all_pending (db : DB) (task_id : Z) :
  let db' := snd (TaskModel.reopen_task task_id db) in
  pending db' task_id
  = map task_assignments.employee_id (assignments_of db task_id)
  /\ snd (TaskModel.reopen_task task_id db') = db'.
Proof.
  cbv zeta. unfold TaskModel.reopen_task, bind, execute, with_tasks,
    with_task_assignments.
  cbn [snd companies branches employee_roles employees tasks
         task_assignments employees_id_seq tasks_id_seq
         task_assignments_id_seq].
  split.
  - unfold pending, assignments_of, Sql.select, Sql.update.
    cbn [task_assignments].
    induction (task_assignments db) as [|a l IH]; [reflexivity|].
    cbn [map filter]. unfold TaskModel.incomplete_of in *.
    destruct (Sql.eqc (task_assignments.task_id a) task_id) eqn:Ha.
    + cbn. rewrite Ha. cbn. now rewrite IH.
    + rewrite Ha. cbn. exact IH.
  - f_equal.
    + unfold Sql.update. rewrite map_map. apply map_ext. intros t.
      destruct (tasks.id t =? task_id) eqn:Ht.
      * cbn. now rewrite Ht.
      * now rewrite Ht.
    + unfold Sql.update. rewrite map_map. apply map_ext. intros a.
      destruct (Sql.eqc (task_assignments.task_id a) task_id) eqn:Ha.
      * cbn. now rewrite Ha.
      * now rewrite Ha.
Qed.

(** ** Deleting a task *)

Lemma select_delete_same {R : Type} (p : R -> bool) (l : list R) :
  Sql.select p (Sql.delete p l) = [].
Proof.
  unfold Sql.select, Sql.delete. apply filter_nothing.
  intros r Hin. apply filter_In in Hin. destruct Hin as [_ Hr].
  now apply negb_true_iff in Hr.
Qed.

Lemma select_delete_other {R : Type} (p q : R -> bool) (l : list R) :
  (forall r, p r = true -> q r = false) ->
  Sql.select q (Sql.delete p l) = Sql.select q l.
Proof.
  intros Hdis. unfold Sql.select, Sql.delete.
  induction l as [|r l IH]; simpl; [reflexivity|].
  destruct (p r) eqn:Hr; simpl.
  - now rewrite (Hdis r Hr).
  - now rewrite IH.
Qed.

(** X10. [delete_task] removes the task row and the assignment rows of the
    task and leaves every other task as it was; afterwards
    [mark_task_completed] on the task returns false without a write and
    [get_branch_task_progress] returns [None]. *)
Theorem delete_task_removes (db : DB) (task_id : Z) :
  let db' := snd (TaskModel.delete_task task_id db) in
  task_row db' task_id = None
  /\ assignments_of db' task_id = []
  /\ (forall other, other <> task_id ->
        task_row db' other = task_row db other
        /\ assignments_of db' other = assignments_of db other)
  /\ (forall now employee_id,
        TaskModel.mark_task_completed now task_id employee_id db'
        = (false, db'))
  /\ (forall name_leb,
        TaskModel.get_branch_task_progress name_leb task_id db'
        = (None, db')).
Proof.
  cbv zeta.
  assert (Hrow : task_row (snd (TaskModel.delete_task task_id db)) task_id
                 = None).
  { unfold task_row, TaskModel.task_by_id, TaskModel.delete_task.
    statements. now rewrite select_delete_same. }
  repeat apply conj.
  - exact Hrow.
  - unfold assignments_of, TaskModel.delete_task. statements.
    apply select_delete_same.
  - intros other Hother. split.
    + unfold task_row, TaskModel.task_by_id, TaskModel.delete_task.
      statements.
      rewrite select_delete_other; [reflexivity|].
      intros r Hr. apply Z.eqb_eq in Hr. apply Z.eqb_neq. congruence.
    + unfold assignments_of, TaskModel.delete_task. statements.
      rewrite select_delete_other; [reflexivity|].
      intros r Hr. apply eqc_true in Hr. rewrite Hr. cbn.
      apply Z.eqb_neq. congruence.
  - intros now employee_id.
    now rewrite mark_task_completed_paths, Hrow.
  - intros name_leb. unfold TaskModel.get_branch_task_progress, bind, query.
    unfold task_row in Hrow.
    destruct (TaskModel.task_by_id task_id
                (snd (TaskModel.delete_task task_id db))) as [|t l];
      [reflexivity|discriminate].
Qed.

(** ** The status update of the views *)

(** X11. [update_task_status], the [UPDATE] behind the views' buttons, writes
    the flag only: completer and completion time of the row stay as they
    were and no assignment row is written.  Once it has set the flag,
    [mark_task_completed] returns true for everybody and writes nothing. *)
Theorem update_task_status_sets_flag_only (db : DB) (task_id : Z)
    (t : tasks.row) (is_completed : bool) :
  task_row db task_id = Some t ->
  let db1 := snd (TaskModel.update_task_status task_id is_completed db) in
  task_row db1 task_id
  = Some (tasks.mk (tasks.id t) (tasks.company_id t) (tasks.branch_id t)
            (tasks.employee_id t) (tasks.task_description t)
            (tasks.due_date t) is_completed (tasks.completed_by_id t)
            (tasks.completed_at t))
  /\ task_assignments db1 = task_assignments db
  /\ (is_completed = true ->
      forall now employee_id,
        TaskModel.mark_task_completed now task_id employee_id db1
        = (true, db1)).
Proof.
  intros Ht. cbv zeta.
  assert (Hrow :
    task_row (snd (TaskModel.update_task_status task_id is_completed db))
      task_id
    = Some (tasks.mk (tasks.id t) (tasks.company_id t) (tasks.branch_id t)
              (tasks.employee_id t) (tasks.task_description t)
              (tasks.due_date t) is_completed (tasks.completed_by_id t)
              (tasks.completed_at t))).
  { unfold task_row, TaskModel.task_by_id, TaskModel.update_task_status
      in *.
    statements. rewrite select_update_same by reflexivity.
    now rewrite fetchone_map, Ht. }
  split; [exact Hrow|]. split; [reflexivity|].
  intros -> now employee_id.
  now rewrite mark_task_completed_paths, Hrow.
Qed.

(** [update_task_status_sets_flag_only] at a concrete input. *)
Lemma update_task_status_sets_flag_only_witness :
  let db1 := snd (TaskModel.update_task_status 1 true Sample.db) in
  task_row db1 1
  = Some (tasks.mk 1 (Some 1) (Some 1) None "Stocktake" None true None None)
  /\ task_assignments db1 = task_assignments Sample.db
  /\ (true = true ->
      forall now employee_id,
        TaskModel.mark_task_completed now 1 employee_id db1 = (true, db1)).
Proof.
  apply (update_task_status_sets_flag_only Sample.db 1
           (tasks.mk 1 (Some 1) (Some 1) None "Stocktake" None
              false None None) true).
  reflexivity.
Defined.

(** ** The constraints are kept *)

Lemma forallb_over_map {A B : Type} (f : A -> B) (p : B -> bool)
    (l : list A) :
  forallb p (map f l) = forallb (fun x => p (f x)) l.
Proof. induction l as [|x l IH]; simpl; [reflexivity|now rewrite IH]. Qed.

Lemma existsb_over_map {A B : Type} (f : A -> B) (p : B -> bool)
    (l : list A) :
  existsb p (map f l) = existsb (fun x => p (f x)) l.
Proof. induction l as [|x l IH]; simpl; [reflexivity|now rewrite IH]. Qed.

Lemma forallb_same {A : Type} (p q : A -> bool) (l : list A) :
  (forall x, p x = q x) -> forallb p l = forallb q l.
Proof.
  intros H. induction l as [|x l IH]; simpl; [reflexivity|].
  now rewrite H, IH.
Qed.

(** [consistent] reads the key columns only. *)
Lemma consistent_by_keys (db : DB) :
  consistent db
  = (forallb (fun i => i <? tasks_id_seq db) (map tasks.id (tasks db))
     && forallb (fun i => i <? employees_id_seq db)
          (map employees.id (employees db))
     && forallb
          (fun k =>
             match k with
             | Some i => existsb (fun j => j =? i) (map tasks.id (tasks db))
             | None => true
             end)
          (map task_assignments.task_id (task_assignments db))).
Proof.
  unfold consistent, serials_ahead, assignments_reference_tasks.
  rewrite !forallb_over_map. f_equal.
  apply forallb_same. intros a.
  destruct (task_assignments.task_id a); [|reflexivity].
  now rewrite existsb_over_map.
Qed.

Lemma consistent_same_keys (db db' : DB) :
  map tasks.id (tasks db') = map tasks.id (tasks db) ->
  map employees.id (employees db') = map employees.id (employees db) ->
  map task_assignments.task_id (task_assignments db')
  = map task_assignments.task_id (task_assignments db) ->
  tasks_id_seq db' = tasks_id_seq db ->
  employees_id_seq db' = employees_id_seq db ->
  consistent db' = consistent db.
Proof.
  intros H1 H2 H3 H4 H5. rewrite !consistent_by_keys.
  now rewrite H1, H2, H3, H4, H5.
Qed.

Lemma update_keeps_column {R K : Type} (key : R -> K) (p : R -> bool)
    (f : R -> R) (l : list R) :
  (forall r, key (f r) = key r) ->
  map key (Sql.update p f l) = map key l.
Proof.
  intros Hkey. unfold Sql.update. rewrite map_map. apply map_ext.
  intros r. now destruct (p r).
Qed.

(** The tables after [create_task], whatever the target. *)
Lemma create_task_tables (db : DB) (company_id : Z) (description : string)
    (due_date : option Datetime.date) (branch_id employee_id : option Z) :
  TaskModel.create_task company_id description due_date branch_id employee_id
    db
  = (tasks_id_seq db,
     mkDB (companies db) (branches db) (employee_roles db) (employees db)
       (tasks db
        ++ [tasks.mk (tasks_id_seq db) (Some company_id) branch_id
              employee_id description due_date false None None])
       (task_assignments db
        ++ match branch_id with
           | Some b =>
               if Py.truthy branch_id && negb (Py.truthy employee_id)
               then fanned_out (task_assignments_id_seq db) (tasks_id_seq db)
                      (TaskModel.active_employees_of_branch b db)
               else []
           | None => []
           end)
       (employees_id_seq db) (tasks_id_seq db + 1)
       (task_assignments_id_seq db
        + match branch_id with
          | Some b =>
              if Py.truthy branch_id && negb (Py.truthy employee_id)
              then Z.of_nat
                     (List.length
                        (TaskModel.active_employees_of_branch b db))
              else 0
          | None => 0
          end)).
Proof.
  unfold TaskModel.create_task.
  destruct branch_id as [b|].
  - destruct (Py.truthy (Some b) && negb (Py.truthy employee_id)).
    + unfold bind at 1. unfold nextval_tasks.
      unfold bind at 1. unfold execute at 1.
      unfold bind at 1. unfold bind at 1. unfold query.
      rewrite fan_out_loop. reflexivity.
    + unfold bind, nextval_tasks, execute, ret, with_tasks, Sql.insert.
      cbn [companies branches employee_roles employees tasks
           task_assignments employees_id_seq tasks_id_seq
           task_assignments_id_seq].
      now rewrite app_nil_r, Z.add_0_r.
  - cbn [Py.truthy andb].
    unfold bind, nextval_tasks, execute, ret, with_tasks, Sql.insert.
    cbn [companies branches employee_roles employees tasks
         task_assignments employees_id_seq tasks_id_seq
         task_assignments_id_seq].
    now rewrite app_nil_r, Z.add_0_r.
Qed.

Lemma consistent_parts (db : DB) :
  consistent db = true ->
  (forall t, In t (tasks db) -> tasks.id t < tasks_id_seq db)
  /\ (forall e, In e (employees db) -> employees.id e < employees_id_seq db)
  /\ (forall a i, In a (task_assignments db) ->
        task_assignments.task_id a = Some i ->
        exists t, In t (tasks db) /\ tasks.id t = i).
Proof.
  unfold consistent, serials_ahead, assignments_reference_tasks.
  intros H. apply andb_prop in H. destruct H as [H Hfk].
  apply andb_prop in H. destruct H as [Hids Hemp].
  rewrite forallb_forall in Hids, Hemp, Hfk.
  repeat apply conj.
  - intros t Hin. now apply Z.ltb_lt, Hids.
  - intros e Hin. now apply Z.ltb_lt, Hemp.
  - intros a i Hin Hi. specialize (Hfk a Hin). rewrite Hi in Hfk.
    apply existsb_exists in Hfk. destruct Hfk as (t & Ht & Heq).
    apply Z.eqb_eq in Heq. eauto.
Qed.

Lemma consistent_intro (db : DB) :
  (forall t, In t (tasks db) -> tasks.id t < tasks_id_seq db) ->
  (forall e, In e (employees db) -> employees.id e < employees_id_seq db) ->
  (forall a i, In a (task_assignments db) ->
     task_assignments.task_id a = Some i ->
     exists t, In t (tasks db) /\ tasks.id t = i) ->
  consistent db = true.
Proof.
  intros Hids Hemp Hfk.
  unfold consistent, serials_ahead, assignments_reference_tasks.
  repeat (apply andb_true_intro; split); apply forallb_forall.
  - intros t Hin. now apply Z.ltb_lt, Hids.
  - intros e Hin. now apply Z.ltb_lt, Hemp.
  - intros a Hin. destruct (task_assignments.task_id a) as [i|] eqn:Hi;
      [|reflexivity].
    destruct (Hfk a i Hin Hi) as (t & Ht & <-).
    apply existsb_exists. exists t. split; [exact Ht|apply Z.eqb_refl].
Qed.

Lemma create_task_consistent (db : DB) (company_id : Z)
    (description : string) (due_date : option Datetime.date)
    (branch_id employee_id : option Z) :
  consistent db = true ->
  consistent
    (snd (TaskModel.create_task company_id description due_date branch_id
            employee_id db)) = true.
Proof.
  intros Hok. destruct (consistent_parts db Hok) as (Hids & Hemp & Hfk).
  rewrite create_task_tables. apply consistent_intro;
    cbn [snd tasks employees task_assignments tasks_id_seq employees_id_seq].
  - intros t Hin. apply in_app_or in Hin.
    destruct Hin as [Hin|[<-|[]]]; [apply Hids in Hin; lia|cbn; lia].
  - exact Hemp.
  - intros a i Hin Hi. apply in_app_or in Hin. destruct Hin as [Hin|Hin].
    + destruct (Hfk a i Hin Hi) as (t & Ht & <-).
      exists t. split; [apply in_or_app; now left|reflexivity].
    + eexists. split; [apply in_or_app; right; left; reflexivity|].
      cbn [tasks.id].
      destruct branch_id as [b|]; [|destruct Hin].
      destruct (Py.truthy (Some b) && negb (Py.truthy employee_id));
        [|destruct Hin].
      apply fanned_out_rows in Hin. destruct Hin as [Hin _]. congruence.
Qed.

Lemma mark_task_completed_consistent (db : DB) (now : timestamp)
    (task_id employee_id : Z) :
  consistent
    (snd (TaskModel.mark_task_completed now task_id employee_id db))
  = consistent db.
Proof.
  destruct (mark_task_completed_writes db now task_id employee_id)
    as (Ht & Ha & _ & _ & _ & He & Hs1 & Hs2 & _).
  apply consistent_same_keys; trivial.
  - destruct Ht as [->| ->]; [reflexivity|].
    now apply update_keeps_column.
  - now rewrite He.
  - destruct Ha as [->| ->]; [reflexivity|].
    now apply update_keeps_column.
Qed.

Lemma delete_task_consistent (db : DB) (task_id : Z) :
  consistent db = true ->
  consistent (snd (TaskModel.delete_task task_id db)) = true.
Proof.
  intros Hok. destruct (consistent_parts db Hok) as (Hids & Hemp & Hfk).
  unfold TaskModel.delete_task. statements.
  apply consistent_intro;
    cbn [tasks employees task_assignments tasks_id_seq employees_id_seq];
    unfold Sql.delete.
  - intros t Hin. apply filter_In in Hin. now apply Hids.
  - exact Hemp.
  - intros a i Hin Hi. apply filter_In in Hin. destruct Hin as [Hin Hkeep].
    destruct (Hfk a i Hin Hi) as (t & Ht & <-).
    exists t. split; [|reflexivity]. apply filter_In. split; [exact Ht|].
    rewrite Hi in Hkeep. exact Hkeep.
Qed.

(** X12. The writes of the models keep the constraints: in a database where
    the sequences are ahead of the keys and the assignments reference
    existing tasks, the same holds after [create_task] (whatever the
    target), [add_task], [mark_task_completed], [reopen_task],
    [delete_task], [update_task_status], [add_employee], the employee
    updates, [delete_role] and the two status cascades. *)
Theorem writes_keep_consistent (db : DB) :
  consistent db = true ->
  (forall c d due b e,
     consistent (snd (TaskModel.create_task c d due b e db)) = true)
  /\ (forall e d due, consistent (snd (TaskModel.add_task e d due db)) = true)
  /\ (forall now t e,
        consistent (snd (TaskModel.mark_task_completed now t e db)) = true)
  /\ (forall t, consistent (snd (TaskModel.reopen_task t db)) = true)
  /\ (forall t, consistent (snd (TaskModel.delete_task t db)) = true)
  /\ (forall t v,
        consistent (snd (TaskModel.update_task_status t v db)) = true)
  /\ (forall b r u p n pic,
        consistent (snd (EmployeeModel.add_employee b r u p n pic db)) = true)
  /\ (forall e v,
        consistent (snd (EmployeeModel.update_employee_status e v db)) = true)
  /\ (forall e r,
        consistent (snd (EmployeeModel.update_employee_role e r db)) = true)
  /\ (forall e b,
        consistent (snd (EmployeeModel.update_employee_branch e b db))
        = true)
  /\ (forall r r',
        consistent (snd (RoleModel.delete_role r r' db)) = true)
  /\ (forall c v,
        consistent (snd (CompanyModel.update_company_status c v db)) = true)
  /\ (forall b v,
        consistent (snd (BranchModel.update_branch_status b v db)) = true).
Proof.
  intros Hok.
  assert (Hupd : forall db', 
            map tasks.id (tasks db') = map tasks.id (tasks db) ->
            map employees.id (employees db')
            = map employees.id (employees db) ->
            map task_assignments.task_id (task_assignments db')
            = map task_assignments.task_id (task_assignments db) ->
            tasks_id_seq db' = tasks_id_seq db ->
            employees_id_seq db' = employees_id_seq db ->
            consistent db' = true).
  { intros db' H1 H2 H3 H4 H5. rewrite <- Hok.
    now apply consistent_same_keys. }
  destruct (consistent_parts db Hok) as (Hids & Hemp & Hfk).
  repeat apply conj.
  - intros. now apply create_task_consistent.
  - intros e d due. unfold TaskModel.add_task, nextval_tasks. statements.
    apply consistent_intro;
      cbn [tasks employees task_assignments tasks_id_seq employees_id_seq];
      unfold Sql.insert.
    + intros t Hin. apply in_app_or in Hin.
      destruct Hin as [Hin|[<-|[]]]; [apply Hids in Hin; lia|cbn; lia].
    + exact Hemp.
    + intros a i Hin Hi. destruct (Hfk a i Hin Hi) as (t & Ht & <-).
      exists t. split; [apply in_or_app; now left|reflexivity].
  - intros. now rewrite mark_task_completed_consistent.
  - intros t. apply Hupd; unfold TaskModel.reopen_task; statements;
      try reflexivity; now apply update_keeps_column.
  - intros. now apply delete_task_consistent.
  - intros t v. apply Hupd; unfold TaskModel.update_task_status; statements;
      try reflexivity; now apply update_keeps_column.
  - intros b r u p n pic.
    unfold EmployeeModel.add_employee, nextval_employees. statements.
    apply consistent_intro;
      cbn [tasks employees task_assignments tasks_id_seq employees_id_seq];
      unfold Sql.insert.
    + exact Hids.
    + intros e Hin. apply in_app_or in Hin.
      destruct Hin as [Hin|[<-|[]]]; [apply Hemp in Hin; lia|cbn; lia].
    + exact Hfk.
  - intros e v. apply Hupd; unfold EmployeeModel.update_employee_status;
      statements; try reflexivity; now apply update_keeps_column.
  - intros e r. apply Hupd; unfold EmployeeModel.update_employee_role;
      statements; try reflexivity; now apply update_keeps_column.
  - intros e b. apply Hupd; unfold EmployeeModel.update_employee_branch;
      statements; try reflexivity; now apply update_keeps_column.
  - intros r r'. apply Hupd; unfold RoleModel.delete_role;
      statements; try reflexivity; now apply update_keeps_column.
  - intros c v. apply Hupd; unfold CompanyModel.update_company_status;
      statements; try reflexivity; now apply update_keeps_column.
  - intros b v. apply Hupd; unfold BranchModel.update_branch_status;
      statements; try reflexivity; now apply update_keeps_column.
Qed.

(** X12 at the sample database. *)
Lemma writes_keep_consistent_witness :
  (forall c d due b e,
     consistent (snd (TaskModel.create_task c d due b e Sample.db)) = true)
  /\ (forall e d due,
        consistent (snd (TaskModel.add_task e d due Sample.db)) = true)
  /\ (forall now t e,
        consistent (snd (TaskModel.mark_task_completed now t e Sample.db))
        = true)
  /\ (forall t, consistent (snd (TaskModel.reopen_task t Sample.db)) = true)
  /\ (forall t, consistent (snd (TaskModel.delete_task t Sample.db)) = true)
  /\ (forall t v,
        consistent (snd (TaskModel.update_task_status t v Sample.db)) = true)
  /\ (forall b r u p n pic,
        consistent (snd (EmployeeModel.add_employee b r u p n pic Sample.db))
        = true)
  /\ (forall e v,
        consistent (snd (EmployeeModel.update_employee_status e v Sample.db))
        = true)
  /\ (forall e r,
        consistent (snd (EmployeeModel.update_employee_role e r Sample.db))
        = true)
  /\ (forall e b,
        consistent (snd (EmployeeModel.update_employee_branch e b Sample.db))
        = true)
  /\ (forall r r',
        consistent (snd (RoleModel.delete_role r r' Sample.db)) = true)
  /\ (forall c v,
        consistent (snd (CompanyModel.update_company_status c v Sample.db))
        = true)
  /\ (forall b v,
        consistent (snd (BranchModel.update_branch_status b v Sample.db))
        = true).
Proof.
  apply (writes_keep_consistent Sample.db). reflexivity.
Defined.

(** ** Direct tasks from creation to completion *)

(** A direct task appended under a fresh key: only its employee completes
    it. *)
Lemma fresh_direct_task (db db1 : DB) (t : tasks.row) (employee_id : Z) :
  consistent db = true ->
  tasks db1 = tasks db ++ [t] ->
  tasks.id t = tasks_id_seq db ->
  tasks.is_completed t = false ->
  Py.truthy (tasks.branch_id t) = false ->
  tasks.employee_id t = Some employee_id ->
  task_row db1 (tasks_id_seq db) = Some t
  /\ (forall now,
        let out :=
          TaskModel.mark_task_completed now (tasks_id_seq db) employee_id
            db1 in
        fst out = true
        /\ task_row (snd out) (tasks_id_seq db)
           = Some (TaskModel.set_completed now employee_id t))
  /\ (forall now other,
        other <> employee_id ->
        TaskModel.mark_task_completed now (tasks_id_seq db) other db1
        = (false, db1)).
Proof.
  intros Hok Htasks Hid Hopen Hbranch Hemp.
  destruct (fresh_task_key db Hok) as [Hfresh _].
  assert (Hrow : task_row db1 (tasks_id_seq db) = Some t).
  { unfold task_row, TaskModel.task_by_id, Sql.select in *.
    rewrite Htasks, filter_app, Hfresh. cbn. now rewrite Hid, Z.eqb_refl. }
  split; [exact Hrow|]. split.
  - intros now. cbv zeta.
    rewrite mark_task_completed_paths, Hrow, Hopen, Hbranch, Hemp.
    cbn [Py.eq_int]. rewrite Z.eqb_refl. cbn [fst snd].
    split; [reflexivity|].
    now apply (task_row_completed db1 now (tasks_id_seq db) employee_id t).
  - intros now other Hother.
    rewrite mark_task_completed_paths, Hrow, Hopen, Hbranch, Hemp.
    cbn [Py.eq_int].
    replace (employee_id =? other) with false
      by (symmetry; apply Z.eqb_neq; congruence).
    reflexivity.
Qed.

(** X13. [create_task] for a company that exists, with an employee that
    exists as target, inserts no assignment row, whatever branch (none, or
    one that exists) it is given.  The direct task it creates for the
    employee is open; a call of [mark_task_completed] by that employee
    completes it in the employee's name, a call by anybody else returns
    false and writes nothing.  The company, the branch and the employee
    exist as the [REFERENCES] of [tasks] ask: otherwise the [INSERT]
    raises. *)
Theorem create_direct_task_then_complete (db : DB) (company_id : Z)
    (description : string) (due_date : option Datetime.date)
    (employee_id : Z) :
  consistent db = true ->
  has_company db company_id = true ->
  has_employee db employee_id = true ->
  employee_id <> 0 ->
  (forall branch_id,
     nullable (has_branch db) branch_id = true ->
     task_assignments
       (snd (TaskModel.create_task company_id description due_date branch_id
               (Some employee_id) db))
     = task_assignments db)
  /\ (let created :=
        TaskModel.create_task company_id description due_date None
          (Some employee_id) db in
      task_row (snd created) (fst created)
      = Some (tasks.mk (fst created) (Some company_id) None
                (Some employee_id) description due_date false None None)
      /\ (forall now,
            let out :=
              TaskModel.mark_task_completed now (fst created) employee_id
                (snd created) in
            fst out = true
            /\ task_row (snd out) (fst created)
               = Some (tasks.mk (fst created) (Some company_id) None
                         (Some employee_id) description due_date true
                         (Some employee_id) (Some now)))
      /\ (forall now other,
            other <> employee_id ->
            TaskModel.mark_task_completed now (fst created) other
              (snd created)
            = (false, snd created))).
Proof.
  intros Hok _ _ He. split.
  - intros branch_id _.
    rewrite create_task_tables. cbn [snd task_assignments].
    assert (Hnot : negb (Py.truthy (Some employee_id)) = false)
      by (cbn; apply negb_false_iff, negb_true_iff, Z.eqb_neq, He).
    rewrite Hnot, andb_false_r.
    destruct branch_id; apply app_nil_r.
  - cbv zeta. rewrite create_task_tables. cbn [fst snd].
    destruct (fresh_direct_task db
                (snd (TaskModel.create_task company_id description due_date
                        None (Some employee_id) db))
                (tasks.mk (tasks_id_seq db) (Some company_id) None
                   (Some employee_id) description due_date false None None)
                employee_id Hok) as (Hrow & Hown & Hother);
      try reflexivity.
    rewrite create_task_tables in Hrow, Hown, Hother.
    split; [exact Hrow|]. split; assumption.
Qed.

(** [create_direct_task_then_complete] at a concrete input. *)
Lemma create_direct_task_then_complete_witness :
  (forall branch_id,
     nullable (has_branch Sample.db) branch_id = true ->
     task_assignments
       (snd (TaskModel.create_task 1 "Order paper" None branch_id
               (Some 12) Sample.db))
     = task_assignments Sample.db)
  /\ (let created :=
        TaskModel.create_task 1 "Order paper" None None (Some 12)
          Sample.db in
      task_row (snd created) (fst created)
      = Some (tasks.mk (fst created) (Some 1) None
                (Some 12) "Order paper" None false None None)
      /\ (forall now,
            let out :=
              TaskModel.mark_task_completed now (fst created) 12
                (snd created) in
            fst out = true
            /\ task_row (snd out) (fst created)
               = Some (tasks.mk (fst created) (Some 1) None
                         (Some 12) "Order paper" None true
                         (Some 12) (Some now)))
      /\ (forall now other,
            other <> 12 ->
            TaskModel.mark_task_completed now (fst created) other
              (snd created)
            = (false, snd created))).
Proof.
  apply (create_direct_task_then_complete Sample.db 1 "Order paper" None 12);
    [reflexivity | reflexivity | reflexivity | lia].
Defined.

(** X14. [add_task] for an employee that exists inserts an open task with
    the employee as target and neither company nor branch, and no
    assignment row; only that employee completes it through
    [mark_task_completed].  For a key without row in [employees] the
    [INSERT] raises on [employee_id REFERENCES employees(id)]. *)
Theorem add_task_then_complete (db : DB) (employee_id : Z)
    (description : string) (due_date : option Datetime.date) :
  consistent db = true ->
  has_employee db employee_id = true ->
  let db1 := snd (TaskModel.add_task employee_id description due_date db) in
  task_row db1 (tasks_id_seq db)
  = Some (tasks.mk (tasks_id_seq db) None None (Some employee_id)
            description due_date false None None)
  /\ task_assignments db1 = task_assignments db
  /\ (forall now,
        let out :=
          TaskModel.mark_task_completed now (tasks_id_seq db) employee_id
            db1 in
        fst out = true
        /\ task_row (snd out) (tasks_id_seq db)
           = Some (tasks.mk (tasks_id_seq db) None None (Some employee_id)
                     description due_date true (Some employee_id)
                     (Some now)))
  /\ (forall now other,
        other <> employee_id ->
        TaskModel.mark_task_completed now (tasks_id_seq db) other db1
        = (false, db1)).
Proof.
  intros Hok _ db1.
  destruct (fresh_direct_task db db1
              (tasks.mk (tasks_id_seq db) None None (Some employee_id)
                 description due_date false None None)
              employee_id Hok) as (Hrow & Hown & Hother);
    try reflexivity.
  split; [exact Hrow|]. split; [reflexivity|]. split; assumption.
Qed.

(** [add_task_then_complete] at a concrete input. *)
Lemma add_task_then_complete_witness :
  let db1 := snd (TaskModel.add_task 12 "Order paper" None Sample.db) in
  task_row db1 (tasks_id_seq Sample.db)
  = Some (tasks.mk (tasks_id_seq Sample.db) None None (Some 12)
            "Order paper" None false None None)
  /\ task_assignments db1 = task_assignments Sample.db
  /\ (forall now,
        let out :=
          TaskModel.mark_task_completed now (tasks_id_seq Sample.db) 12
            db1 in
        fst out = true
        /\ task_row (snd out) (tasks_id_seq Sample.db)
           = Some (tasks.mk (tasks_id_seq Sample.db) None None (Some 12)
                     "Order paper" None true (Some 12) (Some now)))
  /\ (forall now other,
        other <> 12 ->
        TaskModel.mark_task_completed now (tasks_id_seq Sample.db) other db1
        = (false, db1)).
Proof.
  apply (add_task_then_complete Sample.db 12 "Order paper" None);
    reflexivity.
Defined.

(** ** The fan-out respects [UNIQUE(task_id, employee_id)] *)

Lemma NoDup_map_Some {A : Type} (l : list A) :
  NoDup l -> NoDup (map Some l).
Proof.
  induction 1 as [|x l Hnotin _ IH]; cbn; constructor; [|exact IH].
  intros Hin. apply in_map_iff in Hin. destruct Hin as (y & Hy & Hin).
  congruence.
Qed.

(** X15. The fan-out respects [UNIQUE(task_id, employee_id)]: when the keys
    of [employees] are distinct, the assignments of a freshly created
    branch task are keyed to pairwise distinct employees. *)
Theorem fan_out_keys_distinct (db : DB) (company_id : Z)
    (description : string) (due_date : option Datetime.date)
    (branch_id : Z) :
  consistent db = true ->
  branch_id <> 0 ->
  NoDup (map employees.id (employees db)) ->
  let created :=
    TaskModel.create_task company_id description due_date (Some branch_id)
      None db in
  NoDup (map task_assignments.employee_id
           (assignments_of (snd created) (fst created))).
Proof.
  intros Hok Hb Hnodup created.
  destruct (created_branch_task_rows db company_id description due_date
              branch_id Hok Hb) as [_ Hasg].
  fold created in Hasg. rewrite Hasg, fanned_out_keys.
  apply NoDup_map_Some.
  unfold TaskModel.active_employees_of_branch, Sql.select.
  induction (employees db) as [|e l IH]; cbn; [constructor|].
  cbn in Hnodup. apply NoDup_cons_iff in Hnodup.
  destruct Hnodup as [Hnotin Hnodup].
  destruct (Sql.eqc (employees.branch_id e) branch_id
            && employees.is_active e); [|now apply IH].
  cbn. constructor; [|now apply IH].
  intros Hin. apply Hnotin. apply in_map_iff in Hin.
  destruct Hin as (e' & He' & Hin). apply filter_In in Hin.
  apply in_map_iff. exists e'. tauto.
Qed.

(** [fan_out_keys_distinct] at a concrete input. *)
Lemma fan_out_keys_distinct_witness :
  let created :=
    TaskModel.create_task 1 "Lock up" None (Some 1) None Sample.db in
  NoDup (map task_assignments.employee_id
           (assignments_of (snd created) (fst created))).
Proof.
  apply (fan_out_keys_distinct Sample.db 1 "Lock up" None 1);
    [reflexivity|lia|].
  repeat (constructor; [cbn; intuition lia|]). constructor.
Defined.

(** ** Progress of a branch task *)

Lemma insert_by_permutation {R : Type} (leb : R -> R -> bool) (r : R)
    (l : list R) :
  Permutation (Sql.insert_by leb r l) (r :: l).
Proof.
  induction l as [|r' l IH]; cbn; [reflexivity|].
  destruct (leb r r'); [reflexivity|].
  rewrite IH. apply perm_swap.
Qed.

Lemma order_by_permutation {R : Type} (leb : R -> R -> bool) (l : list R) :
  Permutation (Sql.order_by leb l) l.
Proof.
  unfold Sql.order_by. induction l as [|r l IH]; cbn; [reflexivity|].
  rewrite insert_by_permutation. now constructor.
Qed.

Lemma fetchone_of_map {A B : Type} (f : A -> B) (l : list A) :
  Sql.fetchone (map f l) = option_map f (Sql.fetchone l).
Proof. now destruct l. Qed.

Lemma pending_of_assignments (db : DB) (task_id : Z) :
  pending db task_id
  = map task_assignments.employee_id
      (filter (fun a => negb (task_assignments.is_completed a))
         (assignments_of db task_id)).
Proof.
  unfold pending, assignments_of, Sql.select, TaskModel.incomplete_of.
  now rewrite filter_twice.
Qed.

Lemma sum_completed_count (rows : list task_assignments.row) :
  fold_right
    (fun a n => (if task_assignments.is_completed a then 1 else 0) + n)
    0 rows
  + Z.of_nat
      (List.length
         (filter (fun a => negb (task_assignments.is_completed a)) rows))
  = Z.of_nat (List.length rows)
  /\ 0 <= fold_right
            (fun a n =>
               (if task_assignments.is_completed a then 1 else 0) + n)
            0 rows.
Proof.
  induction rows as [|a rows [IH1 IH2]]; [cbn; lia|].
  cbn [fold_right filter List.length].
  destruct (task_assignments.is_completed a); cbn [negb List.length]; lia.
Qed.

(** What [get_branch_task_progress] returns for a branch task. *)
Lemma progress_of_branch_task (name_leb : string -> string -> bool)
    (db : DB) (task_id : Z) (t : tasks.row) :
  task_row db task_id = Some t ->
  Py.truthy (tasks.branch_id t) = true ->
  exists p,
    TaskModel.get_branch_task_progress name_leb task_id db = (Some p, db)
    /\ TaskModel.total p = Z.of_nat (List.length (assignments_of db task_id))
    /\ match TaskModel.completed p with
       | None => assignments_of db task_id = []
       | Some c =>
           assignments_of db task_id <> []
           /\ 0 <= c
           /\ c + Z.of_nat (List.length (pending db task_id))
              = TaskModel.total p
       end
    /\ Permutation (TaskModel.employee_statuses p)
         (TaskModel.statuses_of task_id db).
Proof.
  intros Ht Hbranch.
  unfold TaskModel.get_branch_task_progress, bind, query, ret. cbv beta.
  unfold task_row in Ht. rewrite fetchone_of_map, Ht. cbn [option_map].
  rewrite Hbranch. cbn [negb fst snd].
  eexists. split; [reflexivity|]. cbn [TaskModel.total TaskModel.completed
                                      TaskModel.employee_statuses].
  fold (assignments_of db task_id).
  split; [reflexivity|]. split; [|apply order_by_permutation].
  rewrite pending_of_assignments, length_map.
  destruct (assignments_of db task_id) as [|a rows] eqn:Hrows;
    [reflexivity|].
  cbn [TaskModel.sum_completed].
  destruct (sum_completed_count (a :: rows)) as [H1 H2].
  split; [discriminate|]. split; [exact H2|]. unfold Sql.count. exact H1.
Qed.

(** X16. [get_branch_task_progress] reads and never writes.  It returns
    [None] for a missing task and for a task without branch; for a branch
    task [total] is the number of assignment rows, [completed] is [None]
    exactly when there is no assignment row and otherwise a count that
    together with the pending assignments makes up [total], and the
    statuses are the joined rows in some order, under every collation. *)
Theorem branch_task_progress_counts (name_leb : string -> string -> bool)
    (db : DB) (task_id : Z) :
  match task_row db task_id with
  | None =>
      TaskModel.get_branch_task_progress name_leb task_id db = (None, db)
  | Some t =>
      if Py.truthy (tasks.branch_id t) then
        exists p,
          TaskModel.get_branch_task_progress name_leb task_id db
          = (Some p, db)
          /\ TaskModel.total p
             = Z.of_nat (List.length (assignments_of db task_id))
          /\ match TaskModel.completed p with
             | None => assignments_of db task_id = []
             | Some c =>
                 assignments_of db task_id <> []
                 /\ 0 <= c
                 /\ c + Z.of_nat (List.length (pending db task_id))
                    = TaskModel.total p
             end
          /\ Permutation (TaskModel.employee_statuses p)
               (TaskModel.statuses_of task_id db)
      else
        TaskModel.get_branch_task_progress name_leb task_id db = (None, db)
  end.
Proof.
  destruct (task_row db task_id) as [t|] eqn:Ht.
  - destruct (Py.truthy (tasks.branch_id t)) eqn:Hbranch.
    + now apply (progress_of_branch_task name_leb db task_id t).
    + unfold TaskModel.get_branch_task_progress, bind, query, ret.
      cbv beta. unfold task_row in Ht. rewrite fetchone_of_map, Ht.
      cbn [option_map].
      now rewrite Hbranch.
  - unfold TaskModel.get_branch_task_progress, bind, query, ret.
    cbv beta. unfold task_row in Ht. rewrite fetchone_of_map, Ht. reflexivity.
Qed.

(** X17. A task closed by the override still shows partial progress: after
    a manager's call on an open branch task where another employee is
    pending, the task row is complete while [get_branch_task_progress]
    reports fewer completed assignments than assignments. *)
Theorem override_leaves_partial_progress
    (name_leb : string -> string -> bool) (db : DB) (now : timestamp)
    (task_id employee_id other : Z) (t : tasks.row) (role_level : Z) :
  task_row db task_id = Some t ->
  Py.truthy (tasks.branch_id t) = true ->
  tasks.is_completed t = false ->
  employee_role_level db employee_id = Some role_level ->
  role_level <= 2 ->
  In (Some other) (pending db task_id) ->
  other <> employee_id ->
  let db' :=
    snd (TaskModel.mark_task_completed now task_id employee_id db) in
  option_map tasks.is_completed (task_row db' task_id) = Some true
  /\ exists p c,
       fst (TaskModel.get_branch_task_progress name_leb task_id db')
       = Some p
       /\ TaskModel.completed p = Some c
       /\ c < TaskModel.total p.
Proof.
  intros Ht Hbranch Hopen Hrole Hle Hpend Hother db'.
  assert (Hdb' : db' = snd (TaskModel.complete_task now task_id employee_id
                              (after_assignment_update now task_id
                                 employee_id db))).
  { subst db'.
    now rewrite (mark_by_manager db now task_id employee_id t role_level). }
  assert (Hrow : task_row db' task_id
                 = Some (TaskModel.set_completed now employee_id t)).
  { rewrite Hdb'.
    now apply (task_row_completed _ now task_id employee_id t). }
  split; [now rewrite Hrow|].
  destruct (progress_of_branch_task name_leb db' task_id _ Hrow Hbranch)
    as (p & Hp & Htotal & Hcompleted & _).
  assert (Hstill : In (Some other) (pending db' task_id)).
  { rewrite Hdb'.
    change (pending
              (snd (TaskModel.complete_task now task_id employee_id
                      (after_assignment_update now task_id employee_id db)))
              task_id)
      with (pending (after_assignment_update now task_id employee_id db)
              task_id).
    rewrite pending_after_assignment_update. apply filter_In.
    split; [exact Hpend|]. cbn. apply negb_true_iff, Z.eqb_neq. exact Hother. }
  destruct (TaskModel.completed p) as [c|] eqn:Hc.
  - exists p, c. rewrite Hp. split; [reflexivity|]. split; [exact Hc|].
    destruct Hcompleted as (_ & _ & Hsum).
    destruct (pending db' task_id); [destruct Hstill|]. cbn in Hsum. lia.
  - rewrite pending_of_assignments, Hcompleted in Hstill. destruct Hstill.
Qed.

(** [override_leaves_partial_progress] at a concrete input. *)
Lemma override_leaves_partial_progress_witness :
  let db' := snd (TaskModel.mark_task_completed 100 1 10 Sample.db) in
  option_map tasks.is_completed (task_row db' 1) = Some true
  /\ exists p c,
       fst (TaskModel.get_branch_task_progress String.leb 1 db') = Some p
       /\ TaskModel.completed p = Some c
       /\ c < TaskModel.total p.
Proof.
  apply (override_leaves_partial_progress String.leb Sample.db 100 1 10 11
           (tasks.mk 1 (Some 1) (Some 1) None "Stocktake" None
              false None None) 1);
    try reflexivity; try lia.
  right. left. reflexivity.
Defined.

(** ** Status updates *)


(** X19. [update_branch_status] stops at the branch: every other branch,
    its sub-branches included, and every employee of another branch keep
    their rows, and neither the company nor the tasks are touched. *)
Theorem branch_status_stops_at_branch (db : DB) (branch_id : Z)
    (is_active : bool) :
  let db' := snd (BranchModel.update_branch_status branch_id is_active db) in
  (forall b, In b (branches db) -> branches.id b <> branch_id ->
             In b (branches db'))
  /\ (forall e, In e (employees db) ->
                employees.branch_id e <> Some branch_id ->
                In e (employees db'))
  /\ (forall sub e,
        In sub (branches db) -> In e (employees db) ->
        branches.parent_branch_id sub = Some branch_id ->
        branches.id sub <> branch_id ->
        employees.branch_id e = Some (branches.id sub) ->
        In sub (branches db') /\ In e (employees db'))
  /\ companies db' = companies db
  /\ employee_roles db' = employee_roles db
  /\ tasks db' = tasks db
  /\ task_assignments db' = task_assignments db.
Proof.
  cbv zeta. unfold BranchModel.update_branch_status. statements.
  assert (Hb : forall b, In b (branches db) -> branches.id b <> branch_id ->
                 In b (Sql.update (fun b0 => branches.id b0 =? branch_id)
                         (fun b0 =>
                            branches.mk (branches.id b0)
                              (branches.company_id b0)
                              (branches.parent_branch_id b0)
                              (branches.branch_name b0) is_active)
                         (branches db))).
  { intros b Hin Hid. apply update_untouched; [exact Hin|].
    now apply Z.eqb_neq. }
  assert (He : forall e, In e (employees db) ->
                 employees.branch_id e <> Some branch_id ->
                 In e (Sql.update
                         (fun e0 => Sql.eqc (employees.branch_id e0) branch_id)
                         (fun e0 =>
                            employees.mk (employees.id e0)
                              (employees.branch_id e0) (employees.role_id e0)
                              (employees.username e0) (employees.password e0)
                              (employees.full_name e0)
                              (employees.profile_pic_url e0) is_active)
                         (employees db))).
  { intros e Hin Hbr. apply update_untouched; [exact Hin|].
    destruct (Sql.eqc (employees.branch_id e) branch_id) eqn:E;
      [|reflexivity].
    apply eqc_true in E. contradiction. }
  repeat apply conj; try reflexivity; trivial.
  intros sub e Hsub Hin _ Hid Hbr. split; [now apply Hb|].
  apply He; [exact Hin|]. congruence.
Qed.

(** ** Passwords *)

Lemma verify_after_set (employee_id : Z) (p p' : string)
    (l : list employees.row) :
  (0 <? Sql.count
          (Sql.select
             (fun e => (employees.id e =? employee_id)
                       && String.eqb (employees.password e) p')
             (Sql.update (fun e => employees.id e =? employee_id)
                (EmployeeModel.set_password p) l)))
  = existsb (fun e => employees.id e =? employee_id) l && String.eqb p p'.
Proof.
  unfold Sql.count, Sql.select, Sql.update.
  induction l as [|e l IH]; [reflexivity|].
  cbn [map filter existsb].
  destruct (employees.id e =? employee_id) eqn:He.
  - cbn [EmployeeModel.set_password employees.id employees.password].
    rewrite He. cbn [andb orb].
    destruct (String.eqb p p') eqn:Hp.
    + cbn [List.length]. apply Z.ltb_lt. lia.
    + rewrite IH. now rewrite andb_false_r.
  - rewrite He. cbn [andb orb]. exact IH.
Qed.

(** X20. Passwords: after [update_password] or [reset_password] of an
    employee with a password that fits the column ([VARCHAR(255)]),
    [verify_password] accepts exactly the new password when the employee
    exists, and rejects every password when it does not.  A longer password
    is not stored: the [UPDATE] raises. *)
Theorem password_round_trip (db : DB) (employee_id : Z) (p p' : string) :
  varchar 255 p = true ->
  fst (EmployeeModel.verify_password employee_id p'
         (snd (EmployeeModel.update_password employee_id p db)))
  = existsb (fun e => employees.id e =? employee_id) (employees db)
    && String.eqb p p'
  /\ fst (EmployeeModel.verify_password employee_id p'
            (snd (EmployeeModel.reset_password employee_id p db)))
     = existsb (fun e => employees.id e =? employee_id) (employees db)
       && String.eqb p p'.
Proof.
  intros _.
  unfold EmployeeModel.verify_password, EmployeeModel.update_password,
    EmployeeModel.reset_password.
  statements. split; apply verify_after_set.
Qed.

(** [password_round_trip] for employee 11 of the sample database: the new
    password is accepted. *)
Lemma password_round_trip_witness :
  fst (EmployeeModel.verify_password 11 "s3cret"
         (snd (EmployeeModel.update_password 11 "s3cret" Sample.db)))
  = true
  /\ fst (EmployeeModel.verify_password 11 "s3cret"
            (snd (EmployeeModel.reset_password 11 "s3cret" Sample.db)))
     = true.
Proof.
  exact (password_round_trip Sample.db 11 "s3cret" "s3cret" eq_refl).
Defined.

(** The old password is rejected after the change. *)
Example old_password_rejected :
  fst (EmployeeModel.verify_password 11 "pw" Sample.db) = true
  /\ fst (EmployeeModel.verify_password 11 "pw"
            (snd (EmployeeModel.update_password 11 "s3cret" Sample.db)))
     = false.
Proof. split; reflexivity. Qed.

(** ** Transfers *)

(** X21. [update_employee_branch] to a branch that exists moves an
    employee between rosters: the active roster of the new branch gains the
    employee when active, every other roster is the old one without the
    employee, and tasks and assignments, those of the old branch included,
    are left as they were.  For a key without row in [branches] the
    [UPDATE] raises on [branch_id REFERENCES branches(id)] and nobody
    moves. *)
Theorem transfer_moves_roster (db : DB) (employee_id branch_id : Z) :
  has_branch db branch_id = true ->
  let db' :=
    snd (EmployeeModel.update_employee_branch employee_id branch_id db) in
  (forall x,
     In x (TaskModel.active_employees_of_branch branch_id db')
     <-> In x (TaskModel.active_employees_of_branch branch_id db)
         \/ (x = employee_id
             /\ exists e, In e (employees db)
                          /\ employees.id e = employee_id
                          /\ employees.is_active e = true))
  /\ (forall other x,
        other <> branch_id ->
        In x (TaskModel.active_employees_of_branch other db')
        <-> exists e, In e (employees db)
                      /\ employees.id e = x
                      /\ x <> employee_id
                      /\ employees.branch_id e = Some other
                      /\ employees.is_active e = true)
  /\ task_assignments db' = task_assignments db
  /\ tasks db' = tasks db.
Proof.
  intros _.
  cbv zeta. unfold EmployeeModel.update_employee_branch. statements.
  unfold TaskModel.active_employees_of_branch, Sql.select.
  cbn [employees].
  split; [|split; [|split; reflexivity]].
  - intros x. rewrite !in_map_iff. split.
    + intros (e' & <- & Hin). apply filter_In in Hin.
      destruct Hin as [Hin Hcond]. apply update_inv in Hin.
      destruct Hin as (e & Hin & ->).
      destruct (employees.id e =? employee_id) eqn:He.
      * right. apply Z.eqb_eq in He. cbn in *.
        split; [exact He|]. exists e. apply andb_prop in Hcond. tauto.
      * left. exists e. split; [reflexivity|]. now apply filter_In.
    + intros [(e & <- & Hin)|(-> & e & Hin & Hid & Hact)].
      * apply filter_In in Hin. destruct Hin as [Hin Hcond].
        exists (if employees.id e =? employee_id
                then employees.mk (employees.id e) (Some branch_id)
                       (employees.role_id e) (employees.username e)
                       (employees.password e) (employees.full_name e)
                       (employees.profile_pic_url e) (employees.is_active e)
                else e).
        split; [now destruct (employees.id e =? employee_id)|].
        apply filter_In. split.
        -- unfold Sql.update. apply in_map_iff. now exists e.
        -- destruct (employees.id e =? employee_id); [|exact Hcond].
           cbn. rewrite Z.eqb_refl. apply andb_prop in Hcond.
           now destruct Hcond as [_ ->].
      * exists (employees.mk (employees.id e) (Some branch_id)
                  (employees.role_id e) (employees.username e)
                  (employees.password e) (employees.full_name e)
                  (employees.profile_pic_url e) (employees.is_active e)).
        split; [exact Hid|]. apply filter_In. split.
        -- unfold Sql.update. apply in_map_iff. exists e.
           split; [|exact Hin]. apply Z.eqb_eq in Hid. now rewrite Hid.
        -- cbn. now rewrite Z.eqb_refl, Hact.
  - intros other x Hother. rewrite in_map_iff. split.
    + intros (e' & <- & Hin). apply filter_In in Hin.
      destruct Hin as [Hin Hcond]. apply update_inv in Hin.
      destruct Hin as (e & Hin & ->).
      destruct (employees.id e =? employee_id) eqn:He.
      * cbn in Hcond. apply andb_prop in Hcond. destruct Hcond as [Hc _].
        apply Z.eqb_eq in Hc. congruence.
      * exists e. apply andb_prop in Hcond. destruct Hcond as [Hc Ha].
        apply eqc_true in Hc. apply Z.eqb_neq in He. tauto.
    + intros (e & Hin & <- & Hne & Hbr & Hact). exists e.
      split; [reflexivity|]. apply filter_In. split.
      * apply update_untouched; [exact Hin|]. now apply Z.eqb_neq.
      * rewrite Hbr, Hact. cbn. now rewrite Z.eqb_refl.
Qed.

(** [transfer_moves_roster] for the transfer of employee 11 of the sample
    database from branch 1 to the empty branch 2. *)
Lemma transfer_moves_roster_witness :
  let db' := snd (EmployeeModel.update_employee_branch 11 2 Sample.db) in
  (forall x,
     In x (TaskModel.active_employees_of_branch 2 db')
     <-> In x (TaskModel.active_employees_of_branch 2 Sample.db)
         \/ (x = 11
             /\ exists e, In e (employees Sample.db)
                          /\ employees.id e = 11
                          /\ employees.is_active e = true))
  /\ (forall other x,
        other <> 2 ->
        In x (TaskModel.active_employees_of_branch other db')
        <-> exists e, In e (employees Sample.db)
                      /\ employees.id e = x
                      /\ x <> 11
                      /\ employees.branch_id e = Some other
                      /\ employees.is_active e = true)
  /\ task_assignments db' = task_assignments Sample.db
  /\ tasks db' = tasks Sample.db.
Proof.
  exact (transfer_moves_roster Sample.db 11 2 eq_refl).
Defined.

(** The rosters of the sample database after that transfer. *)
Example rosters_after_transfer :
  let db' := snd (EmployeeModel.update_employee_branch 11 2 Sample.db) in
  TaskModel.active_employees_of_branch 1 Sample.db = [10; 11; 12]
  /\ TaskModel.active_employees_of_branch 2 Sample.db = []
  /\ TaskModel.active_employees_of_branch 1 db' = [10; 12]
  /\ TaskModel.active_employees_of_branch 2 db' = [11].
Proof. repeat split; reflexivity. Qed.

(** ** Completion does not look at status or branch *)

Lemma role_levels_kept (employee_id : Z) (p : employees.row -> bool)
    (f : employees.row -> employees.row) (db : DB) :
  (forall e, employees.id (f e) = employees.id e) ->
  (forall e, employees.role_id (f e) = employees.role_id e) ->
  TaskModel.role_levels_of employee_id (with_employees (Sql.update p f) db)
  = TaskModel.role_levels_of employee_id db.
Proof.
  intros Hid Hrole. unfold TaskModel.role_levels_of, with_employees.
  cbn [employees employee_roles]. unfold Sql.select, Sql.update.
  induction (employees db) as [|e l IH]; [reflexivity|].
  cbn [map filter].
  assert (Hsame : (employees.id (if p e then f e else e) =? employee_id)
                  = (employees.id e =? employee_id))
    by (destruct (p e); now rewrite ?Hid).
  rewrite Hsame. destruct (employees.id e =? employee_id).
  - cbn [flat_map]. rewrite IH. f_equal.
    destruct (p e); now rewrite ?Hrole.
  - exact IH.
Qed.

Lemma mark_ignores_employee_columns (db : DB) (now : timestamp)
    (task_id employee_id : Z) (p : employees.row -> bool)
    (f : employees.row -> employees.row) :
  (forall e, employees.id (f e) = employees.id e) ->
  (forall e, employees.role_id (f e) = employees.role_id e) ->
  TaskModel.mark_task_completed now task_id employee_id
    (with_employees (Sql.update p f) db)
  = (fst (TaskModel.mark_task_completed now task_id employee_id db),
     with_employees (Sql.update p f)
       (snd (TaskModel.mark_task_completed now task_id employee_id db))).
Proof.
  intros Hid Hrole. rewrite !mark_task_completed_paths.
  change (task_row (with_employees (Sql.update p f) db) task_id)
    with (task_row db task_id).
  assert (Hm : is_manager (with_employees (Sql.update p f) db) employee_id
               = is_manager db employee_id).
  { unfold is_manager, employee_role_level.
    now rewrite role_levels_kept. }
  destruct (task_row db task_id) as [t|]; [|reflexivity].
  destruct (tasks.is_completed t); [reflexivity|].
  destruct (Py.truthy (tasks.branch_id t)).
  - cbv zeta. rewrite Hm.
    destruct (is_manager db employee_id); [reflexivity|].
    change (pending
              (after_assignment_update now task_id employee_id
                 (with_employees (Sql.update p f) db)) task_id)
      with (pending (after_assignment_update now task_id employee_id db)
              task_id).
    now destruct (pending _ _).
  - now destruct (Py.eq_int (tasks.employee_id t) employee_id).
Qed.

(** X22. [mark_task_completed] reads neither the active flag nor the branch
    of any employee: it commutes with [update_employee_status] and with
    [update_employee_branch], with the same result either way. *)
Theorem completion_ignores_status_and_branch (db : DB) (now : timestamp)
    (task_id employee_id : Z) :
  (forall (whom : Z) (is_active : bool),
     TaskModel.mark_task_completed now task_id employee_id
       (snd (EmployeeModel.update_employee_status whom is_active db))
     = (fst (TaskModel.mark_task_completed now task_id employee_id db),
        snd (EmployeeModel.update_employee_status whom is_active
               (snd (TaskModel.mark_task_completed now task_id employee_id
                       db)))))
  /\ (forall (whom branch_id : Z),
        TaskModel.mark_task_completed now task_id employee_id
          (snd (EmployeeModel.update_employee_branch whom branch_id db))
        = (fst (TaskModel.mark_task_completed now task_id employee_id db),
           snd (EmployeeModel.update_employee_branch whom branch_id
                  (snd (TaskModel.mark_task_completed now task_id
                          employee_id db))))).
Proof.
  split; intros; apply mark_ignores_employee_columns; reflexivity.
Qed.

(** ** Roles *)

(** X23. [delete_role] with a replacement that exists and differs from the
    role: the role row is gone, no employee references it, its holders hold
    the replacement and are otherwise unchanged, all other employees and
    roles are untouched, and when every employee referenced an existing
    role before, every employee does so afterwards. *)
Theorem delete_role_reassigns (db : DB) (role_id replacement_role_id : Z) :
  replacement_role_id <> role_id ->
  (exists r, In r (employee_roles db)
             /\ employee_roles.id r = replacement_role_id) ->
  (forall e i, In e (employees db) -> employees.role_id e = Some i ->
     exists r, In r (employee_roles db) /\ employee_roles.id r = i) ->
  let db' := snd (RoleModel.delete_role role_id replacement_role_id db) in
  fst (RoleModel.get_role_by_id role_id db') = None
  /\ (forall e, In e (employees db') -> employees.role_id e <> Some role_id)
  /\ (forall e i, In e (employees db') -> employees.role_id e = Some i ->
        exists r, In r (employee_roles db') /\ employee_roles.id r = i)
  /\ map employees.id (employees db') = map employees.id (employees db)
  /\ (forall e, In e (employees db) ->
        employees.role_id e = Some role_id ->
        In (employees.mk (employees.id e) (employees.branch_id e)
              (Some replacement_role_id) (employees.username e)
              (employees.password e) (employees.full_name e)
              (employees.profile_pic_url e) (employees.is_active e))
          (employees db'))
  /\ (forall e, In e (employees db) ->
        employees.role_id e <> Some role_id -> In e (employees db'))
  /\ (forall r, In r (employee_roles db) -> employee_roles.id r <> role_id ->
        In r (employee_roles db')).
Proof.
  intros Hne (rep & Hrep & Hrepid) Hvalid. cbv zeta.
  unfold RoleModel.delete_role, RoleModel.get_role_by_id. statements.
  assert (Hkeep : forall r, In r (employee_roles db) ->
                    employee_roles.id r <> role_id ->
                    In r (Sql.delete (fun r0 => employee_roles.id r0 =? role_id)
                            (employee_roles db))).
  { intros r Hin Hid. apply filter_In. split; [exact Hin|].
    now apply negb_true_iff, Z.eqb_neq. }
  assert (Hrole : forall e e', In e (employees db) ->
            e' = (if Sql.eqc (employees.role_id e) role_id
                  then employees.mk (employees.id e) (employees.branch_id e)
                         (Some replacement_role_id) (employees.username e)
                         (employees.password e) (employees.full_name e)
                         (employees.profile_pic_url e)
                         (employees.is_active e)
                  else e) ->
            employees.role_id e' <> Some role_id
            /\ (employees.role_id e' = Some replacement_role_id
                \/ employees.role_id e' = employees.role_id e)).
  { intros e e' _ ->.
    destruct (Sql.eqc (employees.role_id e) role_id) eqn:E.
    - cbn. split; [congruence|now left].
    - split; [|now right]. intros H. apply eqc_true in H. congruence. }
  repeat apply conj.
  - now rewrite select_delete_same.
  - intros e' Hin. apply update_inv in Hin. destruct Hin as (e & Hin & He').
    exact (proj1 (Hrole e e' Hin He')).
  - intros e' i Hin Hi. apply update_inv in Hin.
    destruct Hin as (e & Hin & He').
    destruct (Hrole e e' Hin He') as [Hnot [Hr|Hr]].
    + exists rep. split; [apply Hkeep; [exact Hrep|congruence]|congruence].
    + rewrite Hr in Hi, Hnot.
      destruct (Hvalid e i Hin Hi) as (r & Hr1 & Hr2).
      exists r. split; [apply Hkeep; [exact Hr1|congruence]|exact Hr2].
  - now apply update_keeps_column.
  - intros e Hin Hr. unfold Sql.update. apply in_map_iff. exists e.
    split; [|exact Hin]. apply eqc_true in Hr. now rewrite Hr.
  - intros e Hin Hr. apply update_untouched; [exact Hin|].
    destruct (Sql.eqc (employees.role_id e) role_id) eqn:E; [|reflexivity].
    apply eqc_true in E. contradiction.
  - exact Hkeep.
Qed.

(** [delete_role_reassigns] at a concrete input. *)
Lemma delete_role_reassigns_witness :
  let db' := snd (RoleModel.delete_role 2 3 Sample.db) in
  fst (RoleModel.get_role_by_id 2 db') = None
  /\ (forall e, In e (employees db') -> employees.role_id e <> Some 2)
  /\ (forall e i, In e (employees db') -> employees.role_id e = Some i ->
        exists r, In r (employee_roles db') /\ employee_roles.id r = i)
  /\ map employees.id (employees db') = map employees.id (employees Sample.db)
  /\ (forall e, In e (employees Sample.db) ->
        employees.role_id e = Some 2 ->
        In (employees.mk (employees.id e) (employees.branch_id e)
              (Some 3) (employees.username e)
              (employees.password e) (employees.full_name e)
              (employees.profile_pic_url e) (employees.is_active e))
          (employees db'))
  /\ (forall e, In e (employees Sample.db) ->
        employees.role_id e <> Some 2 -> In e (employees db'))
  /\ (forall r, In r (employee_roles Sample.db) ->
        employee_roles.id r <> 2 -> In r (employee_roles db')).
Proof.
  apply (delete_role_reassigns Sample.db 2 3); [lia| |].
  - exists (employee_roles.mk 3 "General Employee" 3 (Some 1)).
    split; [cbn; tauto|reflexivity].
  - intros e i [<-|[<-|[<-|[<-|[<-|[]]]]]] Hi; cbn in Hi;
      injection Hi as <-;
      first [ solve [eexists; split; [left; reflexivity|reflexivity]]
            | solve [eexists; split;
                     [right; right; left; reflexivity|reflexivity]]
            | solve [eexists; split;
                     [right; right; right; left; reflexivity
                     |reflexivity]] ].
Defined.

Lemma select_unique {R : Type} (key : R -> Z) (l : list R) (x : R) :
  NoDup (map key l) -> In x l ->
  Sql.select (fun r => key r =? key x) l = [x].
Proof.
  unfold Sql.select. induction l as [|r l IH]; [intros _ []|].
  cbn [map filter]. intros Hnd Hin. apply NoDup_cons_iff in Hnd.
  destruct Hnd as [Hnotin Hnd]. destruct Hin as [->|Hin].
  - rewrite Z.eqb_refl. f_equal. apply filter_nothing.
    intros r Hr. apply Z.eqb_neq. intros Heq. apply Hnotin.
    rewrite <- Heq. now apply in_map.
  - destruct (Z.eqb_spec (key r) (key x)) as [Heq|_]; [|now apply IH].
    exfalso. apply Hnotin. rewrite Heq. now apply in_map.
Qed.

(** X24. With distinct employee keys and distinct role keys, an employee
    triggers the manager override of [mark_task_completed] exactly when the
    employee's role is among [get_manager_roles] of the role's company. *)
Theorem manager_roles_are_the_override_roles (db : DB)
    (e : employees.row) (r : employee_roles.row) (company_id : Z) :
  NoDup (map employees.id (employees db)) ->
  NoDup (map employee_roles.id (employee_roles db)) ->
  In e (employees db) ->
  In r (employee_roles db) ->
  employees.role_id e = Some (employee_roles.id r) ->
  employee_roles.company_id r = Some company_id ->
  is_manager db (employees.id e)
  = existsb (fun i => i =? employee_roles.id r)
      (fst (RoleModel.get_manager_roles company_id db)).
Proof.
  intros Hnde Hndr He Hr Hrole Hco.
  unfold is_manager, employee_role_level, TaskModel.role_levels_of.
  rewrite (select_unique employees.id (employees db) e Hnde He).
  cbn [flat_map]. rewrite app_nil_r, Hrole.
  assert (Hsel : Sql.select
                   (fun r0 => Sql.eqc (Some (employee_roles.id r))
                                (employee_roles.id r0))
                   (employee_roles db) = [r]).
  { rewrite <- (select_unique employee_roles.id (employee_roles db) r Hndr Hr).
    unfold Sql.select. apply filter_agree. intros x _. cbn. apply Z.eqb_sym. }
  rewrite Hsel. cbn [map Sql.fetchone].
  unfold RoleModel.get_manager_roles, query. cbn [fst].
  rewrite existsb_over_map.
  destruct (employee_roles.role_level r <=? 2) eqn:Hl.
  - symmetry. apply existsb_exists. exists r. split; [|apply Z.eqb_refl].
    apply filter_In. split; [exact Hr|]. rewrite Hco, Hl. cbn.
    now rewrite Z.eqb_refl.
  - symmetry. apply not_true_is_false. intros Hex.
    apply existsb_exists in Hex. destruct Hex as (r' & Hin & Heq).
    apply filter_In in Hin. destruct Hin as [Hin Hcond].
    apply Z.eqb_eq in Heq.
    assert (r' = r).
    { pose proof (select_unique employee_roles.id (employee_roles db) r
                    Hndr Hr) as Hu.
      assert (Hin' : In r' (Sql.select
                              (fun r0 => employee_roles.id r0
                                         =? employee_roles.id r)
                              (employee_roles db)))
        by (apply filter_In; split; [exact Hin|now apply Z.eqb_eq]).
      rewrite Hu in Hin'. destruct Hin' as [->|[]]. reflexivity. }
    subst r'. apply andb_prop in Hcond. destruct Hcond as [_ Hcond].
    congruence.
Qed.

(** [manager_roles_are_the_override_roles] at a concrete input. *)
Lemma manager_roles_are_the_override_roles_witness :
  is_manager Sample.db 10
  = existsb (fun i => i =? 1) (fst (RoleModel.get_manager_roles 1 Sample.db)).
Proof.
  apply (manager_roles_are_the_override_roles Sample.db
           (employees.mk 10 (Some 1) (Some 1) "mia" "pw" "Mia" Sample.pic
              true)
           (employee_roles.mk 1 "Manager" 1 (Some 1)) 1);
    try reflexivity; try (cbn; tauto);
    repeat (constructor; [cbn; intuition lia|]); constructor.
Defined.

(** X25. [initialize_default_roles] for a company that exists is
    idempotent.  For a company without roles it inserts Manager (1), Asst.
    Manager (2) and General Employee (3) under the next three keys, of
    which [get_manager_roles] returns the first two (in the order the
    [SELECT] gives them); for a company that has a role it does nothing.
    The company exists and the sequence is ahead of the keys of
    [employee_roles], as [company_id REFERENCES companies(id)] and the
    primary key ask: otherwise the first [INSERT] raises. *)
Theorem initialize_default_roles_once (s : RoleDB) (company_id : Z) :
  has_company (role_db s) company_id = true ->
  role_serial_ahead s = true ->
  let s1 := snd (RoleModel.initialize_default_roles company_id s) in
  snd (RoleModel.initialize_default_roles company_id s1) = s1
  /\ (match Sql.select
              (fun r => Sql.eqc (employee_roles.company_id r) company_id)
              (employee_roles (role_db s)) with
      | [] =>
          Permutation
            (Sql.select
               (fun r => Sql.eqc (employee_roles.company_id r) company_id)
               (employee_roles (role_db s1)))
            [employee_roles.mk (employee_roles_id_seq s) "Manager" 1
               (Some company_id);
             employee_roles.mk (employee_roles_id_seq s + 1) "Asst. Manager"
               2 (Some company_id);
             employee_roles.mk (employee_roles_id_seq s + 1 + 1)
               "General Employee" 3 (Some company_id)]
          /\ Permutation
               (fst (RoleModel.get_manager_roles company_id (role_db s1)))
               [employee_roles_id_seq s; employee_roles_id_seq s + 1]
      | _ :: _ => s1 = s
      end).
Proof.
  intros _ _. cbv zeta.
  destruct (Sql.select
              (fun r => Sql.eqc (employee_roles.company_id r) company_id)
              (employee_roles (role_db s))) as [|r0 rest] eqn:Hsel.
  - assert (Hs1 :
      snd (RoleModel.initialize_default_roles company_id s)
      = fold_left
          (fun s' role =>
             snd (RoleModel.create_role company_id (fst role) (snd role) s'))
          RoleModel.default_roles s).
    { unfold RoleModel.initialize_default_roles, Sql.count.
      now rewrite Hsel. }
    rewrite !Hs1.
    assert (Hafter :
      Sql.select (fun r => Sql.eqc (employee_roles.company_id r) company_id)
        (employee_roles
           (role_db
              (fold_left
                 (fun s' role =>
                    snd (RoleModel.create_role company_id (fst role)
                           (snd role) s'))
                 RoleModel.default_roles s)))
      = [employee_roles.mk (employee_roles_id_seq s) "Manager" 1
           (Some company_id);
         employee_roles.mk (employee_roles_id_seq s + 1) "Asst. Manager"
           2 (Some company_id);
         employee_roles.mk (employee_roles_id_seq s + 1 + 1)
           "General Employee" 3 (Some company_id)]).
    { cbn [fold_left RoleModel.default_roles RoleModel.create_role fst snd
           role_db employee_roles_id_seq].
      unfold with_employee_roles, Sql.insert, Sql.select in *.
      cbn [employee_roles]. rewrite !filter_app, Hsel.
      cbn [filter app employee_roles.company_id Sql.eqc].
      now rewrite Z.eqb_refl. }
    split; [|split].
    + unfold RoleModel.initialize_default_roles, Sql.count.
      now rewrite Hafter.
    + rewrite Hafter. apply Permutation_refl.
    + unfold RoleModel.get_manager_roles, query. cbn [fst].
      match goal with
      | |- Permutation (map _ (Sql.select _ ?l)) _ =>
          assert (Hsplit :
            Sql.select
              (fun r => Sql.eqc (employee_roles.company_id r) company_id
                        && (employee_roles.role_level r <=? 2)) l
            = filter (fun r => employee_roles.role_level r <=? 2)
                (Sql.select
                   (fun r => Sql.eqc (employee_roles.company_id r)
                               company_id) l))
            by (unfold Sql.select; symmetry; apply filter_twice)
      end.
      rewrite Hsplit, Hafter. apply Permutation_refl.
  - assert (Hs1 : snd (RoleModel.initialize_default_roles company_id s) = s).
    { unfold RoleModel.initialize_default_roles, Sql.count.
      now rewrite Hsel. }
    rewrite !Hs1. split; reflexivity.
Qed.

(** [initialize_default_roles_once] for a company 3 added to the sample
    database, which has no role yet; the next key of [employee_roles] is
    5. *)
Lemma initialize_default_roles_once_witness :
  let s :=
    mkRoleDB
      (with_companies (Sql.insert (companies.mk 3 "Initech" true)) Sample.db)
      5 in
  let s1 := snd (RoleModel.initialize_default_roles 3 s) in
  snd (RoleModel.initialize_default_roles 3 s1) = s1
  /\ Permutation
       (Sql.select (fun r => Sql.eqc (employee_roles.company_id r) 3)
          (employee_roles (role_db s1)))
       [employee_roles.mk 5 "Manager" 1 (Some 3);
        employee_roles.mk 6 "Asst. Manager" 2 (Some 3);
        employee_roles.mk 7 "General Employee" 3 (Some 3)]
  /\ Permutation (fst (RoleModel.get_manager_roles 3 (role_db s1))) [5; 6].
Proof.
  exact (initialize_default_roles_once
           (mkRoleDB
              (with_companies (Sql.insert (companies.mk 3 "Initech" true))
                 Sample.db)
              5)
           3 eq_refl eq_refl).
Defined.

(** For company 1 of the sample database, which has its roles,
    [initialize_default_roles] writes nothing. *)
Example initialize_default_roles_again :
  snd (RoleModel.initialize_default_roles 1 (mkRoleDB Sample.db 5))
  = mkRoleDB Sample.db 5.
Proof. reflexivity. Qed.

(** ** More on the date-range presets *)

Section Presets.

Import Datetime.

Lemma days_before_month_nonneg (y m : Z) :
  1 <= m <= 12 -> 0 <= _days_before_month y m.
Proof.
  intros Hm. unfold _days_before_month.
  assert (H : m = 1 \/ m = 2 \/ m = 3 \/ m = 4 \/ m = 5 \/ m = 6 \/ m = 7
              \/ m = 8 \/ m = 9 \/ m = 10 \/ m = 11 \/ m = 12) by lia.
  destruct (_is_leap y);
    repeat (destruct H as [H|H]; [subst m; cbn; lia|]); subst m; cbn; lia.
Qed.

(** The first day of the month and of the year of a valid date. *)
Lemma first_days (today : date) :
  valid today = true ->
  replace_day today 1 = Some (mkdate (year today) (month today) 1)
  /\ replace_month_day today 1 1 = Some (mkdate (year today) 1 1)
  /\ valid (mkdate (year today) (month today) 1) = true
  /\ valid (mkdate (year today) 1 1) = true
  /\ toordinal (mkdate (year today) 1 1)
     <= toordinal (mkdate (year today) (month today) 1)
     <= toordinal today.
Proof.
  destruct today as [y m d]. unfold valid. cbn [year month day].
  intros Hv. apply valid_ymd_bounds in Hv. destruct Hv as (Hy & Hm & Hd).
  pose proof (days_in_month_bounds y m Hm) as Hdim.
  assert (V1 : valid_ymd y m 1 = true) by (apply valid_ymd_intro; lia).
  assert (V2 : valid_ymd y 1 1 = true)
    by (apply valid_ymd_intro; [lia|lia|cbn; lia]).
  unfold replace_day, replace_month_day, new. cbn [year month day].
  rewrite V1, V2. repeat split; trivial.
  - unfold toordinal, _ymd2ord. cbn [year month day].
    pose proof (days_before_month_nonneg y m Hm).
    change (_days_before_month y 1) with 0. lia.
  - unfold toordinal, _ymd2ord. cbn [year month day]. lia.
Qed.

(** X26. For a valid [today] from the year 2000 on,
    [get_date_range_from_filter] returns for every filter name a valid
    start date that is not after [today], with [today] as end date; the
    start dates of "All Time", "This Year" and "This Month" are in that
    order. *)
Theorem date_ranges_well_formed (today : date) (date_filter : string) :
  valid today = true ->
  2000 <= year today ->
  (exists start_date,
     get_date_range_from_filter today date_filter = Some (start_date, today)
     /\ valid start_date = true
     /\ toordinal start_date <= toordinal today)
  /\ (exists all_time this_year this_month,
        get_date_range_from_filter today "All Time" = Some (all_time, today)
        /\ get_date_range_from_filter today "This Year"
           = Some (this_year, today)
        /\ get_date_range_from_filter today "This Month"
           = Some (this_month, today)
        /\ toordinal all_time <= toordinal this_year
           <= toordinal this_month).
Proof.
  intros Hv Hy.
  destruct (first_days today Hv) as (Hmonth & Hyear & Vm & Vy & Hord).
  assert (Hall : toordinal (mkdate 2000 1 1)
                 <= toordinal (mkdate (year today) 1 1)).
  { unfold toordinal, _ymd2ord. cbn [year month day].
    pose proof (days_before_year_mono 2000 (year today) Hy).
    change (_days_before_month 2000 1) with 0.
    change (_days_before_month (year today) 1) with 0. lia. }
  split.
  - unfold get_date_range_from_filter.
    destruct (String.eqb date_filter "Today").
    { exists today. repeat split; trivial. lia. }
    destruct (String.eqb date_filter "This Week").
    { destruct (this_week_start today Hv) as (s & Hs & Vs & _ & Hr).
      exists s. rewrite Hs. cbn [Datetime.bind]. repeat split; trivial. lia. }
    destruct (String.eqb date_filter "This Month").
    { eexists. rewrite Hmonth. cbn [Datetime.bind].
      repeat split; trivial. lia. }
    destruct (String.eqb date_filter "This Year").
    { eexists. rewrite Hyear. cbn [Datetime.bind].
      repeat split; trivial. lia. }
    exists (mkdate 2000 1 1). repeat split; trivial. lia.
  - exists (mkdate 2000 1 1), (mkdate (year today) 1 1),
      (mkdate (year today) (month today) 1).
    unfold get_date_range_from_filter. simpl String.eqb. cbv iota.
    rewrite Hmonth, Hyear. cbn [Datetime.bind].
    repeat split; trivial; lia.
Qed.

(** [date_ranges_well_formed] at a concrete input. *)
Lemma date_ranges_well_formed_witness :
  (exists start_date,
     get_date_range_from_filter (mkdate 2024 3 13) "This Year"
     = Some (start_date, mkdate 2024 3 13)
     /\ valid start_date = true
     /\ toordinal start_date <= toordinal (mkdate 2024 3 13))
  /\ (exists all_time this_year this_month,
        get_date_range_from_filter (mkdate 2024 3 13) "All Time"
        = Some (all_time, mkdate 2024 3 13)
        /\ get_date_range_from_filter (mkdate 2024 3 13) "This Year"
           = Some (this_year, mkdate 2024 3 13)
        /\ get_date_range_from_filter (mkdate 2024 3 13) "This Month"
           = Some (this_month, mkdate 2024 3 13)
        /\ toordinal all_time <= toordinal this_year
           <= toordinal this_month).
Proof.
  apply (date_ranges_well_formed (mkdate 2024 3 13) "This Year");
    [reflexivity|cbn; lia].
Defined.

(** The day before the first of a month is the last day of the month
    before, unless there is no month before. *)
Lemma day_before_first (y m : Z) :
  valid_ymd y m 1 = true ->
  1 < y \/ 1 < m ->
  sub_days (mkdate y m 1) 1
  = Some (mkdate (fst (previous_month y m)) (snd (previous_month y m))
            (_days_in_month (fst (previous_month y m))
               (snd (previous_month y m))))
  /\ valid_ymd (fst (previous_month y m)) (snd (previous_month y m)) 1 = true.
Proof.
  intros Hv Hnot1. apply valid_ymd_bounds in Hv.
  destruct Hv as (Hy & Hm & _).
  unfold previous_month.
  assert (Hprev :
    forall py pm,
      1 <= py <= 9999 -> 1 <= pm <= 12 ->
      _ymd2ord y m 1 - 1 = _ymd2ord py pm (_days_in_month py pm) ->
      sub_days (mkdate y m 1) 1 = Some (mkdate py pm (_days_in_month py pm))
      /\ valid_ymd py pm 1 = true).
  { intros py pm Hpy Hpm Hord.
    pose proof (days_in_month_bounds py pm Hpm) as Hdim.
    assert (V : valid (mkdate py pm (_days_in_month py pm)) = true)
      by (apply valid_ymd_intro; cbn [year month day]; lia).
    pose proof (toordinal_bounds _ V) as B.
    unfold sub_days. change (toordinal (mkdate y m 1)) with (_ymd2ord y m 1).
    rewrite Hord.
    change (_ymd2ord py pm (_days_in_month py pm))
      with (toordinal (mkdate py pm (_days_in_month py pm))).
    replace (0 <? toordinal (mkdate py pm (_days_in_month py pm)))
      with true by (symmetry; apply Z.ltb_lt; lia).
    replace (toordinal (mkdate py pm (_days_in_month py pm)) <=? _MAXORDINAL)
      with true by (symmetry; apply Z.leb_le; lia).
    cbn [andb]. rewrite (fromordinal_toordinal _ V).
    split; [reflexivity|apply valid_ymd_intro; lia]. }
  destruct (Z.ltb_spec 1 m) as [Hgt|Hle]; cbn [fst snd].
  - apply Hprev; [lia|lia|].
    rewrite <- (last_day_of_previous_month y (m - 1)) by lia.
    now replace (m - 1 + 1) with m by lia.
  - assert (m = 1) by lia. subst m.
    apply Hprev; [lia|lia|].
    unfold _ymd2ord, _days_before_month.
    pose proof (days_before_year_succ (y - 1)) as S.
    replace (y - 1 + 1) with y in S by lia.
    change (_days_in_month (y - 1) 12) with 31.
    change (_DAYS_BEFORE_MONTH 1) with 0.
    change (_DAYS_BEFORE_MONTH 12) with 334.
    change (2 <? 1) with false. change (2 <? 12) with true.
    cbn [andb]. destruct (_is_leap (y - 1)); lia.
Qed.

(** X27. "Last 3 Months" in [view_branch_employee_reports]: when [today]
    is valid and at least two months after January of year 1, the range
    starts on the first day of the month two months before the current one
    and ends [today]. *)
Theorem last_three_months_start (today : date)
    (custom_start custom_end : date) :
  valid today = true ->
  1 < year today \/ 2 < month today ->
  let m1 := previous_month (year today) (month today) in
  let m2 := previous_month (fst m1) (snd m1) in
  view_branch_employee_reports_date_range today "Last 3 Months"
    custom_start custom_end
  = Some (mkdate (fst m2) (snd m2) 1, today)
  /\ valid (mkdate (fst m2) (snd m2) 1) = true
  /\ toordinal (mkdate (fst m2) (snd m2) 1) < toordinal today.
Proof.
  intros Hv Hnot m1 m2.
  destruct (first_days today Hv) as (Hmonth & _ & Vm & _ & Hord).
  assert (Hm : 1 <= month today <= 12).
  { unfold valid in Hv. apply valid_ymd_bounds in Hv. lia. }
  destruct (day_before_first (year today) (month today) Vm)
    as [Hsub1 V1]; [lia|].
  fold m1 in Hsub1, V1.
  assert (Hm1 : 1 < fst m1 \/ 1 < snd m1).
  { subst m1. unfold previous_month.
    destruct (Z.ltb_spec 1 (month today)); cbn [fst snd]; lia. }
  destruct (day_before_first (fst m1) (snd m1) V1 Hm1) as [Hsub2 V2].
  fold m2 in Hsub2, V2.
  assert (Hlt1 : toordinal (mkdate (fst m1) (snd m1) 1)
                 < toordinal (mkdate (year today) (month today) 1)).
  { unfold sub_days in Hsub1.
    destruct ((0 <? toordinal (mkdate (year today) (month today) 1) - 1)
              && (toordinal (mkdate (year today) (month today) 1) - 1
                  <=? _MAXORDINAL)) eqn:E; [|discriminate].
    injection Hsub1 as Hsub1.
    assert (Ho : toordinal
                   (fromordinal
                      (toordinal (mkdate (year today) (month today) 1) - 1))
                 = toordinal (mkdate (year today) (month today) 1) - 1).
    { apply andb_prop in E. destruct E as [E1 E2].
      apply Z.ltb_lt in E1. apply Z.leb_le in E2.
      apply fromordinal_spec. lia. }
    rewrite Hsub1 in Ho.
    apply valid_ymd_bounds in V1. destruct V1 as (_ & Hmm & _).
    pose proof (days_in_month_bounds (fst m1) (snd m1) Hmm).
    unfold toordinal, _ymd2ord in *. cbn [year month day] in *. lia. }
  assert (Hlt2 : toordinal (mkdate (fst m2) (snd m2) 1)
                 < toordinal (mkdate (fst m1) (snd m1) 1)).
  { unfold sub_days in Hsub2.
    destruct ((0 <? toordinal (mkdate (fst m1) (snd m1) 1) - 1)
              && (toordinal (mkdate (fst m1) (snd m1) 1) - 1
                  <=? _MAXORDINAL)) eqn:E; [|discriminate].
    injection Hsub2 as Hsub2.
    assert (Ho : toordinal
                   (fromordinal (toordinal (mkdate (fst m1) (snd m1) 1) - 1))
                 = toordinal (mkdate (fst m1) (snd m1) 1) - 1).
    { apply andb_prop in E. destruct E as [E1 E2].
      apply Z.ltb_lt in E1. apply Z.leb_le in E2.
      apply fromordinal_spec. lia. }
    rewrite Hsub2 in Ho.
    apply valid_ymd_bounds in V2. destruct V2 as (_ & Hmm & _).
    pose proof (days_in_month_bounds (fst m2) (snd m2) Hmm).
    unfold toordinal, _ymd2ord in *. cbn [year month day] in *. lia. }
  split; [|split; [exact V2|lia]].
  unfold view_branch_employee_reports_date_range.
  simpl String.eqb. cbv iota.
  rewrite Hmonth. cbn [Datetime.bind]. rewrite Hsub1. cbn [Datetime.bind].
  unfold replace_day, new. cbn [year month day].
  rewrite V1. cbn [Datetime.bind]. rewrite Hsub2. cbn [Datetime.bind].
  cbn [year month day]. rewrite V2. reflexivity.
Qed.

(** [last_three_months_start] at a concrete input. *)
Lemma last_three_months_start_witness :
  view_branch_employee_reports_date_range (mkdate 2024 2 29) "Last 3 Months"
    (mkdate 2024 2 1) (mkdate 2024 2 29)
  = Some (mkdate 2023 12 1, mkdate 2024 2 29)
  /\ valid (mkdate 2023 12 1) = true
  /\ toordinal (mkdate 2023 12 1) < toordinal (mkdate 2024 2 29).
Proof.
  apply (last_three_months_start (mkdate 2024 2 29) (mkdate 2024 2 1)
           (mkdate 2024 2 29)); [reflexivity|cbn; lia].
Defined.

(** X28. The copies of the date calculation agree: on "Today", "This Week"
    and "This Month" [get_date_range_from_filter] computes what
    [view_branch_employee_reports] computes; on "This Month", "Last Month"
    and "Custom Range" [view_my_reports] computes what
    [view_branch_employee_reports] computes; and on every name that is none
    of the presets [view_my_reports] and [get_date_range_from_filter]
    compute the same range. *)
Theorem presets_agree_across_views (today custom_start custom_end : date)
    (date_filter : string) :
  (In date_filter ["Today"; "This Week"; "This Month"]%string ->
   get_date_range_from_filter today date_filter
   = view_branch_employee_reports_date_range today date_filter
       custom_start custom_end)
  /\ (In date_filter ["This Month"; "Last Month"; "Custom Range"]%string ->
      view_my_reports_date_range today date_filter custom_start custom_end
      = view_branch_employee_reports_date_range today date_filter
          custom_start custom_end)
  /\ (~ In date_filter
        ["Today"; "This Week"; "This Month"; "This Year"; "Last Month";
         "Custom Range"]%string ->
      view_my_reports_date_range today date_filter custom_start custom_end
      = get_date_range_from_filter today date_filter).
Proof.
  repeat apply conj.
  - intros [<-|[<-|[<-|[]]]]; reflexivity.
  - intros [<-|[<-|[<-|[]]]]; reflexivity.
  - intros Hnot.
    unfold view_my_reports_date_range, get_date_range_from_filter.
    repeat match goal with
           | |- context [String.eqb date_filter ?s] =>
               destruct (String.eqb_spec date_filter s) as [->|_];
               [exfalso; apply Hnot; cbn; tauto|]
           end.
    reflexivity.
Qed.

End Presets.
